(** * A voxel world engine: chunks, terrain, structures, meshing, streaming

    Shallow embedding of the core of the minecraft-clone repository
    (blocks.ts, chunk.ts, terrain.ts, world.ts, structures.ts,
    inventory.ts) and the properties its specification states about it.

    Conventions of the embedding.
    - A JavaScript number that the source only ever uses as an integer
      (block and chunk coordinates, loop counters, array indices) is a [Z];
      the two agree while magnitudes stay below 2^53.
    - A JavaScript number that carries a fraction (noise values, colours,
      ray positions, priorities) is a binary64 [float], computed with the
      kernel's IEEE 754 operations, which are the ones JavaScript uses.
    - A [Uint8Array] is a primitive persistent array of block types.
    - Objects that are shared by reference (the [Chunk]s held both by the
      world's map and by its rebuild queue) live in an explicit store and
      are named by their address.
    - [Math.random()] is an oracle: the n-th call made by the embedded code
      returns [Math_random n]; the state counts the calls.
    - The rendering back end (THREE scene, materials, point lights) is left
      out; the vertex buffers handed to it are kept. *)

From Stdlib Require Import ZArith Lia Bool List Floats PArray Uint63 String DecimalString.
From stdpp Require Import base option list gmap.

Open Scope Z_scope.

(* Decimal literals such as 0.1 denote the nearest double, as in JavaScript. *)
Set Warnings "-inexact-float".

(** ** JavaScript numbers *)

(** The double nearest to an integer (round to nearest, ties to even).
    Below 2^62 in magnitude the kernel's conversion of a 63-bit integer
    computes it directly. *)
Definition Z2float (z : Z) : float :=
  if Z.abs z <? 4611686018427387904 (* 2^62 *) then
    let f := PrimFloat.of_uint63 (Uint63.of_Z (Z.abs z)) in
    if z <? 0 then (- f)%float else f
  else SF2Prim (binary_normalize prec emax z 0 false).

Definition is_finite (f : float) : bool :=
  match Prim2SF f with
  | S754_finite _ _ _ | S754_zero _ => true
  | _ => false
  end.

(** [Math.floor] of a finite double, as an integer.  The result is 0 on NaN
    and the infinities, where JavaScript returns the argument itself; the
    callers below say what they do with such values. *)
Definition Math_floor (f : float) : Z :=
  match Prim2SF f with
  | S754_finite s m e =>
      let n := if s then Zneg m else Zpos m in
      if 0 <=? e then n * 2 ^ e else n / 2 ^ (- e)
  | _ => 0
  end.

(** Truncation toward zero, and the [ToInt32] conversion that the bit
    operators [^], [&], [>>] apply to their operands. *)
Definition truncZ (f : float) : Z :=
  match Prim2SF f with
  | S754_finite s m e =>
      let a := if 0 <=? e then Zpos m * 2 ^ e else Zpos m / 2 ^ (- e) in
      if s then - a else a
  | _ => 0
  end.

Definition ToInt32 (f : float) : Z :=
  let n := truncZ f mod 4294967296 (* 2^32 *) in
  if n <? 2147483648 then n else n - 4294967296.

Definition Math_abs (f : float) : float := PrimFloat.abs f.
Definition Math_sqrt (f : float) : float := PrimFloat.sqrt f.

Definition Math_sign (f : float) : float :=
  if PrimFloat.ltb 0 f then 1%float
  else if PrimFloat.ltb f 0 then (-1)%float
  else f.

(** [Math.min(a, b)] and [Math.max(a, b)] on numbers that are not both zero. *)
Definition Math_min (a b : float) : float :=
  if PrimFloat.is_nan a then a
  else if PrimFloat.is_nan b then b
  else if PrimFloat.ltb b a then b else a.

Definition Math_max (a b : float) : float :=
  if PrimFloat.is_nan a then a
  else if PrimFloat.is_nan b then b
  else if PrimFloat.ltb a b then b else a.

(** The remainder [a % 32] of a double (exact, with the sign of [a]). *)
Definition rem32 (a : float) : float :=
  match Prim2SF a with
  | S754_finite s m e =>
      let r :=
        if 5 <=? e then 0
        else if 0 <=? e then (Zpos m * 2 ^ e) mod 32
        else Zpos m mod 2 ^ (5 - e) in
      let e' := if 0 <=? e then 0 else e in
      let v := SF2Prim (binary_normalize prec emax r e' false) in
      if s then (- v)%float else v
  | S754_zero _ => a
  | _ => PrimFloat.nan
  end.

(** Whether a finite double is an integer, and which one. *)
Definition is_integer (f : float) : bool :=
  is_finite f && PrimFloat.eqb (Z2float (Math_floor f)) f.

(** Loop ranges: [lo, lo+1, ..., hi] and [hi, hi-1, ..., lo]. *)
Definition upto (lo hi : Z) : list Z := seqZ lo (hi - lo + 1).
Definition downto (hi lo : Z) : list Z := reverse (seqZ lo (hi - lo + 1)).

(** [for (const i of l) s = body(i, s)] *)
Definition for_each {A S : Type} (l : list A) (body : A -> S -> S) (s : S) : S :=
  foldl (fun s i => body i s) s l.

(** ** blocks.ts *)

Inductive BlockType : Set :=
  | AIR | GRASS | DIRT | STONE | SAND | WATER | WOOD | LEAVES | BEDROCK
  | COAL_ORE | IRON_ORE | GOLD_ORE | DIAMOND_ORE | SNOW | GLASS | BRICK
  | COBBLESTONE | PLANKS | TORCH
  | RED_SAND | TERRACOTTA | ORANGE_TERRACOTTA | YELLOW_TERRACOTTA
  | RED_TERRACOTTA | BROWN_TERRACOTTA | WHITE_TERRACOTTA
  | GRAVEL | CLAY | PRISMARINE
  | NETHERRACK | SOUL_SAND | GLOWSTONE | NETHER_BRICK | NETHER_QUARTZ_ORE
  | MAGMA | BASALT | BLACKSTONE | CRIMSON_NYLIUM | WARPED_NYLIUM
  | OBSIDIAN | PORTAL
  | END_STONE | END_STONE_BRICKS | PURPUR_BLOCK | CHORUS_PLANT
  | CHORUS_FLOWER | END_PORTAL | DRAGON_EGG
  | CRAFTING_TABLE | CHEST | FURNACE.

(** The numeric value of each enum member: the byte a chunk stores. *)
Definition BlockType_code (b : BlockType) : Z :=
  match b with
  | AIR => 0 | GRASS => 1 | DIRT => 2 | STONE => 3 | SAND => 4 | WATER => 5
  | WOOD => 6 | LEAVES => 7 | BEDROCK => 8 | COAL_ORE => 9 | IRON_ORE => 10
  | GOLD_ORE => 11 | DIAMOND_ORE => 12 | SNOW => 13 | GLASS => 14
  | BRICK => 15 | COBBLESTONE => 16 | PLANKS => 17 | TORCH => 18
  | RED_SAND => 19 | TERRACOTTA => 20 | ORANGE_TERRACOTTA => 21
  | YELLOW_TERRACOTTA => 22 | RED_TERRACOTTA => 23 | BROWN_TERRACOTTA => 24
  | WHITE_TERRACOTTA => 25 | GRAVEL => 26 | CLAY => 27 | PRISMARINE => 28
  | NETHERRACK => 29 | SOUL_SAND => 30 | GLOWSTONE => 31 | NETHER_BRICK => 32
  | NETHER_QUARTZ_ORE => 33 | MAGMA => 34 | BASALT => 35 | BLACKSTONE => 36
  | CRIMSON_NYLIUM => 37 | WARPED_NYLIUM => 38 | OBSIDIAN => 39 | PORTAL => 40
  | END_STONE => 41 | END_STONE_BRICKS => 42 | PURPUR_BLOCK => 43
  | CHORUS_PLANT => 44 | CHORUS_FLOWER => 45 | END_PORTAL => 46
  | DRAGON_EGG => 47 | CRAFTING_TABLE => 48 | CHEST => 49 | FURNACE => 50
  end.

(** [a === b] on block types. *)
Definition BlockType_eqb (a b : BlockType) : bool :=
  BlockType_code a =? BlockType_code b.

Definition RGB : Type := (Z * Z * Z)%type.

Record BlockInfo := {
  name : string;
  solid : bool;
  transparent : bool;
  color : RGB;
  topColor : option RGB;
  bottomColor : option RGB
}.

Definition mkBlock (n : string) (s t : bool) (c : RGB) : BlockInfo :=
  {| name := n; solid := s; transparent := t; color := c;
     topColor := None; bottomColor := None |}.

Definition BLOCKS (b : BlockType) : BlockInfo :=
  match b with
  | AIR => mkBlock "Air" false true (0, 0, 0)
  | GRASS =>
      {| name := "Grass"; solid := true; transparent := false;
         color := (134, 96, 67); topColor := Some (95, 159, 53);
         bottomColor := Some (134, 96, 67) |}
  | DIRT => mkBlock "Dirt" true false (134, 96, 67)
  | STONE => mkBlock "Stone" true false (128, 128, 128)
  | SAND => mkBlock "Sand" true false (219, 211, 160)
  | WATER => mkBlock "Water" false true (64, 164, 223)
  | WOOD => mkBlock "Wood" true false (156, 127, 78)
  | LEAVES => mkBlock "Leaves" true true (67, 124, 37)
  | BEDROCK => mkBlock "Bedrock" true false (50, 50, 50)
  | COAL_ORE => mkBlock "Coal Ore" true false (70, 70, 70)
  | IRON_ORE => mkBlock "Iron Ore" true false (136, 130, 127)
  | GOLD_ORE => mkBlock "Gold Ore" true false (143, 140, 125)
  | DIAMOND_ORE => mkBlock "Diamond Ore" true false (129, 140, 143)
  | SNOW => mkBlock "Snow" true false (240, 240, 255)
  | GLASS => mkBlock "Glass" true true (200, 220, 255)
  | BRICK => mkBlock "Brick" true false (156, 91, 77)
  | COBBLESTONE => mkBlock "Cobblestone" true false (100, 100, 100)
  | PLANKS => mkBlock "Planks" true false (180, 144, 90)
  | TORCH => mkBlock "Torch" false true (255, 200, 50)
  | RED_SAND => mkBlock "Red Sand" true false (190, 102, 53)
  | TERRACOTTA => mkBlock "Terracotta" true false (152, 94, 67)
  | ORANGE_TERRACOTTA => mkBlock "Orange Terracotta" true false (161, 83, 37)
  | YELLOW_TERRACOTTA => mkBlock "Yellow Terracotta" true false (186, 133, 35)
  | RED_TERRACOTTA => mkBlock "Red Terracotta" true false (143, 61, 46)
  | BROWN_TERRACOTTA => mkBlock "Brown Terracotta" true false (77, 51, 35)
  | WHITE_TERRACOTTA => mkBlock "White Terracotta" true false (209, 178, 161)
  | GRAVEL => mkBlock "Gravel" true false (136, 126, 126)
  | CLAY => mkBlock "Clay" true false (160, 166, 179)
  | PRISMARINE => mkBlock "Prismarine" true false (99, 171, 158)
  | NETHERRACK => mkBlock "Netherrack" true false (111, 54, 53)
  | SOUL_SAND => mkBlock "Soul Sand" true false (81, 62, 50)
  | GLOWSTONE => mkBlock "Glowstone" true false (255, 240, 180)
  | NETHER_BRICK => mkBlock "Nether Brick" true false (44, 22, 26)
  | NETHER_QUARTZ_ORE => mkBlock "Nether Quartz Ore" true false (117, 65, 62)
  | MAGMA => mkBlock "Magma Block" true false (200, 100, 50)
  | BASALT => mkBlock "Basalt" true false (72, 72, 78)
  | BLACKSTONE => mkBlock "Blackstone" true false (42, 36, 41)
  | CRIMSON_NYLIUM =>
      {| name := "Crimson Nylium"; solid := true; transparent := false;
         color := (111, 54, 53); topColor := Some (167, 54, 77);
         bottomColor := None |}
  | WARPED_NYLIUM =>
      {| name := "Warped Nylium"; solid := true; transparent := false;
         color := (111, 54, 53); topColor := Some (22, 126, 134);
         bottomColor := None |}
  | OBSIDIAN => mkBlock "Obsidian" true false (15, 10, 24)
  | PORTAL => mkBlock "Portal" false true (148, 77, 229)
  | END_STONE => mkBlock "End Stone" true false (219, 222, 158)
  | END_STONE_BRICKS => mkBlock "End Stone Bricks" true false (226, 230, 171)
  | PURPUR_BLOCK => mkBlock "Purpur Block" true false (169, 125, 169)
  | CHORUS_PLANT => mkBlock "Chorus Plant" true false (92, 54, 92)
  | CHORUS_FLOWER => mkBlock "Chorus Flower" true false (151, 120, 151)
  | END_PORTAL => mkBlock "End Portal" false true (20, 20, 30)
  | DRAGON_EGG => mkBlock "Dragon Egg" true false (12, 9, 15)
  | CRAFTING_TABLE =>
      {| name := "Crafting Table"; solid := true; transparent := false;
         color := (139, 90, 43); topColor := Some (101, 67, 33);
         bottomColor := None |}
  | CHEST =>
      {| name := "Chest"; solid := true; transparent := false;
         color := (139, 90, 43); topColor := Some (110, 70, 35);
         bottomColor := None |}
  | FURNACE =>
      {| name := "Furnace"; solid := true; transparent := false;
         color := (100, 100, 100); topColor := Some (80, 80, 80);
         bottomColor := None |}
  end.

(** ** chunk.ts *)

Definition CHUNK_SIZE : Z := 32.
Definition CHUNK_HEIGHT : Z := 128.

Inductive Face := FaceRight | FaceLeft | FaceTop | FaceBottom | FaceFront | FaceBack.

Definition Vec3i : Type := (Z * Z * Z)%type.

Record FaceDirection := {
  dir : Vec3i;
  corners : list Vec3i;
  face : Face     (* the [name] field: 'right', 'left', 'top', ... *)
}.

(** Direction vectors for block faces *)
Definition DIRECTIONS : list FaceDirection := [
  {| dir := (1, 0, 0); corners := [(1, 0, 0); (1, 1, 0); (1, 1, 1); (1, 0, 1)]; face := FaceRight |};
  {| dir := (-1, 0, 0); corners := [(0, 0, 1); (0, 1, 1); (0, 1, 0); (0, 0, 0)]; face := FaceLeft |};
  {| dir := (0, 1, 0); corners := [(0, 1, 1); (1, 1, 1); (1, 1, 0); (0, 1, 0)]; face := FaceTop |};
  {| dir := (0, -1, 0); corners := [(0, 0, 0); (1, 0, 0); (1, 0, 1); (0, 0, 1)]; face := FaceBottom |};
  {| dir := (0, 0, 1); corners := [(0, 0, 1); (1, 0, 1); (1, 1, 1); (0, 1, 1)]; face := FaceFront |};
  {| dir := (0, 0, -1); corners := [(1, 0, 0); (0, 0, 0); (0, 1, 0); (1, 1, 0)]; face := FaceBack |}
].

(** A JavaScript array that is only ever pushed to: its [length] and its
    elements, newest first. *)
Record JSArray (A : Type) := { arr_length : Z; arr_rev : list A }.
Arguments arr_length {A} _.
Arguments arr_rev {A} _.

Definition arr_empty {A : Type} : JSArray A := {| arr_length := 0; arr_rev := [] |}.

(** [a.push(x1, ..., xn)] *)
Definition push {A : Type} (a : JSArray A) (xs : list A) : JSArray A :=
  {| arr_length := arr_length a + Z.of_nat (length xs);
     arr_rev := rev_append xs (arr_rev a) |}.

(** The elements in index order. *)
Definition contents {A : Type} (a : JSArray A) : list A := reverse (arr_rev a).

(** The [{x, y, z}] objects of the torch list. *)
Record Position := { pos_x : Z; pos_y : Z; pos_z : Z }.

(** The attributes given to a [THREE.BufferGeometry]; the solid mesh has an
    'ao' attribute, the water mesh has none.  (The attributes are stored as
    Float32Array; the lists below are the arrays they are created from.) *)
Record MeshData := {
  attr_position : list Z;
  attr_normal : list Z;
  attr_color : list float;
  attr_uv : list Z;
  attr_ao : option (list float);
  geometry_index : list Z
}.

Record Chunk := {
  blocks : array BlockType;
  mesh : option MeshData;
  waterMesh : option MeshData;
  torchPositions : list Position;
  needsRebuild : bool;
  isGenerated : bool;
  chunkX : Z;
  chunkZ : Z
}.

Definition CHUNK_VOLUME : Z := CHUNK_SIZE * CHUNK_HEIGHT * CHUNK_SIZE.

(** [new Chunk(chunkX, chunkZ)] *)
Definition Chunk_new (cx cz : Z) : Chunk :=
  {| blocks := PArray.make (Uint63.of_Z CHUNK_VOLUME) AIR;
     mesh := None; waterMesh := None; torchPositions := [];
     needsRebuild := true; isGenerated := false;
     chunkX := cx; chunkZ := cz |}.

Definition Chunk_getBlockIndex (x y z : Z) : Z :=
  y * CHUNK_SIZE * CHUNK_SIZE + z * CHUNK_SIZE + x.

Definition out_of_chunk (x y z : Z) : bool :=
  (x <? 0) || (x >=? CHUNK_SIZE) || (y <? 0) || (y >=? CHUNK_HEIGHT)
  || (z <? 0) || (z >=? CHUNK_SIZE).

Definition Chunk_getBlock (c : Chunk) (x y z : Z) : BlockType :=
  if out_of_chunk x y z then AIR
  else PArray.get (blocks c) (Uint63.of_Z (Chunk_getBlockIndex x y z)).

Definition Chunk_setBlock (c : Chunk) (x y z : Z) (type : BlockType) : Chunk :=
  if out_of_chunk x y z then c
  else
    {| blocks := PArray.set (blocks c) (Uint63.of_Z (Chunk_getBlockIndex x y z)) type;
       mesh := mesh c; waterMesh := waterMesh c;
       torchPositions := torchPositions c;
       needsRebuild := true;
       isGenerated := isGenerated c;
       chunkX := chunkX c; chunkZ := chunkZ c |}.

(** Calculate ambient occlusion for a vertex *)
Definition Chunk_calculateAO (x y z : Z) (d1 d2 : Vec3i)
    (getBlock : Z -> Z -> Z -> BlockType) : Z :=
  let '(d1x, d1y, d1z) := d1 in
  let '(d2x, d2y, d2z) := d2 in
  let side1 := if solid (BLOCKS (getBlock (x + d1x) (y + d1y) (z + d1z))) then 1 else 0 in
  let side2 := if solid (BLOCKS (getBlock (x + d2x) (y + d2y) (z + d2z))) then 1 else 0 in
  let corner :=
    if solid (BLOCKS (getBlock (x + d1x + d2x) (y + d1y + d2y) (z + d1z + d2z)))
    then 1 else 0 in
  if (negb (side1 =? 0)) && (negb (side2 =? 0)) then 0   (* Full occlusion *)
  else 3 - (side1 + side2 + corner).                     (* 0-3 scale *)

(** The local arrays of [buildMesh]. *)
Record Geometry := {
  positions : JSArray Z;
  normals : JSArray Z;
  colors : JSArray float;
  uvs : JSArray Z;
  indices : JSArray Z
}.

Definition Geometry_empty : Geometry :=
  {| positions := arr_empty; normals := arr_empty; colors := arr_empty;
     uvs := arr_empty; indices := arr_empty |}.

Record MeshArrays := {
  solidArrays : Geometry;      (* positions, normals, colors, uvs, indices *)
  aos : JSArray float;
  waterArrays : Geometry;      (* waterPositions, waterNormals, ... *)
  torchArray : JSArray Position  (* this.torchPositions *)
}.

(** AO directions based on face *)
Definition aoOffsets (f : Face) : list (Vec3i * Vec3i) :=
  match f with
  | FaceTop =>
      [((-1, 1, 0), (0, 1, -1)); ((1, 1, 0), (0, 1, -1));
       ((1, 1, 0), (0, 1, 1)); ((-1, 1, 0), (0, 1, 1))]
  | FaceBottom =>
      [((-1, -1, 0), (0, -1, 1)); ((1, -1, 0), (0, -1, 1));
       ((1, -1, 0), (0, -1, -1)); ((-1, -1, 0), (0, -1, -1))]
  | FaceFront =>
      [((-1, 0, 1), (0, -1, 1)); ((1, 0, 1), (0, -1, 1));
       ((1, 0, 1), (0, 1, 1)); ((-1, 0, 1), (0, 1, 1))]
  | FaceBack =>
      [((1, 0, -1), (0, -1, -1)); ((-1, 0, -1), (0, -1, -1));
       ((-1, 0, -1), (0, 1, -1)); ((1, 0, -1), (0, 1, -1))]
  | FaceRight =>
      [((1, 0, -1), (1, -1, 0)); ((1, 0, 1), (1, -1, 0));
       ((1, 0, 1), (1, 1, 0)); ((1, 0, -1), (1, 1, 0))]
  | FaceLeft =>
      [((-1, 0, 1), (-1, -1, 0)); ((-1, 0, -1), (-1, -1, 0));
       ((-1, 0, -1), (-1, 1, 0)); ((-1, 0, 1), (-1, 1, 0))]
  end.

(** Minecraft-style directional face lighting *)
Definition lightMod (f : Face) : float :=
  match f with
  | FaceTop => 1.0
  | FaceLeft | FaceRight => 0.8
  | FaceFront | FaceBack => 0.9
  | FaceBottom => 0.5
  end%float.

(** Get color based on face *)
Definition faceColor (blockInfo : BlockInfo) (f : Face) : RGB :=
  match f, topColor blockInfo, bottomColor blockInfo with
  | FaceTop, Some c, _ => c
  | FaceBottom, _, Some c => c
  | _, _, _ => color blockInfo
  end.

Section BuildMesh.
Variable this : Chunk.
Variable getNeighborBlock : Z -> Z -> Z -> BlockType.

Let worldOffsetX := chunkX this * CHUNK_SIZE.
Let worldOffsetZ := chunkZ this * CHUNK_SIZE.

(** Helper to get block at world position *)
Definition getBlockAt (wx wy wz : Z) : BlockType :=
  let lx := wx - worldOffsetX in
  let lz := wz - worldOffsetZ in
  if (lx <? 0) || (lx >=? CHUNK_SIZE) || (lz <? 0) || (lz >=? CHUNK_SIZE)
  then getNeighborBlock wx wy wz
  else if (wy <? 0) || (wy >=? CHUNK_HEIGHT) then AIR
  else Chunk_getBlock this lx wy lz.

(** The block on the other side of a face of the block at [(x, y, z)]. *)
Definition neighborBlock (x y z : Z) (d : FaceDirection) : BlockType :=
  let '(dx, dy, dz) := dir d in
  let nx := x + dx in
  let ny := y + dy in
  let nz := z + dz in
  if (nx <? 0) || (nx >=? CHUNK_SIZE) || (nz <? 0) || (nz >=? CHUNK_SIZE)
  then getNeighborBlock (worldOffsetX + nx) ny (worldOffsetZ + nz)
  else if (ny <? 0) || (ny >=? CHUNK_HEIGHT) then AIR
  else Chunk_getBlock this nx ny nz.

(** Skip face if neighbor is solid and opaque (or same block type for water) *)
Definition faceSkipped (isWater : bool) (nb : BlockType) : bool :=
  let neighborInfo := BLOCKS nb in
  if isWater
  then BlockType_eqb nb WATER || (solid neighborInfo && negb (transparent neighborInfo))
  else solid neighborInfo && negb (transparent neighborInfo).

(** Calculate ambient occlusion for each corner *)
Definition faceAO (isWater : bool) (wx y wz : Z) (f : Face) : list Z :=
  if negb isWater
  then map (fun '(d1, d2) => Chunk_calculateAO wx y wz d1 d2 getBlockAt) (aoOffsets f)
  else [3; 3; 3; 3].   (* No AO for water *)

(** The four vertices of one visible face, then its two triangles. *)
Definition emitFace (blockType : BlockType) (x y z : Z) (d : FaceDirection)
    (target : Geometry) (aos : JSArray float) : Geometry * JSArray float :=
  let blockInfo := BLOCKS blockType in
  let isWater := BlockType_eqb blockType WATER in
  let isGlowing := BlockType_eqb blockType GLOWSTONE || BlockType_eqb blockType MAGMA in
  let wx := worldOffsetX + x in
  let wz := worldOffsetZ + z in
  let '(cr, cg, cb) := faceColor blockInfo (face d) in
  let lightMod := lightMod (face d) in
  (* Glowing blocks emit HDR light for bloom effect *)
  let emissiveBoost := (if isGlowing then 2.0 else 0)%float in
  let aoValues := faceAO isWater wx y wz (face d) in
  let ndx := arr_length (positions target) / 3 in
  let blockSeed :=
    Z.lxor (Z.lxor (ToInt32 (Z2float wx * 73856093)) (ToInt32 (Z2float y * 19349663)))
           (ToInt32 (Z2float wz * 83492791)) in
  let faceVariation :=
    (Z2float (Z.land (Z.shiftr blockSeed 8) 255) / 255 * 0.12 - 0.06)%float in
  let '(target, aos) :=
    for_each (upto 0 (Z.of_nat (length (corners d)) - 1))
      (fun i '(target, aos) =>
         let '(c0, c1, c2) := nth (Z.to_nat i) (corners d) (0, 0, 0) in
         let '(dx, dy, dz) := dir d in
         let aoValue := nth (Z.to_nat i) aoValues 0 in
         (* Apply AO to color (0=dark, 3=bright) *)
         let aoFactor := (if isWater then 1.0 else 0.5 + Z2float aoValue / 6)%float in
         let finalLight := (lightMod * aoFactor)%float in
         let cornerSeed := Z.land (blockSeed + i * 12345) 65535 in
         let cornerVariation := (Z2float cornerSeed / 65535 * 0.06 - 0.03)%float in
         let totalVariation := (faceVariation + cornerVariation)%float in
         let r := (Z2float cr / 255 * finalLight + totalVariation + emissiveBoost)%float in
         let g := (Z2float cg / 255 * finalLight + totalVariation + emissiveBoost)%float in
         let b := (Z2float cb / 255 * finalLight + totalVariation + emissiveBoost)%float in
         let clamp v := if isGlowing then v else Math_min 1 v in
         ({| positions := push (positions target) [x + c0; y + c1; z + c2];
             normals := push (normals target) [dx; dy; dz];
             colors := push (colors target) [clamp r; clamp g; clamp b];
             uvs := push (uvs target)
                      [(if c0 =? c2 then c1 else c0); (if c1 =? 0 then 0 else 1)];
             indices := indices target |},
          if negb isWater then push aos [(Z2float aoValue / 3)%float] else aos))
      (target, aos) in
  ({| positions := positions target; normals := normals target;
      colors := colors target; uvs := uvs target;
      indices := push (indices target) [ndx; ndx + 1; ndx + 2; ndx; ndx + 2; ndx + 3] |},
   aos).

(** One iteration of [for (const { dir, corners, name } of DIRECTIONS)]. *)
Definition buildFace (blockType : BlockType) (x y z : Z) (d : FaceDirection)
    (st : MeshArrays) : MeshArrays :=
  let isWater := BlockType_eqb blockType WATER in
  if faceSkipped isWater (neighborBlock x y z d) then st
  else if isWater then
    let '(g, a) := emitFace blockType x y z d (waterArrays st) (aos st) in
    {| solidArrays := solidArrays st; aos := a; waterArrays := g;
       torchArray := torchArray st |}
  else
    let '(g, a) := emitFace blockType x y z d (solidArrays st) (aos st) in
    {| solidArrays := g; aos := a; waterArrays := waterArrays st;
       torchArray := torchArray st |}.

(** The body of the three nested loops over the chunk's blocks. *)
Definition buildBlock (x y z : Z) (st : MeshArrays) : MeshArrays :=
  let blockType := Chunk_getBlock this x y z in
  match blockType with
  | AIR => st
  | TORCH =>
      (* Track torch positions for special rendering *)
      {| solidArrays := solidArrays st; aos := aos st; waterArrays := waterArrays st;
         torchArray := push (torchArray st)
           [{| pos_x := worldOffsetX + x; pos_y := y; pos_z := worldOffsetZ + z |}] |}
  | _ => for_each DIRECTIONS (buildFace blockType x y z) st
  end.

Definition Chunk_buildMesh_arrays : MeshArrays :=
  for_each (upto 0 (CHUNK_HEIGHT - 1)) (fun y =>
    for_each (upto 0 (CHUNK_SIZE - 1)) (fun z =>
      for_each (upto 0 (CHUNK_SIZE - 1)) (fun x => buildBlock x y z)))
    {| solidArrays := Geometry_empty; aos := arr_empty;
       waterArrays := Geometry_empty;
       torchArray := arr_empty (* Reset torch positions *) |}.

Definition Chunk_buildMesh : Chunk :=
  let a := Chunk_buildMesh_arrays in
  let s := solidArrays a in
  let w := waterArrays a in
  {| blocks := blocks this;
     mesh :=
       if 0 <? arr_length (positions s) then
         Some {| attr_position := contents (positions s);
                 attr_normal := contents (normals s);
                 attr_color := contents (colors s);
                 attr_uv := contents (uvs s);
                 attr_ao := Some (contents (aos a));
                 geometry_index := contents (indices s) |}
       else None;
     waterMesh :=
       if 0 <? arr_length (positions w) then
         Some {| attr_position := contents (positions w);
                 attr_normal := contents (normals w);
                 attr_color := contents (colors w);
                 attr_uv := contents (uvs w);
                 attr_ao := None;
                 geometry_index := contents (indices w) |}
       else None;
     torchPositions := contents (torchArray a);
     needsRebuild := false;
     isGenerated := isGenerated this;
     chunkX := chunkX this; chunkZ := chunkZ this |}.
End BuildMesh.

(** ** terrain.ts *)

(** The six noise fields of a [TerrainGenerator].  The constructor builds
    them from the seed string with the simplex-noise library; they are fixed
    after construction. *)
Record TerrainGenerator := {
  noise2D : float -> float -> float;
  noise3D : float -> float -> float -> float;
  caveNoise : float -> float -> float -> float;
  caveNoise2 : float -> float -> float -> float;
  ravinNoise : float -> float -> float -> float;
  treeNoise : float -> float -> float
}.

Definition SEA_LEVEL : Z := 40.
Definition BASE_HEIGHT : Z := 45.

Inductive Biome := plains | desert | mountains | forest | mesa | ocean.

Section Terrain.
Variable this : TerrainGenerator.
(** [Math_random n] is what the n-th call of [Math.random()] returns. *)
Variable Math_random : nat -> float.

(** Multi-octave noise for terrain *)
Fixpoint fbm2D_loop (octaves : nat) (x z value amplitude frequency maxValue persistence : float)
    : float :=
  match octaves with
  | O => (value / maxValue)%float
  | S n =>
      fbm2D_loop n x z
        (value + noise2D this (x * frequency) (z * frequency) * amplitude)%float
        (amplitude * persistence)%float
        (frequency * 2)%float
        (maxValue + amplitude)%float
        persistence
  end.

Definition fbm2D (x z : Z) (octaves : nat) (persistence scale : float) : float :=
  fbm2D_loop octaves (Z2float x) (Z2float z) 0 1 scale 0 persistence.

Definition getTerrainHeight (worldX worldZ : Z) : Z :=
  (* Large scale terrain features *)
  let continentalness := fbm2D worldX worldZ 4 0.5 0.001 in
  (* Medium scale hills *)
  let hills := fbm2D (worldX + 1000) (worldZ + 1000) 4 0.5 0.008 in
  (* Small scale variation *)
  let detail := fbm2D (worldX + 2000) (worldZ + 2000) 3 0.5 0.03 in
  (* Combine different scales *)
  let height :=
    (Z2float BASE_HEIGHT + continentalness * 30 + hills * 15 + detail * 5)%float in
  Math_floor height.

(** Get terracotta layer for mesa biome - creates striped layers *)
Definition getMesaTerracottaLayer (y : Z) : BlockType :=
  let layerPattern := [
    TERRACOTTA; TERRACOTTA; ORANGE_TERRACOTTA; TERRACOTTA; YELLOW_TERRACOTTA;
    TERRACOTTA; RED_TERRACOTTA; TERRACOTTA; BROWN_TERRACOTTA; TERRACOTTA;
    WHITE_TERRACOTTA; TERRACOTTA; ORANGE_TERRACOTTA; YELLOW_TERRACOTTA ] in
  nth (Z.to_nat (Z.rem y (Z.of_nat (length layerPattern)))) layerPattern AIR.

Definition getBiome (worldX worldZ : Z) : Biome :=
  let temperature := fbm2D (worldX + 5000) (worldZ + 5000) 2 0.5 0.0015 in
  let moisture := fbm2D (worldX + 6000) (worldZ + 6000) 2 0.5 0.0015 in
  let continentalness := fbm2D (worldX + 7000) (worldZ + 7000) 2 0.5 0.001 in
  (* Ocean biome for low continentalness *)
  if (continentalness <? -0.3)%float then ocean
  (* Mesa/badlands - hot and very dry *)
  else if (0.4 <? temperature)%float && (moisture <? -0.2)%float then mesa
  else if (0.3 <? temperature)%float && (moisture <? 0)%float then desert
  else if (0.4 <? fbm2D worldX worldZ 2 0.5 0.002)%float then mountains
  else if (0.2 <? moisture)%float then forest
  else plains.

(** Enhanced ore generation with multiple layers and frequencies *)
Definition oreBlock (worldX y worldZ : Z) : BlockType :=
  let fx := Z2float worldX in
  let fy := Z2float y in
  let fz := Z2float worldZ in
  let blockType := STONE in
  if 3 <? y then
    (* Coal ore (abundant, all levels) *)
    let coalNoise := noise3D this (fx * 0.15) (fy * 0.15) (fz * 0.15)%float in
    let blockType :=
      if (0.65 <? coalNoise)%float && (y <? 80) then COAL_ORE else blockType in
    (* Iron ore (common in lower levels) *)
    let ironNoise := noise3D this (fx * 0.12 + 100) (fy * 0.12) (fz * 0.12 + 100)%float in
    let blockType :=
      if (0.7 <? ironNoise)%float && (y <? 64) then IRON_ORE else blockType in
    (* Gold ore (rare, deep only) *)
    let goldNoise := noise3D this (fx * 0.1 + 200) (fy * 0.1) (fz * 0.1 + 200)%float in
    let blockType :=
      if (0.75 <? goldNoise)%float && (y <? 32) then GOLD_ORE else blockType in
    (* Diamond ore (very rare, very deep) *)
    let diamondNoise := noise3D this (fx * 0.08 + 300) (fy * 0.08) (fz * 0.08 + 300)%float in
    if (0.8 <? diamondNoise)%float && (y <? 16) then DIAMOND_ORE else blockType
  else blockType.

(** Enhanced cave generation with multiple layers *)
Definition isCave (worldX y worldZ : Z) : bool :=
  let fx := Z2float worldX in
  let fy := Z2float y in
  let fz := Z2float worldZ in
  (* Main cave system - spaghetti caves *)
  let caveValue := caveNoise this (fx * 0.03) (fy * 0.05) (fz * 0.03)%float in
  let caveValue2 := caveNoise2 this (fx * 0.05) (fy * 0.03) (fz * 0.05)%float in
  (* Deep tunnels - larger, longer tunnels at depth *)
  let deepTunnel := caveNoise this (fx * 0.015 + 500) (fy * 0.02) (fz * 0.015 + 500)%float in
  let deepTunnel2 := caveNoise2 this (fx * 0.02 + 500) (fy * 0.015) (fz * 0.02 + 500)%float in
  (* Cavern rooms - large open spaces deep underground *)
  let cavernNoise := caveNoise this (fx * 0.008) (fy * 0.02) (fz * 0.008)%float in
  let cavernRoom := (y <? 40) && (0.6 <? cavernNoise)%float in
  (* Ravines - vertical cuts *)
  let ravineNoise := ravinNoise this (fx * 0.02) (fy * 0.1) (fz * 0.02)%float in
  let ravineNoise2 := ravinNoise this (fx * 0.03) 0 (fz * 0.03)%float in
  let ravine :=
    (Math_abs ravineNoise <? 0.08)%float && (0.5 <? ravineNoise2)%float && (y <? 50) in
  (* Combine cave systems *)
  let isMainCave := (0.5 <? caveValue)%float && (0.4 <? caveValue2)%float in
  let isDeepTunnel :=
    (y <? 45) && (0.55 <? deepTunnel)%float && (0.35 <? deepTunnel2)%float in
  isMainCave || isDeepTunnel || cavernRoom || ravine.

(** The block chosen for one cell of a column in the first pass, and the
    number of [Math.random()] calls made so far. *)
Definition terrainBlock (worldX worldZ height : Z) (biome : Biome) (y : Z) (calls : nat)
    : BlockType * nat :=
  let '(blockType, calls) :=
    if y =? 0 then (BEDROCK, calls)
    else if y <? height - 4 then (oreBlock worldX y worldZ, calls)
    else if y <? height then
      (* Underground layers based on biome *)
      (match biome with
       | desert => SAND
       | mesa => getMesaTerracottaLayer y
       | ocean => if y <? height - 2 then STONE else GRAVEL
       | _ => DIRT
       end, calls)
    else if y =? height then
      (* Surface block *)
      match biome with
      | desert => (SAND, calls)
      | mesa => (RED_SAND, calls)
      | ocean =>
          (if (Math_random calls <? 0.3)%float then CLAY else GRAVEL, S calls)
      | _ => (if 70 <? height then SNOW else GRASS, calls)
      end
    else if (y <=? SEA_LEVEL) && (height <? y) then (WATER, calls)
    else (AIR, calls) in
  if (1 <? y) && (y <? height - 2) && negb (BlockType_eqb blockType BEDROCK)
  then (if isCave worldX y worldZ then AIR else blockType, calls)
  else (blockType, calls).

Definition generateTree (x y z : Z) (st : Chunk * nat) : Chunk * nat :=
  let '(chunk, calls) := st in
  let trunkHeight := 4 + Math_floor (Math_random calls * 3)%float in
  let calls := S calls in
  (* Trunk *)
  let chunk :=
    for_each (upto 0 (trunkHeight - 1)) (fun ty chunk =>
      if y + ty <? CHUNK_HEIGHT then Chunk_setBlock chunk x (y + ty) z WOOD else chunk)
      chunk in
  (* Leaves (simple sphere-ish shape) *)
  let leavesStart := y + trunkHeight - 2 in
  let leavesRadius := 2 in
  let chunk :=
    for_each (upto (- leavesRadius) leavesRadius) (fun lx =>
      for_each (upto (- leavesRadius) leavesRadius) (fun lz =>
        for_each (upto 0 (leavesRadius + 1)) (fun ly chunk =>
          let dist := Math_sqrt (Z2float (lx * lx + lz * lz + (ly - 1) * (ly - 1))) in
          if (dist <=? Z2float leavesRadius + 0.5)%float then
            let nx := x + lx in
            let ny := leavesStart + ly in
            let nz := z + lz in
            if (0 <=? nx) && (nx <? CHUNK_SIZE) && (ny <? CHUNK_HEIGHT)
               && (0 <=? nz) && (nz <? CHUNK_SIZE)
            then
              if BlockType_eqb (Chunk_getBlock chunk nx ny nz) AIR
              then Chunk_setBlock chunk nx ny nz LEAVES
              else chunk
            else chunk
          else chunk)))
      chunk in
  (chunk, calls).

(** [chunk] is filled in place; the result is the chunk afterwards, with
    the count of [Math.random()] calls. *)
Definition TerrainGenerator_generateChunk (st : Chunk * nat) : Chunk * nat :=
  let worldOffsetX := chunkX (fst st) * CHUNK_SIZE in
  let worldOffsetZ := chunkZ (fst st) * CHUNK_SIZE in
  (* First pass: terrain *)
  let st :=
    for_each (upto 0 (CHUNK_SIZE - 1)) (fun x =>
      for_each (upto 0 (CHUNK_SIZE - 1)) (fun z st =>
        let worldX := worldOffsetX + x in
        let worldZ := worldOffsetZ + z in
        let height := getTerrainHeight worldX worldZ in
        let biome := getBiome worldX worldZ in
        for_each (upto 0 (CHUNK_HEIGHT - 1)) (fun y '(chunk, calls) =>
          let '(blockType, calls) := terrainBlock worldX worldZ height biome y calls in
          (Chunk_setBlock chunk x y z blockType, calls))
          st))
      st in
  (* Second pass: trees (only on solid ground above sea level) *)
  let st :=
    for_each (upto 2 (CHUNK_SIZE - 2 - 1)) (fun x =>
      for_each (upto 2 (CHUNK_SIZE - 2 - 1)) (fun z st =>
        let worldX := worldOffsetX + x in
        let worldZ := worldOffsetZ + z in
        let biome := getBiome worldX worldZ in
        match biome with
        | desert => st
        | _ =>
            let treeChance :=
              match biome with forest => 0.03 | _ => 0.01 end%float in
            let treeValue :=
              ((treeNoise this (Z2float worldX * 0.5) (Z2float worldZ * 0.5) + 1) / 2)%float in
            if (treeValue <? treeChance)%float then
              (* Find ground level *)
              let groundY :=
                match
                  find (fun y =>
                          let block := Chunk_getBlock (fst st) x y z in
                          BlockType_eqb block GRASS || BlockType_eqb block DIRT)
                       (downto (CHUNK_HEIGHT - 1) (SEA_LEVEL + 1))
                with
                | Some y => y
                | None => -1
                end in
              if 0 <? groundY then generateTree x (groundY + 1) z st else st
            else st
        end))
      st in
  let '(chunk, calls) := st in
  ({| blocks := blocks chunk; mesh := mesh chunk; waterMesh := waterMesh chunk;
      torchPositions := torchPositions chunk;
      needsRebuild := true; isGenerated := true;
      chunkX := chunkX chunk; chunkZ := chunkZ chunk |},
   calls).
End Terrain.

(** ** world.ts: the world's state *)

(** A chunk key is the string [`${x},${z}`]; two integer pairs have the same
    key exactly when they are equal, so the pair itself stands for it. *)
Definition ChunkKey : Type := (Z * Z)%type.

Definition ChunkKey_eqb (a b : ChunkKey) : bool :=
  (fst a =? fst b) && (snd a =? snd b).

(** The address of a [Chunk] object in the store. *)
Definition addr : Type := nat.

Inductive Dimension := overworld | the_end.

(** An entry [{ x, z, priority }] of the generation queue. *)
Record GenEntry := { gen_x : Z; gen_z : Z; priority : float }.

Record LootItem := { item_type : string; item_count : Z }.

Record LootChest := {
  chest_x : Z;
  chest_y : Z;
  chest_z : Z;
  items : list LootItem
}.

Record Building := { building_x : Z; building_z : Z; building_type : string }.

Record VillageLocation := {
  village_x : Z;
  village_z : Z;
  buildingPositions : list Building
}.

(** The fields of the [StructureGenerator] (its [world] field is the world
    that holds it). *)
Record StructureGenerator := {
  generatedStructures : gset ChunkKey;
  lootChests : list LootChest;
  villageLocations : list VillageLocation;
  spawnVillageGenerated : bool
}.

(** What [updateChunks] did to a chunk object, for stating the order of its
    phases: the source has no such log, the embedding records it. *)
Inductive Event :=
  | Generated (key : ChunkKey) (a : addr)
  | Meshed (a : addr)
  | Evicted (key : ChunkKey) (a : addr).

Record World := {
  store : list Chunk;                 (* the Chunk objects ever created *)
  chunks : list (ChunkKey * addr);    (* Map<string, Chunk>, in insertion order *)
  terrain : TerrainGenerator;
  structures : StructureGenerator;
  renderDistance : Z;
  currentDimension : Dimension;
  chunksToGenerate : list GenEntry;
  chunksToRebuild : list addr;
  randomCalls : nat;                  (* calls of Math.random() made so far *)
  history : list Event                (* newest first *)
}.

Definition set_store (f : list Chunk -> list Chunk) (w : World) : World :=
  {| store := f (store w); chunks := chunks w; terrain := terrain w;
     structures := structures w; renderDistance := renderDistance w;
     currentDimension := currentDimension w;
     chunksToGenerate := chunksToGenerate w; chunksToRebuild := chunksToRebuild w;
     randomCalls := randomCalls w; history := history w |}.

Definition set_chunks (f : list (ChunkKey * addr) -> list (ChunkKey * addr)) (w : World)
    : World :=
  {| store := store w; chunks := f (chunks w); terrain := terrain w;
     structures := structures w; renderDistance := renderDistance w;
     currentDimension := currentDimension w;
     chunksToGenerate := chunksToGenerate w; chunksToRebuild := chunksToRebuild w;
     randomCalls := randomCalls w; history := history w |}.

Definition set_structures (f : StructureGenerator -> StructureGenerator) (w : World)
    : World :=
  {| store := store w; chunks := chunks w; terrain := terrain w;
     structures := f (structures w); renderDistance := renderDistance w;
     currentDimension := currentDimension w;
     chunksToGenerate := chunksToGenerate w; chunksToRebuild := chunksToRebuild w;
     randomCalls := randomCalls w; history := history w |}.

Definition set_chunksToGenerate (f : list GenEntry -> list GenEntry) (w : World) : World :=
  {| store := store w; chunks := chunks w; terrain := terrain w;
     structures := structures w; renderDistance := renderDistance w;
     currentDimension := currentDimension w;
     chunksToGenerate := f (chunksToGenerate w); chunksToRebuild := chunksToRebuild w;
     randomCalls := randomCalls w; history := history w |}.

Definition set_chunksToRebuild (f : list addr -> list addr) (w : World) : World :=
  {| store := store w; chunks := chunks w; terrain := terrain w;
     structures := structures w; renderDistance := renderDistance w;
     currentDimension := currentDimension w;
     chunksToGenerate := chunksToGenerate w; chunksToRebuild := f (chunksToRebuild w);
     randomCalls := randomCalls w; history := history w |}.

Definition set_randomCalls (n : nat) (w : World) : World :=
  {| store := store w; chunks := chunks w; terrain := terrain w;
     structures := structures w; renderDistance := renderDistance w;
     currentDimension := currentDimension w;
     chunksToGenerate := chunksToGenerate w; chunksToRebuild := chunksToRebuild w;
     randomCalls := n; history := history w |}.

Definition log_event (e : Event) (w : World) : World :=
  {| store := store w; chunks := chunks w; terrain := terrain w;
     structures := structures w; renderDistance := renderDistance w;
     currentDimension := currentDimension w;
     chunksToGenerate := chunksToGenerate w; chunksToRebuild := chunksToRebuild w;
     randomCalls := randomCalls w; history := e :: history w |}.

(** [new World(scene, renderDistance)], for a terrain generator built from
    the seed. *)
Definition World_new (t : TerrainGenerator) (renderDistance : Z) : World :=
  {| store := []; chunks := []; terrain := t;
     structures := {| generatedStructures := ∅; lootChests := [];
                      villageLocations := []; spawnVillageGenerated := false |};
     renderDistance := renderDistance; currentDimension := overworld;
     chunksToGenerate := []; chunksToRebuild := [];
     randomCalls := O; history := [] |}.

(** [Map.prototype.get], [has], [set] and [delete] on the insertion-ordered
    map of chunks. *)
Fixpoint Map_get (k : ChunkKey) (m : list (ChunkKey * addr)) : option addr :=
  match m with
  | [] => None
  | (k', a) :: m' => if ChunkKey_eqb k' k then Some a else Map_get k m'
  end.

Definition Map_has (k : ChunkKey) (m : list (ChunkKey * addr)) : bool :=
  match Map_get k m with Some _ => true | None => false end.

Fixpoint Map_set (k : ChunkKey) (a : addr) (m : list (ChunkKey * addr))
    : list (ChunkKey * addr) :=
  match m with
  | [] => [(k, a)]
  | (k', a') :: m' =>
      if ChunkKey_eqb k' k then (k', a) :: m' else (k', a') :: Map_set k a m'
  end.

(** A sequence of statements on a state. *)
Definition block {S : Type} (stmts : list (S -> S)) (s : S) : S :=
  foldl (fun s f => f s) s stmts.

Definition getChunkKey (x z : Z) : ChunkKey := (x, z).

(** The address of the chunk object under a key, and the object itself. *)
Definition World_getChunk (w : World) (chunkX chunkZ : Z) : option Chunk :=
  a ← Map_get (getChunkKey chunkX chunkZ) (chunks w); store w !! a.

Definition World_getChunkAddr (w : World) (chunkX chunkZ : Z) : option addr :=
  a ← Map_get (getChunkKey chunkX chunkZ) (chunks w);
  _ ← store w !! a; Some a.

(** [((n % CHUNK_SIZE) + CHUNK_SIZE) % CHUNK_SIZE], with JavaScript's
    truncating remainder. *)
Definition localCoord (n : Z) : Z :=
  Z.rem (Z.rem n CHUNK_SIZE + CHUNK_SIZE) CHUNK_SIZE.

Definition World_getBlock (w : World) (worldX worldY worldZ : Z) : BlockType :=
  let chunkX := worldX / CHUNK_SIZE in     (* Math.floor(worldX / CHUNK_SIZE) *)
  let chunkZ := worldZ / CHUNK_SIZE in
  match World_getChunk w chunkX chunkZ with
  | None => AIR
  | Some chunk =>
      if negb (isGenerated chunk) then AIR
      else
        let localX := localCoord worldX in
        let localZ := localCoord worldZ in
        Chunk_getBlock chunk localX worldY localZ
  end.

Definition Chunk_markRebuild (c : Chunk) : Chunk :=
  {| blocks := blocks c; mesh := mesh c; waterMesh := waterMesh c;
     torchPositions := torchPositions c;
     needsRebuild := true;
     isGenerated := isGenerated c; chunkX := chunkX c; chunkZ := chunkZ c |}.

Definition World_markChunkForRebuild (chunkX chunkZ : Z) (w : World) : World :=
  match World_getChunkAddr w chunkX chunkZ, World_getChunk w chunkX chunkZ with
  | Some a, Some chunk =>
      if isGenerated chunk then set_store (fun s => <[a := Chunk_markRebuild chunk]> s) w
      else w
  | _, _ => w
  end.

Definition World_setBlock (worldX worldY worldZ : Z) (type : BlockType) (w : World)
    : World :=
  let chunkX := worldX / CHUNK_SIZE in
  let chunkZ := worldZ / CHUNK_SIZE in
  match World_getChunkAddr w chunkX chunkZ, World_getChunk w chunkX chunkZ with
  | Some a, Some chunk =>
      if negb (isGenerated chunk) then w
      else
        let localX := localCoord worldX in
        let localZ := localCoord worldZ in
        let w := set_store
                   (fun s => <[a := Chunk_setBlock chunk localX worldY localZ type]> s) w in
        (* Mark neighbor chunks for rebuild if on edge *)
        let w := if localX =? 0
                 then World_markChunkForRebuild (chunkX - 1) chunkZ w else w in
        let w := if localX =? CHUNK_SIZE - 1
                 then World_markChunkForRebuild (chunkX + 1) chunkZ w else w in
        let w := if localZ =? 0
                 then World_markChunkForRebuild chunkX (chunkZ - 1) w else w in
        let w := if localZ =? CHUNK_SIZE - 1
                 then World_markChunkForRebuild chunkX (chunkZ + 1) w else w in
        w
  | _, _ => w
  end.

(** [setBlock] called with a [worldX] that is not known to be an integer
    (the shipwreck hull does so).  The chunk is found with
    [Math.floor(worldX / 32)]; the local x keeps the fraction, so
    [Chunk.setBlock] computes a fractional index and the typed array drops the
    write, but [needsRebuild] is still set. *)
Definition Chunk_setBlock_num (c : Chunk) (x : float) (y z : Z) (type : BlockType) : Chunk :=
  if (x <? 0)%float || (32 <=? x)%float || (y <? 0) || (y >=? CHUNK_HEIGHT)
     || (z <? 0) || (z >=? CHUNK_SIZE)
  then c
  else
    {| blocks :=
         if is_integer x
         then PArray.set (blocks c)
                (Uint63.of_Z (Chunk_getBlockIndex (Math_floor x) y z)) type
         else blocks c;
       mesh := mesh c; waterMesh := waterMesh c;
       torchPositions := torchPositions c;
       needsRebuild := true;
       isGenerated := isGenerated c;
       chunkX := chunkX c; chunkZ := chunkZ c |}.

Definition World_setBlock_num (worldX : float) (worldY worldZ : Z) (type : BlockType)
    (w : World) : World :=
  if negb (is_finite worldX) then w     (* the key has a NaN: no such chunk *)
  else
  let chunkX := Math_floor (worldX / 32)%float in
  let chunkZ := worldZ / CHUNK_SIZE in
  match World_getChunkAddr w chunkX chunkZ, World_getChunk w chunkX chunkZ with
  | Some a, Some chunk =>
      if negb (isGenerated chunk) then w
      else
        let localX := rem32 (rem32 worldX + 32)%float in
        let localZ := localCoord worldZ in
        let w := set_store
                   (fun s => <[a := Chunk_setBlock_num chunk localX worldY localZ type]> s)
                   w in
        let w := if (localX =? 0)%float
                 then World_markChunkForRebuild (chunkX - 1) chunkZ w else w in
        let w := if (localX =? 31)%float
                 then World_markChunkForRebuild (chunkX + 1) chunkZ w else w in
        let w := if localZ =? 0
                 then World_markChunkForRebuild chunkX (chunkZ - 1) w else w in
        let w := if localZ =? CHUNK_SIZE - 1
                 then World_markChunkForRebuild chunkX (chunkZ + 1) w else w in
        w
  | _, _ => w
  end.

(** ** structures.ts *)

(** Simple seeded random for deterministic structure placement: one call of
    the closure returned by [seededRandom], from the closure's [seed] to its
    new [seed] and the number returned. *)
Definition seededRandom_next (seed : Z) : Z * float :=
  let seed' := Z.land (ToInt32 (Z2float seed * 1103515245 + 12345)%float) 2147483647 in
  (seed', (Z2float seed' / 2147483647)%float).

(** Check if a structure should generate at this chunk *)
Definition shouldGenerateStructure (chunkX chunkZ : Z) (frequency : float) (seed : Z) : bool :=
  let '(_, r) := seededRandom_next (chunkX * 73856093 + chunkZ * 19349663 + seed) in
  (r <? frequency)%float.

(** [for (let x = from; x <= limit; x++)] on doubles, for at most [fuel]
    iterations. *)
Fixpoint for_float {S : Type} (fuel : nat) (x limit : float) (body : float -> S -> S) (s : S)
    : S :=
  match fuel with
  | O => s
  | Datatypes.S n =>
      if (x <=? limit)%float then for_float n (x + 1)%float limit body (body x s) else s
  end.

Definition push_loot (c : LootChest) : World -> World :=
  set_structures (fun s =>
    {| generatedStructures := generatedStructures s;
       lootChests := lootChests s ++ [c];
       villageLocations := villageLocations s;
       spawnVillageGenerated := spawnVillageGenerated s |}).

Definition push_village (v : VillageLocation) : World -> World :=
  set_structures (fun s =>
    {| generatedStructures := generatedStructures s;
       lootChests := lootChests s;
       villageLocations := villageLocations s ++ [v];
       spawnVillageGenerated := spawnVillageGenerated s |}).

Definition loot (t : string) (n : Z) : LootItem := {| item_type := t; item_count := n |}.

(** [for (let ty = hi; ty > lo; ty--) if (p(getBlock(x, ty, z))) { v = ty; break; }]
    with [v] initially [default]. *)
Definition scanDown (w : World) (x z hi lo : Z) (p : BlockType -> bool) (default : Z) : Z :=
  match find (fun ty => p (World_getBlock w x ty z)) (downto hi (lo + 1)) with
  | Some ty => ty
  | None => default
  end.

Definition notAirOrWater (b : BlockType) : bool :=
  negb (BlockType_eqb b AIR) && negb (BlockType_eqb b WATER).

Definition tryGenerateDesertTemple (x z : Z) (w : World) : World :=
  (* Find ground level *)
  let y := scanDown w x z 80 20 (fun b => BlockType_eqb b SAND) (-1) in
  if y <? 0 then w
  else
    (* Build temple structure *)
    let sandstone := TERRACOTTA in
    let orange := ORANGE_TERRACOTTA in
    block [
      (* Base platform *)
      for_each (upto (-4) 4) (fun dx => for_each (upto (-4) 4) (fun dz => block [
        World_setBlock (x + dx) y (z + dz) sandstone;
        World_setBlock (x + dx) (y + 1) (z + dz) sandstone ]));
      (* Walls *)
      for_each (upto 2 6) (fun dy => block [
        for_each (upto (-4) 4) (fun dx => block [
          World_setBlock (x + dx) (y + dy) (z - 4) sandstone;
          World_setBlock (x + dx) (y + dy) (z + 4) sandstone ]);
        for_each (upto (-4) 4) (fun dz => block [
          World_setBlock (x - 4) (y + dy) (z + dz) sandstone;
          World_setBlock (x + 4) (y + dy) (z + dz) sandstone ]) ]);
      (* Door opening *)
      for_each (upto 2 4) (fun dy => block [
        World_setBlock x (y + dy) (z - 4) AIR;
        World_setBlock (x - 1) (y + dy) (z - 4) AIR;
        World_setBlock (x + 1) (y + dy) (z - 4) AIR ]);
      (* Roof (flat with raised center) *)
      for_each (upto (-4) 4) (fun dx => for_each (upto (-4) 4) (fun dz =>
        World_setBlock (x + dx) (y + 7) (z + dz) sandstone));
      (* Central pyramid top *)
      for_each (upto 0 2) (fun level =>
        let size := 2 - level in
        for_each (upto (- size) size) (fun dx => for_each (upto (- size) size) (fun dz =>
          World_setBlock (x + dx) (y + 8 + level) (z + dz) orange)));
      (* Clear interior *)
      for_each (upto (-3) 3) (fun dx => for_each (upto (-3) 3) (fun dz =>
        for_each (upto 2 6) (fun dy =>
          World_setBlock (x + dx) (y + dy) (z + dz) AIR)));
      (* Underground treasure room *)
      for_each (upto (-2) 2) (fun dx => for_each (upto (-2) 2) (fun dz =>
        for_each (upto (-5) (-1)) (fun dy =>
          World_setBlock (x + dx) (y + dy) (z + dz) AIR)));
      (* Treasure chest location (marked with gold ore for now) *)
      World_setBlock x (y - 4) z GOLD_ORE;
      (* Add loot *)
      push_loot {| chest_x := x; chest_y := y - 4; chest_z := z;
                   items := [loot "diamond" 3; loot "gold_ingot" 8;
                             loot "iron_ingot" 12; loot "emerald" 5] |};
      (* Pressure plate trap (TNT underneath - just visual) *)
      World_setBlock x (y - 3) z STONE
    ] w.

(** The loop that finds water: over the heights still to visit, with the
    current [waterSurface]; the result is [(waterSurface, oceanFloor)]. *)
Fixpoint shipwreckScan (w : World) (x z : Z) (tys : list Z) (waterSurface : Z) : Z * Z :=
  match tys with
  | [] => (waterSurface, -1)
  | ty :: rest =>
      let block := World_getBlock w x ty z in
      let waterSurface :=
        if BlockType_eqb block WATER && (waterSurface <? 0) then ty else waterSurface in
      if (0 <? waterSurface) && negb (BlockType_eqb block WATER)
         && negb (BlockType_eqb block AIR)
      then (waterSurface, ty)      (* oceanFloor = ty; break *)
      else shipwreckScan w x z rest waterSurface
  end.

Definition tryGenerateShipwreck (x z : Z) (w : World) : World :=
  (* Find water *)
  let '(waterSurface, oceanFloor) := shipwreckScan w x z (downto 60 11) (-1) in
  if (oceanFloor <? 0) || (waterSurface <? 0) then w
  else if waterSurface - oceanFloor <? 5 then w   (* Not deep enough *)
  else
    let y := oceanFloor in
    (* Ship hull *)
    let wood := WOOD in
    let planks := PLANKS in
    (* Tilted shipwreck *)
    let tilt := 0.3%float in
    block [
      (* Hull base *)
      for_each (upto (-6) 6) (fun dz =>
        let width := Math_max 1 (3 - Z2float (Z.abs dz) / 3)%float in
        let heightOffset := Math_floor (Z2float (Z.abs dz) * tilt)%float in
        (* [width] is at most 3: the loop runs at most 7 times *)
        for_float 7 (- width)%float width (fun dx => block [
          (* Bottom of hull *)
          World_setBlock_num (Z2float x + dx)%float (y + 1 + heightOffset) (z + dz) wood;
          (* Sides *)
          if (Math_abs dx =? Z2float (Math_floor width))%float
          then block [
            World_setBlock_num (Z2float x + dx)%float (y + 2 + heightOffset) (z + dz) planks;
            World_setBlock_num (Z2float x + dx)%float (y + 3 + heightOffset) (z + dz) planks ]
          else block [] ]));
      (* Mast (partially broken) *)
      for_each (upto 1 5) (fun dy => World_setBlock x (y + dy + 2) z wood);
      (* Crow's nest platform *)
      for_each (upto (-1) 1) (fun dx => for_each (upto (-1) 1) (fun dz =>
        World_setBlock (x + dx) (y + 8) (z + dz) planks));
      (* Treasure chest (gold ore marker) *)
      World_setBlock x (y + 2) (z - 3) GOLD_ORE;
      (* Add loot *)
      push_loot {| chest_x := x; chest_y := y + 2; chest_z := z - 3;
                   items := [loot "gold_ingot" 5; loot "iron_ingot" 8; loot "diamond" 1;
                             loot "emerald" 3; loot "trident" 1] |}
    ] w.

Section Structures.
Variable Math_random : nat -> float.

(** [k(Math.random())]: the next value of the oracle is consumed. *)
Definition with_random (k : float -> World -> World) (w : World) : World :=
  k (Math_random (randomCalls w)) (set_randomCalls (S (randomCalls w)) w).

Definition tryGenerateRuinedPortal (x z : Z) (w : World) : World :=
  (* Find ground level *)
  let y := scanDown w x z 80 20 notAirOrWater (-1) in
  if y <? 0 then w
  else
    (* Obsidian-like portal frame (using bedrock as obsidian stand-in) *)
    let obsidian := BEDROCK in
    let netherBlock := BRICK in   (* Red brick as netherrack stand-in *)
    block [
      (* Ground netherrack scatter *)
      for_each (upto (-2) 2) (fun dx => for_each (upto (-2) 2) (fun dz =>
        with_random (fun r =>
          if (r <? 0.4)%float then World_setBlock (x + dx) y (z + dz) netherBlock
          else block [])));
      (* Incomplete portal frame *)
      (* Left pillar *)
      World_setBlock (x - 2) (y + 1) z obsidian;
      World_setBlock (x - 2) (y + 2) z obsidian;
      World_setBlock (x - 2) (y + 3) z obsidian;
      World_setBlock (x - 2) (y + 4) z obsidian;
      (* Right pillar (incomplete) *)
      World_setBlock (x + 2) (y + 1) z obsidian;
      World_setBlock (x + 2) (y + 2) z obsidian;
      (* Top (partial) *)
      World_setBlock (x - 1) (y + 5) z obsidian;
      World_setBlock x (y + 5) z obsidian;
      (* Gold blocks nearby (loot) *)
      World_setBlock (x + 1) (y + 1) (z - 1) GOLD_ORE;
      push_loot {| chest_x := x + 1; chest_y := y + 1; chest_z := z - 1;
                   items := [loot "gold_ingot" 12; loot "obsidian" 4;
                             loot "flint_and_steel" 1] |}
    ] w.

Definition tryGenerateDungeon (x z : Z) (w : World) : World :=
  (* Find underground stone *)
  let y := scanDown w x z 40 10 (fun b => BlockType_eqb b STONE) (-1) in
  if y <? 0 then w
  else
    let cobble := COBBLESTONE in
    let mossy := STONE in   (* Using stone as mossy cobblestone stand-in *)
    let w := block [
      (* Carve out room *)
      for_each (upto (-3) 3) (fun dx => for_each (upto (-3) 3) (fun dz =>
        for_each (upto 0 4) (fun dy =>
          World_setBlock (x + dx) (y - dy) (z + dz) AIR)));
      (* Floor *)
      for_each (upto (-3) 3) (fun dx => for_each (upto (-3) 3) (fun dz =>
        with_random (fun r =>
          let block := if (r <? 0.5)%float then cobble else mossy in
          World_setBlock (x + dx) (y - 5) (z + dz) block)));
      (* Walls *)
      for_each (upto (-4) 0) (fun dy => block [
        for_each (upto (-3) 3) (fun dx => block [
          World_setBlock (x + dx) (y + dy) (z - 3) cobble;
          World_setBlock (x + dx) (y + dy) (z + 3) cobble ]);
        for_each (upto (-3) 3) (fun dz => block [
          World_setBlock (x - 3) (y + dy) (z + dz) cobble;
          World_setBlock (x + 3) (y + dy) (z + dz) cobble ]) ]);
      (* Ceiling *)
      for_each (upto (-3) 3) (fun dx => for_each (upto (-3) 3) (fun dz =>
        World_setBlock (x + dx) (y + 1) (z + dz) cobble));
      (* Monster spawner (using coal ore as stand-in) *)
      World_setBlock x (y - 3) z COAL_ORE;
      (* Treasure chests *)
      World_setBlock (x - 2) (y - 4) z DIAMOND_ORE;
      World_setBlock (x + 2) (y - 4) z DIAMOND_ORE;
      push_loot {| chest_x := x - 2; chest_y := y - 4; chest_z := z;
                   items := [loot "iron_ingot" 6; loot "gold_ingot" 3;
                             loot "bread" 4; loot "redstone" 8] |};
      push_loot {| chest_x := x + 2; chest_y := y - 4; chest_z := z;
                   items := [loot "diamond" 2; loot "golden_apple" 1;
                             loot "enchanted_book" 1] |}
    ] w in
    (* Entrance shaft from surface *)
    let surfaceY :=
      match find (fun ty =>
                    let block := World_getBlock w x ty (z - 4) in
                    BlockType_eqb block AIR || BlockType_eqb block WATER)
                 (upto y 79)
      with
      | Some ty => ty - 1
      | None => y
      end in
    (* Dig stairs down *)
    for_each (upto 0 (surfaceY - y)) (fun step => block [
      World_setBlock x (y + step) (z - 3 - step) AIR;
      World_setBlock x (y + step + 1) (z - 3 - step) AIR;
      World_setBlock (x - 1) (y + step) (z - 3 - step) cobble;
      World_setBlock (x + 1) (y + step) (z - 3 - step) cobble ]) w.
End Structures.

Definition generateVillageWell (x y z : Z) : World -> World :=
  let cobble := COBBLESTONE in
  block [
    (* Well walls *)
    for_each (upto 0 2) (fun dy => block [
      World_setBlock (x - 1) (y + dy) (z - 1) cobble;
      World_setBlock (x + 1) (y + dy) (z - 1) cobble;
      World_setBlock (x - 1) (y + dy) (z + 1) cobble;
      World_setBlock (x + 1) (y + dy) (z + 1) cobble ]);
    (* Roof *)
    for_each (upto (-1) 1) (fun dx => for_each (upto (-1) 1) (fun dz =>
      World_setBlock (x + dx) (y + 3) (z + dz) PLANKS));
    (* Water inside *)
    World_setBlock x y z WATER;
    World_setBlock x (y - 1) z WATER;
    World_setBlock x (y - 2) z WATER;
    (* Posts *)
    World_setBlock (x - 1) (y + 4) (z - 1) WOOD;
    World_setBlock (x + 1) (y + 4) (z + 1) WOOD
  ].

Definition generateVillageHouse (x y z : Z) : World -> World :=
  let planks := PLANKS in
  let wood := WOOD in
  let cobble := COBBLESTONE in
  block [
    (* Foundation *)
    for_each (upto (-2) 2) (fun dx => for_each (upto (-2) 2) (fun dz =>
      World_setBlock (x + dx) y (z + dz) cobble));
    (* Walls *)
    for_each (upto 1 3) (fun dy => block [
      for_each (upto (-2) 2) (fun dx => block [
        World_setBlock (x + dx) (y + dy) (z - 2) planks;
        World_setBlock (x + dx) (y + dy) (z + 2) planks ]);
      for_each (upto (-2) 2) (fun dz => block [
        World_setBlock (x - 2) (y + dy) (z + dz) planks;
        World_setBlock (x + 2) (y + dy) (z + dz) planks ]) ]);
    (* Corner posts (wood logs) *)
    for_each (upto 1 4) (fun dy => block [
      World_setBlock (x - 2) (y + dy) (z - 2) wood;
      World_setBlock (x + 2) (y + dy) (z - 2) wood;
      World_setBlock (x - 2) (y + dy) (z + 2) wood;
      World_setBlock (x + 2) (y + dy) (z + 2) wood ]);
    (* Door opening *)
    World_setBlock x (y + 1) (z - 2) AIR;
    World_setBlock x (y + 2) (z - 2) AIR;
    (* Window *)
    World_setBlock x (y + 2) (z + 2) GLASS;
    (* Interior (clear it) *)
    for_each (upto (-1) 1) (fun dx => for_each (upto (-1) 1) (fun dz =>
      for_each (upto 1 3) (fun dy =>
        World_setBlock (x + dx) (y + dy) (z + dz) AIR)));
    (* Roof (stairs pattern using planks) *)
    for_each (upto (-3) 3) (fun dx => block [
      World_setBlock (x + dx) (y + 4) (z - 2) planks;
      World_setBlock (x + dx) (y + 4) (z + 2) planks;
      World_setBlock (x + dx) (y + 4) (z - 1) planks;
      World_setBlock (x + dx) (y + 4) (z + 1) planks;
      World_setBlock (x + dx) (y + 4) z planks ]);
    (* Peak *)
    for_each (upto (-2) 2) (fun dx => World_setBlock (x + dx) (y + 5) z planks);
    (* Torch inside *)
    World_setBlock x (y + 2) z TORCH
  ].

Definition generateVillageFarm (x y z : Z) : World -> World :=
  let wood := WOOD in
  block [
    (* Fence posts around farm (using wood) *)
    for_each (upto (-3) 3) (fun dx => block [
      World_setBlock (x + dx) (y + 1) (z - 3) wood;
      World_setBlock (x + dx) (y + 1) (z + 3) wood ]);
    for_each (upto (-3) 3) (fun dz => block [
      World_setBlock (x - 3) (y + 1) (z + dz) wood;
      World_setBlock (x + 3) (y + 1) (z + dz) wood ]);
    (* Farmland (using dirt) *)
    for_each (upto (-2) 2) (fun dx => for_each (upto (-2) 2) (fun dz =>
      World_setBlock (x + dx) y (z + dz) DIRT));
    (* Water channel in middle *)
    World_setBlock x y z WATER;
    (* Opening in fence *)
    World_setBlock x (y + 1) (z - 3) AIR
  ].

Definition generateVillageChurch (x y z : Z) : World -> World :=
  let cobble := COBBLESTONE in
  let planks := PLANKS in
  block [
    (* Foundation (larger than house) *)
    for_each (upto (-3) 3) (fun dx => for_each (upto (-4) 4) (fun dz =>
      World_setBlock (x + dx) y (z + dz) cobble));
    (* Walls *)
    for_each (upto 1 5) (fun dy => block [
      for_each (upto (-3) 3) (fun dx => block [
        World_setBlock (x + dx) (y + dy) (z - 4) cobble;
        World_setBlock (x + dx) (y + dy) (z + 4) cobble ]);
      for_each (upto (-4) 4) (fun dz => block [
        World_setBlock (x - 3) (y + dy) (z + dz) cobble;
        World_setBlock (x + 3) (y + dy) (z + dz) cobble ]) ]);
    (* Interior *)
    for_each (upto (-2) 2) (fun dx => for_each (upto (-3) 3) (fun dz =>
      for_each (upto 1 4) (fun dy =>
        World_setBlock (x + dx) (y + dy) (z + dz) AIR)));
    (* Door *)
    World_setBlock x (y + 1) (z - 4) AIR;
    World_setBlock x (y + 2) (z - 4) AIR;
    (* Windows *)
    World_setBlock (x - 3) (y + 3) z GLASS;
    World_setBlock (x + 3) (y + 3) z GLASS;
    (* Roof *)
    for_each (upto (-4) 4) (fun dx => for_each (upto (-5) 5) (fun dz =>
      World_setBlock (x + dx) (y + 6) (z + dz) planks));
    (* Bell tower *)
    for_each (upto 6 10) (fun dy => block [
      World_setBlock (x - 1) (y + dy) (z + 2) cobble;
      World_setBlock (x + 1) (y + dy) (z + 2) cobble;
      World_setBlock (x - 1) (y + dy) (z + 4) cobble;
      World_setBlock (x + 1) (y + dy) (z + 4) cobble ]);
    (* Bell (gold ore as placeholder) *)
    World_setBlock x (y + 9) (z + 3) GOLD_ORE;
    (* Tower roof *)
    for_each (upto (-1) 1) (fun dx => for_each (upto 2 4) (fun dz =>
      World_setBlock (x + dx) (y + 11) (z + dz) planks));
    (* Torches inside *)
    World_setBlock (x - 2) (y + 3) z TORCH;
    World_setBlock (x + 2) (y + 3) z TORCH
  ].

Definition generateVillageBlacksmith (x y z : Z) : World -> World :=
  let cobble := COBBLESTONE in
  let planks := PLANKS in
  block [
    (* Foundation *)
    for_each (upto (-3) 3) (fun dx => for_each (upto (-2) 2) (fun dz =>
      World_setBlock (x + dx) y (z + dz) cobble));
    (* Walls *)
    for_each (upto 1 3) (fun dy => block [
      for_each (upto (-3) 3) (fun dx => block [
        World_setBlock (x + dx) (y + dy) (z - 2) cobble;
        World_setBlock (x + dx) (y + dy) (z + 2) cobble ]);
      for_each (upto (-2) 2) (fun dz => block [
        World_setBlock (x - 3) (y + dy) (z + dz) cobble;
        World_setBlock (x + 3) (y + dy) (z + dz) cobble ]) ]);
    (* Interior *)
    for_each (upto (-2) 2) (fun dx => for_each (upto (-1) 1) (fun dz =>
      for_each (upto 1 2) (fun dy =>
        World_setBlock (x + dx) (y + dy) (z + dz) AIR)));
    (* Door *)
    World_setBlock x (y + 1) (z - 2) AIR;
    World_setBlock x (y + 2) (z - 2) AIR;
    (* Forge (using brick and magma blocks) *)
    World_setBlock (x + 2) (y + 1) z BRICK;
    World_setBlock (x + 2) (y + 1) (z + 1) BRICK;
    World_setBlock (x + 2) (y + 2) z MAGMA;
    (* Roof *)
    for_each (upto (-4) 4) (fun dx => for_each (upto (-3) 3) (fun dz =>
      World_setBlock (x + dx) (y + 4) (z + dz) planks));
    (* Loot chest - now uses actual CHEST block! *)
    World_setBlock (x - 2) (y + 1) z CHEST;
    (* Torch *)
    World_setBlock x (y + 2) z TORCH
  ].

Definition building (x z : Z) (t : string) : Building :=
  {| building_x := x; building_z := z; building_type := t |}.

(** The state of [tryGenerateVillage] while it walks the paths: the world,
    the [seed] of its [rand] closure and [village.buildingPositions]. *)
Definition VillageState : Type := (World * Z * list Building)%type.

(** [while (buildingDist < pathLength - 4) { ... }]: every iteration adds at
    least 8 to [buildingDist], so [fuel] at least [pathLength] is enough. *)
Fixpoint villageBuildings (fuel : nat) (centerX centerZ groundY : Z) (dir : Z * Z)
    (pathLength buildingDist : Z) (st : VillageState) : VillageState :=
  match fuel with
  | O => st
  | S fuel' =>
      if buildingDist <? pathLength - 4 then
        let '(w, seed, positions) := st in
        let '(dir_dx, dir_dz) := dir in
        let '(seed, offsetX) :=
          if negb (dir_dz =? 0) then (seed, 0)
          else let '(seed, r) := seededRandom_next seed in
               (seed, if (0.5 <? r)%float then 5 else -5) in
        let buildX := centerX + dir_dx * buildingDist + offsetX in
        let '(seed, offsetZ) :=
          if negb (dir_dx =? 0) then (seed, 0)
          else let '(seed, r) := seededRandom_next seed in
               (seed, if (0.5 <? r)%float then 5 else -5) in
        let buildZ := centerZ + dir_dz * buildingDist + offsetZ in
        (* Find ground at building position *)
        let buildY :=
          scanDown w buildX buildZ (groundY + 5) (groundY - 10) notAirOrWater groundY in
        (* Random building type *)
        let '(seed, buildingType) := seededRandom_next seed in
        let '(w, positions) :=
          if (buildingType <? 0.4)%float then
            (generateVillageHouse buildX buildY buildZ w,
             positions ++ [building buildX buildZ "house"])
          else if (buildingType <? 0.6)%float then
            (generateVillageFarm buildX buildY buildZ w,
             positions ++ [building buildX buildZ "farm"])
          else if (buildingType <? 0.8)%float then
            (generateVillageChurch buildX buildY buildZ w,
             positions ++ [building buildX buildZ "church"])
          else
            (generateVillageBlacksmith buildX buildY buildZ w,
             positions ++ [building buildX buildZ "blacksmith"]) in
        let '(seed, r) := seededRandom_next seed in
        villageBuildings fuel' centerX centerZ groundY dir pathLength
          (buildingDist + (8 + Math_floor (r * 5)%float)) (w, seed, positions)
      else st
  end.

Definition tryGenerateVillage (worldX worldZ : Z) (w : World) : World :=
  (* Check if this is a valid village location (grass biome, relatively flat) *)
  let centerX := worldX + 16 in
  let centerZ := worldZ + 16 in
  (* Find ground level at center *)
  let groundY :=
    scanDown w centerX centerZ 80 30
      (fun b => BlockType_eqb b GRASS || BlockType_eqb b DIRT) (-1) in
  if groundY <? 0 then w   (* Not grass biome *)
  else
    (* Check flatness - village needs relatively flat terrain *)
    let heightVariation :=
      for_each [-20; -10; 0; 10; 20] (fun dx =>
        for_each [-20; -10; 0; 10; 20] (fun dz heightVariation =>
          match find (fun ty => notAirOrWater (World_getBlock w (centerX + dx) ty (centerZ + dz)))
                     (downto (groundY + 5) (groundY - 10 + 1))
          with
          | Some ty => heightVariation + Z.abs (ty - groundY)
          | None => heightVariation
          end))
        0 in
    if 30 <? heightVariation then w   (* Too hilly for village *)
    else
      (* Generate village well in center *)
      let w := generateVillageWell centerX groundY centerZ w in
      (* Generate paths from center *)
      let pathDirections := [(1, 0); (-1, 0); (0, 1); (0, -1)] in
      (* Generate buildings along paths *)
      let seed := centerX * 31337 + centerZ * 73856 in
      let '(w, _, positions) :=
        for_each pathDirections (fun dir '(w, seed, positions) =>
          let '(dir_dx, dir_dz) := dir in
          (* Path length *)
          let '(seed, r) := seededRandom_next seed in
          let pathLength := 15 + Math_floor (r * 10)%float in
          (* Generate path *)
          let w :=
            for_each (upto 1 pathLength) (fun i w =>
              let pathX := centerX + dir_dx * i in
              let pathZ := centerZ + dir_dz * i in
              (* Find ground at path position *)
              let pathY :=
                scanDown w pathX pathZ (groundY + 5) (groundY - 10) notAirOrWater groundY in
              (* Place path block *)
              World_setBlock pathX pathY pathZ COBBLESTONE w)
              w in
          (* Generate buildings along path (every 8-12 blocks) *)
          villageBuildings (Z.to_nat pathLength) centerX centerZ groundY dir pathLength 6
            (w, seed, positions))
          (w, seed, []) in
      push_village {| village_x := centerX; village_z := centerZ;
                      buildingPositions := positions |} w.

(** Force a village to generate at exact location (no terrain checks) *)
Definition forceGenerateVillage (centerX centerZ : Z) (w : World) : World :=
  (* Find ground level at center *)
  let groundY := scanDown w centerX centerZ 80 30 notAirOrWater 64 in
  block [
    (* Flatten the area first and make it grass *)
    for_each (upto (-25) 25) (fun dx => for_each (upto (-25) 25) (fun dz => block [
      (* Set ground level *)
      World_setBlock (centerX + dx) groundY (centerZ + dz) GRASS;
      World_setBlock (centerX + dx) (groundY - 1) (centerZ + dz) DIRT;
      World_setBlock (centerX + dx) (groundY - 2) (centerZ + dz) DIRT;
      (* Clear above *)
      for_each (upto 1 15) (fun dy =>
        World_setBlock (centerX + dx) (groundY + dy) (centerZ + dz) AIR) ]));
    (* Generate village well in center *)
    generateVillageWell centerX groundY centerZ;
    (* Generate 4 houses around the well *)
    generateVillageHouse (centerX + 8) groundY centerZ;
    generateVillageHouse (centerX - 8) groundY centerZ;
    generateVillageHouse centerX groundY (centerZ + 8);
    generateVillageHouse centerX groundY (centerZ - 8);
    (* Add a blacksmith *)
    generateVillageBlacksmith (centerX + 12) groundY (centerZ + 12);
    (* Add a church *)
    generateVillageChurch (centerX - 12) groundY (centerZ - 12);
    (* Add farms *)
    generateVillageFarm (centerX + 15) groundY (centerZ - 8);
    generateVillageFarm (centerX - 15) groundY (centerZ + 8);
    (* Generate paths connecting buildings *)
    (* Path from well to each building *)
    for_each (upto 1 20) (fun i => block [
      World_setBlock (centerX + i) groundY centerZ COBBLESTONE;
      World_setBlock (centerX - i) groundY centerZ COBBLESTONE;
      World_setBlock centerX groundY (centerZ + i) COBBLESTONE;
      World_setBlock centerX groundY (centerZ - i) COBBLESTONE ]);
    (* Diagonal paths *)
    for_each (upto 1 15) (fun i => block [
      World_setBlock (centerX + i) groundY (centerZ + i) COBBLESTONE;
      World_setBlock (centerX - i) groundY (centerZ - i) COBBLESTONE ]);
    push_village
      {| village_x := centerX; village_z := centerZ;
         buildingPositions := [
           building (centerX + 8) centerZ "house";
           building (centerX - 8) centerZ "house";
           building centerX (centerZ + 8) "house";
           building centerX (centerZ - 8) "house";
           building (centerX + 12) (centerZ + 12) "blacksmith";
           building (centerX - 12) (centerZ - 12) "church";
           building (centerX + 15) (centerZ - 8) "farm";
           building (centerX - 15) (centerZ + 8) "farm" ] |}
  ] w.

(** Generate a village at spawn point (0, 0) - ALWAYS generates *)
Definition generateSpawnVillage (w : World) : World :=
  if spawnVillageGenerated (structures w) then w
  else
    forceGenerateVillage 0 0
      (set_structures (fun s =>
         {| generatedStructures := generatedStructures s;
            lootChests := lootChests s;
            villageLocations := villageLocations s;
            spawnVillageGenerated := true |}) w).

(** Check if player found a loot chest: the chest found, if any, and the
    list without it. *)
Fixpoint removeLootChest (x y z : Z) (l : list LootChest) : option LootChest * list LootChest :=
  match l with
  | [] => (None, [])
  | chest :: rest =>
      if (chest_x chest =? x) && (chest_y chest =? y) && (chest_z chest =? z)
      then (Some chest, rest)
      else let '(found, rest') := removeLootChest x y z rest in (found, chest :: rest')
  end.

Definition checkLootChest (x y z : Z) (w : World) : option LootChest * World :=
  let '(found, rest) := removeLootChest x y z (lootChests (structures w)) in
  (found,
   set_structures (fun s =>
     {| generatedStructures := generatedStructures s;
        lootChests := rest;
        villageLocations := villageLocations s;
        spawnVillageGenerated := spawnVillageGenerated s |}) w).

Section World.
Variable Math_random : nat -> float.
(** [EndGenerator.generateChunk] of end.ts, which is not part of the
    sources at hand: any function from the chunk and the count of
    [Math.random()] calls to the filled chunk and the new count. *)
Variable EndGenerator_generateChunk : Chunk * nat -> Chunk * nat.

(** Generate structures for a chunk *)
Definition generateStructures (chunk : Chunk) (w : World) : World :=
  let key := getChunkKey (chunkX chunk) (chunkZ chunk) in
  if bool_decide (key ∈ generatedStructures (structures w)) then w
  else
    let w := set_structures (fun s =>
      {| generatedStructures := {[ key ]} ∪ generatedStructures s;
         lootChests := lootChests s;
         villageLocations := villageLocations s;
         spawnVillageGenerated := spawnVillageGenerated s |}) w in
    let worldX := chunkX chunk * CHUNK_SIZE in
    let worldZ := chunkZ chunk * CHUNK_SIZE in
    block [
      (* Desert temple (rare, in desert-ish areas) *)
      (fun w => if shouldGenerateStructure (chunkX chunk) (chunkZ chunk) 0.02 12345
                then tryGenerateDesertTemple (worldX + 8) (worldZ + 8) w else w);
      (* Underwater shipwreck *)
      (fun w => if shouldGenerateStructure (chunkX chunk) (chunkZ chunk) 0.03 54321
                then tryGenerateShipwreck (worldX + 8) (worldZ + 8) w else w);
      (* Ruined portal *)
      (fun w => if shouldGenerateStructure (chunkX chunk) (chunkZ chunk) 0.01 99999
                then tryGenerateRuinedPortal Math_random (worldX + 8) (worldZ + 8) w else w);
      (* Small dungeon entrance *)
      (fun w => if shouldGenerateStructure (chunkX chunk) (chunkZ chunk) 0.025 77777
                then tryGenerateDungeon Math_random (worldX + 8) (worldZ + 8) w else w);
      (* Villages - spawn on grass plains, rare *)
      (fun w => if shouldGenerateStructure (chunkX chunk) (chunkZ chunk) 0.008 55555
                then tryGenerateVillage worldX worldZ w else w)
    ] w.

(** ** world.ts: streaming *)

Definition World_rebuildChunkMesh (a : addr) (w : World) : World :=
  match store w !! a with
  | Some chunk =>
      let getNeighborBlock := World_getBlock w in
      log_event (Meshed a)
        (set_store (fun s => <[a := Chunk_buildMesh chunk getNeighborBlock]> s) w)
  | None => w
  end.

(** Stable sort of the generation queue by priority (closest first):
    [insertByPriority] puts an entry before the first one that is not
    strictly closer. *)
Fixpoint insertByPriority (e : GenEntry) (l : list GenEntry) : list GenEntry :=
  match l with
  | [] => [e]
  | e' :: l' =>
      if (priority e' <? priority e)%float || (priority e' =? priority e)%float
      then e' :: insertByPriority e l'
      else e :: l
  end.

Definition sortByPriority (l : list GenEntry) : list GenEntry :=
  foldl (fun sorted e => insertByPriority e sorted) [] l.

(** Queue chunks that need to be generated *)
Definition queueMissingChunks (currentChunkX currentChunkZ : Z) (w : World) : World :=
  for_each (upto (- renderDistance w) (renderDistance w)) (fun dx =>
    for_each (upto (- renderDistance w) (renderDistance w)) (fun dz w =>
      let chunkX := currentChunkX + dx in
      let chunkZ := currentChunkZ + dz in
      let key := getChunkKey chunkX chunkZ in
      if negb (Map_has key (chunks w)) then
        let distance := Math_sqrt (Z2float (dx * dx + dz * dz)) in
        set_chunksToGenerate
          (fun q => q ++ [{| gen_x := chunkX; gen_z := chunkZ; priority := distance |}]) w
      else w))
    w.

(** One iteration of the generation loop, after the test of its condition. *)
Definition generateNext (w : World) : World :=
  match chunksToGenerate w with
  | [] => w
  | e :: rest =>
      let w := set_chunksToGenerate (fun _ => rest) w in     (* shift() *)
      let x := gen_x e in
      let z := gen_z e in
      let key := getChunkKey x z in
      if negb (Map_has key (chunks w)) then
        let a := length (store w) in                         (* new Chunk(x, z) *)
        let w := set_store (fun s => s ++ [Chunk_new x z]) w in
        (* Use appropriate generator based on dimension *)
        let w :=
          match currentDimension w with
          | the_end =>
              let '(chunk, calls) :=
                EndGenerator_generateChunk (Chunk_new x z, randomCalls w) in
              set_randomCalls calls (set_store (fun s => <[a := chunk]> s) w)
          | overworld =>
              let '(chunk, calls) :=
                TerrainGenerator_generateChunk (terrain w) Math_random
                  (Chunk_new x z, randomCalls w) in
              let w := set_randomCalls calls (set_store (fun s => <[a := chunk]> s) w) in
              (* Generate structures only in overworld *)
              generateStructures chunk w
          end in
        let w := set_chunks (Map_set key a) w in
        let w := set_chunksToRebuild (fun q => q ++ [a]) w in
        log_event (Generated key a) w
      else w
  end.

(** Generate a few chunks per frame *)
Definition generatePhase (w : World) : World :=
  let chunksPerFrame := 2 in
  for_each (upto 0 (chunksPerFrame - 1)) (fun i w =>
    match chunksToGenerate w with
    | [] => w
    | _ :: _ => generateNext w
    end) w.

Definition rebuildsPerFrame : Z := 4.

(** First, check existing chunks *)
Definition rebuildResident (st : World * Z) : World * Z :=
  for_each (chunks (fst st)) (fun '(_, a) '(w, rebuilds) =>
    match store w !! a with
    | Some chunk =>
        if needsRebuild chunk && isGenerated chunk && (rebuilds <? rebuildsPerFrame)
        then (World_rebuildChunkMesh a w, rebuilds + 1)
        else (w, rebuilds)
    | None => (w, rebuilds)
    end) st.

(** Then process rebuild queue *)
Fixpoint rebuildQueued (queue : list addr) (st : World * Z) : World * Z :=
  let '(w, rebuilds) := st in
  match queue with
  | [] => (set_chunksToRebuild (fun _ => []) w, rebuilds)
  | a :: rest =>
      if rebuilds <? rebuildsPerFrame then
        match store w !! a with
        | Some chunk =>
            if needsRebuild chunk
            then rebuildQueued rest (World_rebuildChunkMesh a w, rebuilds + 1)
            else rebuildQueued rest (w, rebuilds)
        | None => rebuildQueued rest (w, rebuilds)
        end
      else (set_chunksToRebuild (fun _ => queue) w, rebuilds)
  end.

(** Rebuild meshes for chunks that need it *)
Definition rebuildPhase (w : World) : World :=
  let st := rebuildResident (w, 0) in
  fst (rebuildQueued (chunksToRebuild (fst st)) st).

(** Unload distant chunks *)
Definition unloadPhase (currentChunkX currentChunkZ : Z) (w : World) : World :=
  let unloadDistance := Z2float (renderDistance w + 2) in
  for_each (chunks w) (fun '(key, a) w =>
    match store w !! a with
    | Some chunk =>
        let dx := chunkX chunk - currentChunkX in
        let dz := chunkZ chunk - currentChunkZ in
        let distance := Math_sqrt (Z2float (dx * dx + dz * dz)) in
        if (unloadDistance <? distance)%float then
          log_event (Evicted key a)
            (set_chunks (filter (fun p => negb (ChunkKey_eqb (fst p) key))) w)
        else w
    | None => w
    end) w.

(** [updateChunks(playerX, playerZ)] for a finite player position. *)
Definition World_updateChunks (playerX playerZ : float) (w : World) : World :=
  let currentChunkX := Math_floor (playerX / Z2float CHUNK_SIZE)%float in
  let currentChunkZ := Math_floor (playerZ / Z2float CHUNK_SIZE)%float in
  let w := queueMissingChunks currentChunkX currentChunkZ w in
  (* Sort by priority (closest first) *)
  let w := set_chunksToGenerate sortByPriority w in
  let w := generatePhase w in
  let w := rebuildPhase w in
  unloadPhase currentChunkX currentChunkZ w.

Definition World_setDimension (dimension : Dimension) (w : World) : World :=
  match currentDimension w, dimension with
  | overworld, overworld | the_end, the_end => w
  | _, _ =>
      {| store := store w; chunks := []; terrain := terrain w;
         structures := structures w; renderDistance := renderDistance w;
         currentDimension := dimension;
         chunksToGenerate := []; chunksToRebuild := [];
         randomCalls := randomCalls w; history := history w |}
  end.
End World.

Definition World_getChunkCount (w : World) : Z := Z.of_nat (length (chunks w)).

(** For an [x] or [z] that is NaN or infinite no chunk key matches, every
    block read is air and the result is 50. *)
Definition World_getSpawnHeight (w : World) (x z : float) : Z :=
  if is_finite x && is_finite z then
    match find (fun y => solid (BLOCKS (World_getBlock w (Math_floor x) y (Math_floor z))))
               (downto (CHUNK_HEIGHT - 1) 0)
    with
    | Some y => y + 1
    | None => 50
    end
  else 50.

(** ** world.ts: the voxel raycast *)

Record Vector3 := { vx : float; vy : float; vz : float }.

Definition Vector3_length (v : Vector3) : float :=
  Math_sqrt (vx v * vx v + vy v * vy v + vz v * vz v)%float.

Definition Vector3_multiplyScalar (v : Vector3) (s : float) : Vector3 :=
  {| vx := vx v * s; vy := vy v * s; vz := vz v * s |}%float.

(** [normalize()] is [divideScalar(length() || 1)], and [divideScalar(s)] is
    [multiplyScalar(1 / s)]. *)
Definition Vector3_normalize (v : Vector3) : Vector3 :=
  let l := Vector3_length v in
  let s := if (l =? 0)%float || PrimFloat.is_nan l then 1%float else l in
  Vector3_multiplyScalar v (1 / s)%float.

(** [copy(origin).addScaledVector(dir, t)] *)
Definition Vector3_addScaledVector (origin dir : Vector3) (t : float) : Vector3 :=
  {| vx := vx origin + vx dir * t; vy := vy origin + vy dir * t;
     vz := vz origin + vz dir * t |}%float.

Definition Vector3_sub (a b : Vector3) : Vector3 :=
  {| vx := vx a - vx b; vy := vy a - vy b; vz := vz a - vz b |}%float.

Record RaycastResult := {
  hit : bool;
  position : option Vector3;
  normal : option Vector3;
  blockPos : option Position
}.

(** How a call of [raycast] ends: it returns, or it throws a TypeError
    ([BLOCKS[undefined].solid], when the sample's y is NaN inside a generated
    chunk), or the embedding's bound on the number of samples is reached. *)
Inductive RaycastOutcome :=
  | Returned (r : RaycastResult)
  | Threw
  | OutOfFuel.

(** [this.getBlock(bx, by, bz)] at the voxel of a sample; [None] when the
    block read is [undefined]. *)
Definition sampleBlock (w : World) (pos : Vector3) : option BlockType :=
  if is_finite (vx pos) && is_finite (vz pos) then
    let bx := Math_floor (vx pos) in
    let bz := Math_floor (vz pos) in
    if PrimFloat.is_nan (vy pos) then
      match World_getChunk w (bx / CHUNK_SIZE) (bz / CHUNK_SIZE) with
      | Some chunk => if isGenerated chunk then None else Some AIR
      | None => Some AIR
      end
    else if is_finite (vy pos) then Some (World_getBlock w bx (Math_floor (vy pos)) bz)
    else Some AIR      (* y is an infinity: out of the chunk's height *)
  else Some AIR.       (* the chunk key has a NaN or an infinity: no chunk *)

Definition rayStep : float := 0.1.

Fixpoint raycast_from (fuel : nat) (w : World) (origin dir : Vector3)
    (maxDistance t : float) : RaycastOutcome :=
  match fuel with
  | O => OutOfFuel
  | S fuel' =>
      if (t <? maxDistance)%float then
        let pos := Vector3_addScaledVector origin dir t in
        match sampleBlock w pos with
        | None => Threw
        | Some block =>
            if negb (BlockType_eqb block AIR) && solid (BLOCKS block) then
              (* Found a block, calculate normal *)
              let bx := Math_floor (vx pos) in
              let by_ := Math_floor (vy pos) in
              let bz := Math_floor (vz pos) in
              let center :=
                {| vx := Z2float bx + 0.5; vy := Z2float by_ + 0.5;
                   vz := Z2float bz + 0.5 |}%float in
              let diff := Vector3_sub pos center in
              let absDiff :=
                {| vx := Math_abs (vx diff); vy := Math_abs (vy diff);
                   vz := Math_abs (vz diff) |} in
              let normal :=
                if (vy absDiff <? vx absDiff)%float && (vz absDiff <? vx absDiff)%float
                then {| vx := Math_sign (vx diff); vy := 0; vz := 0 |}
                else if (vz absDiff <? vy absDiff)%float
                then {| vx := 0; vy := Math_sign (vy diff); vz := 0 |}
                else {| vx := 0; vy := 0; vz := Math_sign (vz diff) |} in
              Returned {| hit := true; position := Some pos; normal := Some normal;
                          blockPos := Some {| pos_x := bx; pos_y := by_; pos_z := bz |} |}
            else raycast_from fuel' w origin dir maxDistance (t + rayStep)%float
        end
      else
        Returned {| hit := false; position := None; normal := None; blockPos := None |}
  end.

(** [raycast(origin, direction, maxDistance)], taking at most [fuel] samples. *)
Definition World_raycast (fuel : nat) (w : World) (origin direction : Vector3)
    (maxDistance : float) : RaycastOutcome :=
  raycast_from fuel w origin (Vector3_normalize direction) maxDistance 0.

(** ** inventory.ts *)

(** An [ItemStack]: [{ type, count, maxStack }].  Counts are integers, as at
    every call site. *)
Record ItemStack := { stack_type : string; stack_count : Z; stack_maxStack : Z }.

(** An [InventorySlot] [{ item: ItemStack | null }]. *)
Definition InventorySlot : Type := option ItemStack.

Record ItemInfo := { info_name : string; info_maxStack : Z; info_food : option Z }.

Definition mkItem (n : string) (m : Z) : ItemInfo :=
  {| info_name := n; info_maxStack := m; info_food := None |}.

Definition mkFood (n : string) (m f : Z) : ItemInfo :=
  {| info_name := n; info_maxStack := m; info_food := Some f |}.

(** Items that aren't blocks *)
Definition ITEMS : list (string * ItemInfo) := [
  (* Food *)
  ("rotten_flesh", mkFood "Rotten Flesh" 64 4);
  ("bone", mkItem "Bone" 64);
  ("porkchop", mkFood "Raw Porkchop" 64 3);
  ("cooked_porkchop", mkFood "Cooked Porkchop" 64 8);
  ("beef", mkFood "Raw Beef" 64 3);
  ("cooked_beef", mkFood "Steak" 64 8);
  ("apple", mkFood "Apple" 64 4);
  ("bread", mkFood "Bread" 64 5);
  (* Materials *)
  ("stick", mkItem "Stick" 64);
  ("coal", mkItem "Coal" 64);
  ("iron_ingot", mkItem "Iron Ingot" 64);
  ("gold_ingot", mkItem "Gold Ingot" 64);
  ("diamond", mkItem "Diamond" 64);
  ("brick", mkItem "Brick" 64);
  ("wheat", mkItem "Wheat" 64);
  (* Wooden tools *)
  ("wooden_sword", mkItem "Wooden Sword" 1);
  ("wooden_pickaxe", mkItem "Wooden Pickaxe" 1);
  ("wooden_axe", mkItem "Wooden Axe" 1);
  ("wooden_shovel", mkItem "Wooden Shovel" 1);
  (* Stone tools *)
  ("stone_sword", mkItem "Stone Sword" 1);
  ("stone_pickaxe", mkItem "Stone Pickaxe" 1);
  ("stone_axe", mkItem "Stone Axe" 1);
  ("stone_shovel", mkItem "Stone Shovel" 1);
  (* Iron tools *)
  ("iron_sword", mkItem "Iron Sword" 1);
  ("iron_pickaxe", mkItem "Iron Pickaxe" 1);
  ("iron_axe", mkItem "Iron Axe" 1);
  ("iron_shovel", mkItem "Iron Shovel" 1);
  (* Diamond tools *)
  ("diamond_sword", mkItem "Diamond Sword" 1);
  ("diamond_pickaxe", mkItem "Diamond Pickaxe" 1);
  ("diamond_axe", mkItem "Diamond Axe" 1);
  ("diamond_shovel", mkItem "Diamond Shovel" 1);
  (* Placeable items *)
  ("crafting_table", mkItem "Crafting Table" 64);
  ("furnace", mkItem "Furnace" 64);
  ("chest", mkItem "Chest" 64);
  ("torch", mkItem "Torch" 64)
]%string.

(** [ITEMS[type]], for its own properties; what a key inherits from
    [Object.prototype] has no [maxStack] and no [food]. *)
Definition ITEMS_get (type : string) : option ItemInfo :=
  option_map snd (List.find (fun p => String.eqb (fst p) type) ITEMS).

(** [ITEMS[type]?.maxStack || 64], after the test for block items. *)
Definition Inventory_getMaxStack (type : string) : Z :=
  if String.prefix "block_" type then 64
  else
    match ITEMS_get type with
    | Some info => if info_maxStack info =? 0 then 64 else info_maxStack info
    | None => 64
    end.

(** [ITEMS[type]?.food || 0] *)
Definition Inventory_getItemFood (type : string) : Z :=
  match ITEMS_get type with
  | Some {| info_food := Some f |} => f
  | _ => 0
  end.

Definition Inventory_getWeaponDamage (type : string) : Z :=
  if String.eqb type "wooden_sword" then 4
  else if String.eqb type "stone_sword" then 5
  else if String.eqb type "iron_sword" then 6
  else if String.eqb type "diamond_sword" then 7
  else 1.   (* Fist *)

Record Inventory := { slots : list InventorySlot; selectedSlot : Z }.

Definition hotbarSize : Z := 9.
Definition inventorySize : Z := 36.

Definition set_count (item : ItemStack) (n : Z) : ItemStack :=
  {| stack_type := stack_type item; stack_count := n;
     stack_maxStack := stack_maxStack item |}.

(** The first loop of [addItem], from the slots not yet visited: the slots
    afterwards, what remains to be added, and whether the loop returned. *)
Fixpoint stackExisting (type : string) (maxStack : Z) (todo : list InventorySlot)
    (remaining : Z) : list InventorySlot * Z * bool :=
  match todo with
  | [] => ([], remaining, false)
  | slot :: rest =>
      match slot with
      | Some item =>
          if String.eqb (stack_type item) type && (stack_count item <? maxStack) then
            let canAdd := Z.min remaining (maxStack - stack_count item) in
            let slot := Some (set_count item (stack_count item + canAdd)) in
            let remaining := remaining - canAdd in
            if remaining <=? 0 then (slot :: rest, remaining, true)
            else
              let '(rest, remaining, returned) :=
                stackExisting type maxStack rest remaining in
              (slot :: rest, remaining, returned)
          else
            let '(rest, remaining, returned) := stackExisting type maxStack rest remaining in
            (slot :: rest, remaining, returned)
      | None =>
          let '(rest, remaining, returned) := stackExisting type maxStack rest remaining in
          (slot :: rest, remaining, returned)
      end
  end.

(** The second loop of [addItem]. *)
Fixpoint fillEmpty (type : string) (maxStack : Z) (todo : list InventorySlot)
    (remaining : Z) : list InventorySlot * Z * bool :=
  match todo with
  | [] => ([], remaining, false)
  | slot :: rest =>
      match slot with
      | None =>
          let stackSize := Z.min remaining maxStack in
          let slot :=
            Some {| stack_type := type; stack_count := stackSize;
                    stack_maxStack := maxStack |} in
          let remaining := remaining - stackSize in
          if remaining <=? 0 then (slot :: rest, remaining, true)
          else
            let '(rest, remaining, returned) := fillEmpty type maxStack rest remaining in
            (slot :: rest, remaining, returned)
      | Some _ =>
          let '(rest, remaining, returned) := fillEmpty type maxStack rest remaining in
          (slot :: rest, remaining, returned)
      end
  end.

Definition set_slots (l : list InventorySlot) (inv : Inventory) : Inventory :=
  {| slots := l; selectedSlot := selectedSlot inv |}.

(** [addItem(type, count)]: the number returned and the inventory
    afterwards. *)
Definition Inventory_addItem (type : string) (count : Z) (inv : Inventory)
    : Z * Inventory :=
  let maxStack := Inventory_getMaxStack type in
  let remaining := count in
  (* First, try to stack with existing items *)
  let '(slots1, remaining, returned) := stackExisting type maxStack (slots inv) remaining in
  if returned then (0, set_slots slots1 inv)
  else
    (* Then, find empty slots *)
    let '(slots2, remaining, returned) := fillEmpty type maxStack slots1 remaining in
    if returned then (0, set_slots slots2 inv)
    else (remaining, set_slots slots2 inv).   (* Return items that couldn't be added *)

(** The decimal digits of a block type's number, as in the template
    [`block_${blockType}`]. *)
Definition blockItemName (blockType : BlockType) : string :=
  ("block_" ++ NilZero.string_of_uint (N.to_uint (Z.to_N (BlockType_code blockType))))%string.

Definition Inventory_addBlockItem (blockType : BlockType) (count : Z) (inv : Inventory)
    : Z * Inventory :=
  Inventory_addItem (blockItemName blockType) count inv.

(** [this.slots[i]]: [None] for an index that is no index of the array
    (reading [.item] of it then throws a TypeError). *)
Definition Inventory_slot (inv : Inventory) (i : Z) : option InventorySlot :=
  if i <? 0 then None else slots inv !! Z.to_nat i.

(** [removeItem(slotIndex, count)]: [None] when it throws, else the stack
    returned, or [null], and the inventory afterwards. *)
Definition Inventory_removeItem (slotIndex : Z) (count : Z) (inv : Inventory)
    : option (option ItemStack * Inventory) :=
  match Inventory_slot inv slotIndex with
  | None => None
  | Some None => Some (None, inv)
  | Some (Some item) =>
      if stack_count item <=? count then
        Some (Some item, set_slots (<[Z.to_nat slotIndex := None]> (slots inv)) inv)
      else
        Some (Some (set_count item count),
              set_slots (<[Z.to_nat slotIndex :=
                             Some (set_count item (stack_count item - count))]> (slots inv))
                        inv)
  end.

Definition Inventory_getSelectedItem (inv : Inventory) : option (option ItemStack) :=
  Inventory_slot inv (selectedSlot inv).

(** [useSelectedItem()]: [None] when it throws, else the boolean returned
    and the inventory afterwards. *)
Definition Inventory_useSelectedItem (inv : Inventory) : option (bool * Inventory) :=
  match Inventory_slot inv (selectedSlot inv) with
  | None => None
  | Some None => Some (false, inv)
  | Some (Some item) =>
      let n := stack_count item - 1 in
      Some (true,
            set_slots
              (<[Z.to_nat (selectedSlot inv) :=
                   if n <=? 0 then None else Some (set_count item n)]> (slots inv))
              inv)
  end.

(** [new Inventory()]: 36 empty slots, then the starting items. *)
Definition Inventory_new : Inventory :=
  let inv := {| slots := replicate (Z.to_nat inventorySize) None; selectedSlot := 0 |} in
  block [
    (fun inv => snd (Inventory_addItem "wooden_sword" 1 inv));
    (fun inv => snd (Inventory_addItem "wooden_pickaxe" 1 inv));
    (fun inv => snd (Inventory_addBlockItem COBBLESTONE 64 inv));
    (fun inv => snd (Inventory_addBlockItem PLANKS 64 inv));
    (fun inv => snd (Inventory_addBlockItem WOOD 64 inv));
    (fun inv => snd (Inventory_addBlockItem DIRT 64 inv));
    (fun inv => snd (Inventory_addBlockItem STONE 64 inv));
    (fun inv => snd (Inventory_addBlockItem GLASS 64 inv));
    (fun inv => snd (Inventory_addBlockItem CRAFTING_TABLE 4 inv));  (* Crafting tables! *)
    (fun inv => snd (Inventory_addBlockItem CHEST 8 inv));           (* Chests! *)
    (fun inv => snd (Inventory_addBlockItem FURNACE 4 inv));         (* Furnaces! *)
    (fun inv => snd (Inventory_addItem "bread" 10 inv));
    (fun inv => snd (Inventory_addItem "torch" 32 inv))  (* Give player some torches! *)
  ] inv.

(** * Vocabulary of the properties *)

(** ** Example worlds *)

(** A terrain generator whose six noise fields are all constant [v]. *)
Definition flatNoise (v : float) : TerrainGenerator :=
  {| noise2D := fun _ _ => v; noise3D := fun _ _ _ => v; caveNoise := fun _ _ _ => v;
     caveNoise2 := fun _ _ _ => v; ravinNoise := fun _ _ _ => v; treeNoise := fun _ _ => v |}.




(** A chunk object as an empty generation leaves it: all air, generated,
    and already meshed. *)
Definition emptyChunk (cx cz : Z) : Chunk :=
  {| blocks := blocks (Chunk_new cx cz);
     mesh := None; waterMesh := None; torchPositions := [];
     needsRebuild := false; isGenerated := true;
     chunkX := cx; chunkZ := cz |}.

(** The world in which exactly the given chunk objects are resident, each
    under the key of its coordinates. *)
Definition worldOf (cs : list Chunk) : World :=
  {| store := cs;
     chunks := imap (fun a c => (getChunkKey (chunkX c) (chunkZ c), a)) cs;
     terrain := flatNoise 0;
     structures := {| generatedStructures := ∅; lootChests := [];
                      villageLocations := []; spawnVillageGenerated := false |};
     renderDistance := 8; currentDimension := overworld;
     chunksToGenerate := []; chunksToRebuild := [];
     randomCalls := O; history := [] |}.

(** Two empty neighbouring chunks, (3, 3) and (2, 3). *)
Definition twoChunks : World := worldOf [emptyChunk 3 3; emptyChunk 2 3].

(** One chunk with a single stone block at (0, 64, 0). *)
Definition stoneAt64 : World := World_setBlock 0 64 0 STONE (worldOf [emptyChunk 0 0]).


(** A run of the program in which [Math.random()] returns 0.1 in its first
    1024 calls and 0.9 afterwards. *)
Definition lowThenHigh (n : nat) : float :=
  if (n <? 1024)%nat then 0.1%float else 0.9%float.

(** [generateChunk] on a fresh chunk (0, 0), for the generator whose noise
    fields are all -0.5 (ocean, floor at height 20), after [calls] calls of
    [Math.random()]: the chunk and the number of calls after it. *)
Definition oceanChunk (calls : nat) : Chunk * nat :=
  TerrainGenerator_generateChunk (flatNoise (-0.5)) lowThenHigh (Chunk_new 0 0, calls).

(** A neighbour lookup that finds air everywhere. *)
Definition noNeighbours (wx wy wz : Z) : BlockType := AIR.

(** An inventory of two empty slots, and one of a single stack of ten
    sticks. *)
Definition twoEmptySlots : Inventory := {| slots := [None; None]; selectedSlot := 0 |}.

Definition tenSticks : Inventory :=
  {| slots := [Some {| stack_type := "stick"; stack_count := 10; stack_maxStack := 64 |}];
     selectedSlot := 0 |}.

(** The block array has the cells the constructor gave it. *)
Definition Chunk_wf (c : Chunk) : Prop :=
  PArray.length (blocks c) = Uint63.of_Z CHUNK_VOLUME.

(** One chunk is another up to its rebuild flag, which may only have been
    raised: what [markChunkForRebuild] does to the objects of the store. *)
Definition raised (c c' : Chunk) : Prop :=
  blocks c' = blocks c /\ isGenerated c' = isGenerated c /\
  chunkX c' = chunkX c /\ chunkZ c' = chunkZ c /\
  mesh c' = mesh c /\ waterMesh c' = waterMesh c /\
  torchPositions c' = torchPositions c /\
  (needsRebuild c = true -> needsRebuild c' = true).

(** The marks that end [setBlock]: each is made when its test holds. *)
Definition applyMarks (marks : list (bool * ChunkKey)) (w : World) : World :=
  foldl (fun w '(b, (kx, kz)) => if b : bool then World_markChunkForRebuild kx kz w else w)
        w marks.

(** The chunks next to the faces of the chunk of [(x, z)] on which the block
    column at [(x, z)] lies: local coordinate 0 or 31 on an axis. *)
Definition edgeNeighbours (x z : Z) : list ChunkKey :=
  let cx := x / CHUNK_SIZE in
  let cz := z / CHUNK_SIZE in
  (if x mod CHUNK_SIZE =? 0 then [(cx - 1, cz)] else []) ++
  (if x mod CHUNK_SIZE =? CHUNK_SIZE - 1 then [(cx + 1, cz)] else []) ++
  (if z mod CHUNK_SIZE =? 0 then [(cx, cz - 1)] else []) ++
  (if z mod CHUNK_SIZE =? CHUNK_SIZE - 1 then [(cx, cz + 1)] else []).

(** What identifies a chunk object, apart from the blocks in it and its
    meshes: its coordinates, whether it is generated, and the size of its
    block array. *)
Definition chunk_shape (c : Chunk) :=
  (chunkX c, chunkZ c, isGenerated c, PArray.length (blocks c)).

(** The parts of a world that placing blocks and recording loot never
    change: the set of processed chunk keys, the flag of the spawn village,
    the event log, the map of resident chunks, both queues, the dimension,
    the render distance and the shapes of the chunk objects. *)
Definition outline (w : World) :=
  (generatedStructures (structures w), spawnVillageGenerated (structures w),
   history w, chunks w, chunksToGenerate w, chunksToRebuild w,
   currentDimension w, renderDistance w, chunk_shape <$> store w).

(** A step on the world that leaves its outline alone. *)
Definition keeps (f : World -> World) : Prop :=
  forall w, outline (f w) = outline w.

(** The operations the game performs on a world and its structure
    generator. *)
Inductive Operation :=
  | DoSetBlock (x y z : Z) (type : BlockType)
  | DoUpdateChunks (playerX playerZ : float)
  | DoGenerateStructures (chunk : Chunk)
  | DoGenerateSpawnVillage
  | DoCheckLootChest (x y z : Z)
  | DoSetDimension (dimension : Dimension).

Section Operations.
Variable Math_random : nat -> float.
Variable EndGenerator_generateChunk : Chunk * nat -> Chunk * nat.

Definition perform (w : World) (op : Operation) : World :=
  match op with
  | DoSetBlock x y z type => World_setBlock x y z type w
  | DoUpdateChunks playerX playerZ =>
      World_updateChunks Math_random EndGenerator_generateChunk playerX playerZ w
  | DoGenerateStructures chunk => generateStructures Math_random chunk w
  | DoGenerateSpawnVillage => generateSpawnVillage w
  | DoCheckLootChest x y z => (checkLootChest x y z w).2
  | DoSetDimension dimension => World_setDimension dimension w
  end.

Definition run (ops : list Operation) (w : World) : World := foldl perform w ops.
End Operations.

(** A chunk key has been stamped: it is in the generator's set. *)
Definition stamped (key : ChunkKey) (w : World) : Prop :=
  key ∈ generatedStructures (structures w).


(** The chunk's cells in the order [buildMesh] visits them. *)
Definition voxels : list (Z * Z * Z) :=
  y ← upto 0 (CHUNK_HEIGHT - 1);
  z ← upto 0 (CHUNK_SIZE - 1);
  x ← upto 0 (CHUNK_SIZE - 1);
  [(x, y, z)].

Definition torchAt (c : Chunk) (v : Z * Z * Z) : list Position :=
  let '(x, y, z) := v in
  match Chunk_getBlock c x y z with
  | TORCH => [{| pos_x := chunkX c * CHUNK_SIZE + x; pos_y := y;
                 pos_z := chunkZ c * CHUNK_SIZE + z |}]
  | _ => []
  end.




(** What [raycast] returns when the sample at [pos] is a solid block. *)
Definition hitAt (pos : Vector3) : RaycastResult :=
  let bx := Math_floor (vx pos) in
  let by_ := Math_floor (vy pos) in
  let bz := Math_floor (vz pos) in
  let center :=
    {| vx := Z2float bx + 0.5; vy := Z2float by_ + 0.5; vz := Z2float bz + 0.5 |}%float in
  let diff := Vector3_sub pos center in
  let absDiff :=
    {| vx := Math_abs (vx diff); vy := Math_abs (vy diff); vz := Math_abs (vz diff) |} in
  let normal :=
    if (vy absDiff <? vx absDiff)%float && (vz absDiff <? vx absDiff)%float
    then {| vx := Math_sign (vx diff); vy := 0; vz := 0 |}
    else if (vz absDiff <? vy absDiff)%float
    then {| vx := 0; vy := Math_sign (vy diff); vz := 0 |}
    else {| vx := 0; vy := 0; vz := Math_sign (vz diff) |} in
  {| hit := true; position := Some pos; normal := Some normal;
     blockPos := Some {| pos_x := bx; pos_y := by_; pos_z := bz |} |}.




(** No key is bound twice, no chunk object is bound under two keys, every
    key is bound to a chunk object of those coordinates, and every chunk
    object has the block array its constructor made. *)
Definition World_wf (w : World) : Prop :=
  NoDup (chunks w).*1 /\ NoDup (chunks w).*2 /\
  (forall k a, (k, a) ∈ chunks w ->
     exists c, store w !! a = Some c /\ getChunkKey (chunkX c) (chunkZ c) = k) /\
  Forall Chunk_wf (store w).

(** The same, read off the shapes of the chunk objects. *)
Definition layout_wf (cs : list (ChunkKey * addr))
    (shapes : list (Z * Z * bool * int)) : Prop :=
  NoDup cs.*1 /\ NoDup cs.*2 /\
  (forall k a, (k, a) ∈ cs ->
     exists g n, shapes !! a = Some (k.1, k.2, g, n)) /\
  Forall (fun s => s.2 = Uint63.of_Z CHUNK_VOLUME) shapes.

(** The chunk is well formed and has bedrock at the bottom of a column. *)
Definition floored (x0 z0 : Z) (c : Chunk) : Prop :=
  Chunk_wf c /\ Chunk_getBlock c x0 0 z0 = BEDROCK.

(** The map and the shapes of the chunk objects. *)
Definition layout (w : World) := (chunks w, chunk_shape <$> store w).

(** The chunk object at [a] is not beyond the unload distance of the chunk
    [(cx, cz)]. *)
Definition near (w : World) (cx cz : Z) (a : addr) : Prop :=
  forall c, store w !! a = Some c ->
    (Z2float (renderDistance w + 2) <?
     Math_sqrt (Z2float ((chunkX c - cx) * (chunkX c - cx) +
                         (chunkZ c - cz) * (chunkZ c - cz))))%float = false.

(** The chest is at the position. *)
Definition chestAt (x y z : Z) (chest : LootChest) : Prop :=
  chest_x chest = x /\ chest_y chest = y /\ chest_z chest = z.

(** What a slot holds of an item type. *)
Definition held (type : string) (slot : InventorySlot) : Z :=
  match slot with
  | Some item => if String.eqb (stack_type item) type then stack_count item else 0
  | None => 0
  end.

(** The number of items of a type in a list of slots. *)
Definition countOf (type : string) (l : list InventorySlot) : Z :=
  foldr (fun slot n => held type slot + n) 0 l.

(** A stack of the type holds between 1 and [maxStack] items. *)
Definition bounded (type : string) (maxStack : Z) (slot : InventorySlot) : Prop :=
  match slot with
  | Some item => stack_type item = type -> 1 <= stack_count item <= maxStack
  | None => True
  end.

(** The slot is taken, and if by the type then by a full stack. *)
Definition full (type : string) (maxStack : Z) (slot : InventorySlot) : Prop :=
  match slot with
  | Some item => stack_type item = type -> maxStack <= stack_count item
  | None => False
  end.

(** The slot is empty, or taken and if by the type then by a full stack. *)
Definition taken_full (type : string) (maxStack : Z) (slot : InventorySlot) : Prop :=
  match slot with
  | Some item => stack_type item = type -> maxStack <= stack_count item
  | None => True
  end.

Arguments countOf : simpl never.
Arguments held : simpl never.

(** [addItem] leaves a slot as it is, or changes the count of a stack of the
    type, or puts a new stack of the type in an empty slot. *)
Definition touched (type : string) (m : Z) (s s' : InventorySlot) : Prop :=
  match s with
  | Some item =>
      s' = s \/ (stack_type item = type /\ exists n, s' = Some (set_count item n))
  | None =>
      s' = None \/
      exists n, s' = Some {| stack_type := type; stack_count := n; stack_maxStack := m |}
  end.

(** Two chunk objects with the same block array and the same coordinates. *)
Definition same_blocks (c c' : Chunk) : Prop :=
  blocks c' = blocks c /\ chunkX c' = chunkX c /\ chunkZ c' = chunkZ c.

(** The [length] of the array is the number of its elements. *)
Definition arr_ok {A : Type} (a : JSArray A) : Prop :=
  arr_length a = Z.of_nat (length (arr_rev a)).

(** The arrays of a geometry of [n] faces: four vertices a face, three
    coordinates, three normal components, three colour components and two
    texture coordinates a vertex, six indices a face, each the number of a
    vertex. *)
Definition geometry_ok (n : Z) (g : Geometry) : Prop :=
  0 <= n /\
  arr_ok (positions g) /\ arr_length (positions g) = 12 * n /\
  arr_ok (normals g) /\ arr_length (normals g) = 12 * n /\
  arr_ok (colors g) /\ arr_length (colors g) = 12 * n /\
  arr_ok (uvs g) /\ arr_length (uvs g) = 8 * n /\
  arr_ok (indices g) /\ arr_length (indices g) = 6 * n /\
  Forall (fun i => 0 <= i < 4 * n) (arr_rev (indices g)).

(** The arrays of [buildMesh] between two blocks: two geometries, and one
    ambient occlusion value for each vertex of the solid one. *)
Definition arrays_ok (st : MeshArrays) : Prop :=
  exists ns nw,
    geometry_ok ns (solidArrays st) /\ geometry_ok nw (waterArrays st) /\
    arr_ok (aos st) /\ arr_length (aos st) = 4 * ns.

(** The attributes of a mesh of [n] faces; [ao] is the number of ambient
    occlusion values, if the mesh has that attribute. *)
Definition MeshData_ok (n : Z) (m : MeshData) : Prop :=
  1 <= n /\
  Z.of_nat (length (attr_position m)) = 12 * n /\
  Z.of_nat (length (attr_normal m)) = 12 * n /\
  Z.of_nat (length (attr_color m)) = 12 * n /\
  Z.of_nat (length (attr_uv m)) = 8 * n /\
  Z.of_nat (length (geometry_index m)) = 6 * n /\
  Forall (fun i => 0 <= i < 4 * n) (geometry_index m) /\
  match attr_ao m with
  | Some ao => Z.of_nat (length ao) = 4 * n
  | None => True
  end.

(** The flag of the spawn village is up. *)
Definition spawned (w : World) : Prop := spawnVillageGenerated (structures w) = true.

(** * Properties *)

(** ** Integer helpers *)

Lemma localCoord_mod (n : Z) : localCoord n = n mod CHUNK_SIZE.
Proof.
  unfold localCoord, CHUNK_SIZE.
  pose proof (Z.rem_bound_abs n 32 ltac:(lia)) as Hb.
  rewrite Z.rem_mod_nonneg by lia.
  pose proof (Z.quot_rem n 32 ltac:(lia)) as Hq.
  rewrite Hq at 2.
  rewrite <- Zplus_mod_idemp_r, Z_mod_same_full, Z.add_0_r.
  rewrite Z.add_comm, Z.mul_comm, Z_mod_plus_full. reflexivity.
Qed.

Lemma localCoord_range (n : Z) : 0 <= localCoord n < CHUNK_SIZE.
Proof. rewrite localCoord_mod. apply Z.mod_pos_bound. reflexivity. Qed.

Lemma in_chunk_iff (x y z : Z) :
  out_of_chunk x y z = false <->
  0 <= x < CHUNK_SIZE /\ 0 <= y < CHUNK_HEIGHT /\ 0 <= z < CHUNK_SIZE.
Proof. unfold out_of_chunk, CHUNK_SIZE, CHUNK_HEIGHT. lia. Qed.

Lemma index_range (x y z : Z) :
  out_of_chunk x y z = false -> 0 <= Chunk_getBlockIndex x y z < CHUNK_VOLUME.
Proof.
  rewrite in_chunk_iff.
  unfold Chunk_getBlockIndex, CHUNK_VOLUME, CHUNK_SIZE, CHUNK_HEIGHT. lia.
Qed.

Lemma index_inj (x y z x' y' z' : Z) :
  out_of_chunk x y z = false -> out_of_chunk x' y' z' = false ->
  Chunk_getBlockIndex x y z = Chunk_getBlockIndex x' y' z' ->
  x = x' /\ y = y' /\ z = z'.
Proof.
  rewrite !in_chunk_iff.
  unfold Chunk_getBlockIndex, CHUNK_SIZE, CHUNK_HEIGHT. lia.
Qed.

Lemma to_Z_of_index (i : Z) :
  0 <= i < CHUNK_VOLUME -> Uint63.to_Z (Uint63.of_Z i) = i.
Proof.
  intros Hi. rewrite Uint63.of_Z_spec. apply Z.mod_small.
  change Uint63.wB with (2 ^ 63). unfold CHUNK_VOLUME, CHUNK_SIZE, CHUNK_HEIGHT in Hi. lia.
Qed.

(** ** Chunk storage *)

Lemma Chunk_new_wf (cx cz : Z) : Chunk_wf (Chunk_new cx cz).
Proof. reflexivity. Qed.

Lemma Chunk_setBlock_wf (c : Chunk) (x y z : Z) (t : BlockType) :
  Chunk_wf c -> Chunk_wf (Chunk_setBlock c x y z t).
Proof.
  unfold Chunk_wf, Chunk_setBlock. intros Hc.
  destruct (out_of_chunk x y z); [exact Hc|]. simpl. rewrite length_set. exact Hc.
Qed.

Lemma Chunk_get_set_same (c : Chunk) (x y z : Z) (t : BlockType) :
  Chunk_wf c -> out_of_chunk x y z = false ->
  Chunk_getBlock (Chunk_setBlock c x y z t) x y z = t.
Proof.
  intros Hc Hin. unfold Chunk_getBlock, Chunk_setBlock. rewrite Hin. simpl.
  apply get_set_same. rewrite Hc. apply Uint63.ltb_spec.
  pose proof (index_range _ _ _ Hin) as Hr.
  rewrite to_Z_of_index by exact Hr.
  change (Uint63.to_Z (Uint63.of_Z CHUNK_VOLUME)) with CHUNK_VOLUME. lia.
Qed.

Lemma Chunk_get_set_other (c : Chunk) (x y z x' y' z' : Z) (t : BlockType) :
  (x, y, z) <> (x', y', z') ->
  Chunk_getBlock (Chunk_setBlock c x y z t) x' y' z' = Chunk_getBlock c x' y' z'.
Proof.
  intros Hne. unfold Chunk_getBlock, Chunk_setBlock.
  destruct (out_of_chunk x' y' z') eqn:Hin'; [reflexivity|].
  destruct (out_of_chunk x y z) eqn:Hin; [reflexivity|]. simpl.
  apply get_set_other. intros Heq. apply Hne.
  apply (f_equal Uint63.to_Z) in Heq.
  rewrite !to_Z_of_index in Heq by (apply index_range; assumption).
  destruct (index_inj _ _ _ _ _ _ Hin Hin' Heq) as (-> & -> & ->). reflexivity.
Qed.

Lemma Chunk_getBlock_outside (c : Chunk) (x y z : Z) :
  out_of_chunk x y z = true -> Chunk_getBlock c x y z = AIR.
Proof. unfold Chunk_getBlock. intros ->. reflexivity. Qed.

(** ** The chunk map and the store *)

Lemma ChunkKey_eqb_eq (a b : ChunkKey) : ChunkKey_eqb a b = true <-> a = b.
Proof. destruct a, b. unfold ChunkKey_eqb. simpl. split; [|intros [= -> ->]]; [|lia]. intros. f_equal; lia. Qed.

Lemma getChunk_Some (w : World) (cx cz : Z) (c : Chunk) :
  World_getChunk w cx cz = Some c <->
  exists a, World_getChunkAddr w cx cz = Some a /\ store w !! a = Some c.
Proof.
  unfold World_getChunk, World_getChunkAddr.
  destruct (Map_get _ _) as [a|]; simpl.
  - split.
    + intros H. exists a. rewrite H. auto.
    + intros (a' & H1 & H2). destruct (store w !! a) eqn:E; simplify_eq/=. congruence.
  - split; [discriminate | intros (? & ? & ?); discriminate].
Qed.

Lemma getChunk_None (w : World) (cx cz : Z) :
  World_getChunk w cx cz = None <-> World_getChunkAddr w cx cz = None.
Proof.
  unfold World_getChunk, World_getChunkAddr.
  destruct (Map_get _ _) as [a|]; simpl; [|tauto].
  destruct (store w !! a); simpl; split; congruence.
Qed.

Lemma raised_refl (c : Chunk) : raised c c.
Proof. unfold raised. tauto. Qed.

Lemma raised_trans (c1 c2 c3 : Chunk) : raised c1 c2 -> raised c2 c3 -> raised c1 c3.
Proof. unfold raised. intros (?&?&?&?&?&?&?&?) (?&?&?&?&?&?&?&?). repeat split; try congruence. auto. Qed.

Lemma raised_mark (c : Chunk) : raised c (Chunk_markRebuild c).
Proof. unfold raised. simpl. tauto. Qed.

Lemma markChunkForRebuild_chunks (cx cz : Z) (w : World) :
  chunks (World_markChunkForRebuild cx cz w) = chunks w.
Proof.
  unfold World_markChunkForRebuild.
  destruct (World_getChunkAddr w cx cz), (World_getChunk w cx cz); try reflexivity.
  destruct (isGenerated c); reflexivity.
Qed.

Lemma markChunkForRebuild_store (cx cz : Z) (w : World) (a : addr) (c : Chunk) :
  store w !! a = Some c ->
  exists c', store (World_markChunkForRebuild cx cz w) !! a = Some c' /\ raised c c'.
Proof.
  intros Ha. unfold World_markChunkForRebuild.
  destruct (World_getChunkAddr w cx cz) as [a0|] eqn:Haddr;
    [|exists c; split; [exact Ha | apply raised_refl]].
  destruct (World_getChunk w cx cz) as [c0|] eqn:Hc0;
    [|exists c; split; [exact Ha | apply raised_refl]].
  destruct (isGenerated c0); [|exists c; split; [exact Ha | apply raised_refl]].
  simpl. apply getChunk_Some in Hc0 as (a1 & Ha1 & Hs1).
  rewrite Haddr in Ha1. injection Ha1 as <-.
  destruct (decide (a0 = a)) as [->|Hne].
  - rewrite Ha in Hs1. injection Hs1 as <-.
    exists (Chunk_markRebuild c). split; [|apply raised_mark].
    apply list_lookup_insert_eq. eapply lookup_lt_Some, Ha.
  - exists c. split; [|apply raised_refl].
    rewrite list_lookup_insert_ne by exact Hne. exact Ha.
Qed.

Lemma markChunkForRebuild_marks (cx cz : Z) (w : World) (c : Chunk) :
  World_getChunk w cx cz = Some c -> isGenerated c = true ->
  exists c', World_getChunk (World_markChunkForRebuild cx cz w) cx cz = Some c' /\
             needsRebuild c' = true /\ raised c c'.
Proof.
  intros Hc Hg. pose proof Hc as Hc'.
  apply getChunk_Some in Hc' as (a & Haddr & Hs).
  unfold World_markChunkForRebuild. rewrite Haddr, Hc, Hg.
  exists (Chunk_markRebuild c). split; [|split; [reflexivity | apply raised_mark]].
  unfold World_getChunk, World_getChunkAddr in *. simpl.
  destruct (Map_get (getChunkKey cx cz) (chunks w)) as [a'|]; [|discriminate].
  simpl in *. rewrite Hc in Haddr. injection Haddr as ->.
  apply list_lookup_insert_eq. eapply lookup_lt_Some, Hs.
Qed.

(** Looking a chunk up after a mark: the same object, possibly raised. *)
Lemma markChunkForRebuild_getChunk (cx cz kx kz : Z) (w : World) (c : Chunk) :
  World_getChunk w kx kz = Some c ->
  exists c', World_getChunk (World_markChunkForRebuild cx cz w) kx kz = Some c' /\
             raised c c'.
Proof.
  intros Hc. unfold World_getChunk in *. rewrite markChunkForRebuild_chunks.
  destruct (Map_get (getChunkKey kx kz) (chunks w)) as [a|]; [|discriminate].
  simpl in *. apply markChunkForRebuild_store. exact Hc.
Qed.

(** ** Loops *)

Lemma for_each_app {A S : Type} (l1 l2 : list A) (body : A -> S -> S) (s : S) :
  for_each (l1 ++ l2) body s = for_each l2 body (for_each l1 body s).
Proof. unfold for_each. apply foldl_app. Qed.

Lemma for_each_bind {A B S : Type} (l : list A) (g : A -> list B) (body : B -> S -> S) (s : S) :
  for_each (l ≫= g) body s = for_each l (fun i => for_each (g i) body) s.
Proof.
  revert s. induction l as [|i l IH]; intros s; [reflexivity|].
  rewrite bind_cons, for_each_app, IH. reflexivity.
Qed.

(** A property of the state that every iteration keeps holds after the loop. *)
Lemma for_each_invariant {A S : Type} (P : S -> Prop) (l : list A) (body : A -> S -> S) (s : S) :
  (forall i s, i ∈ l -> P s -> P (body i s)) -> P s -> P (for_each l body s).
Proof.
  unfold for_each. revert s. induction l as [|i l IH]; intros s Hb Hs; [exact Hs|].
  simpl. apply IH.
  - intros j s' Hj. apply Hb. right. exact Hj.
  - apply Hb; [left | exact Hs].
Qed.

(** A list that every iteration extends by its own elements. *)
Lemma for_each_collect {A B S : Type} (proj : S -> list B) (g : A -> list B)
    (l : list A) (body : A -> S -> S) (s : S) :
  (forall i s, proj (body i s) = proj s ++ g i) ->
  proj (for_each l body s) = proj s ++ (l ≫= g).
Proof.
  intros Hb. unfold for_each. revert s. induction l as [|i l IH]; intros s.
  - simpl. rewrite app_nil_r. reflexivity.
  - simpl foldl. rewrite IH, Hb, bind_cons, app_assoc. reflexivity.
Qed.

Lemma rev_append_reverse {A : Type} (xs l : list A) : rev_append xs l = reverse xs ++ l.
Proof. rewrite rev_append_rev, rev_alt. reflexivity. Qed.

Lemma contents_push {A : Type} (a : JSArray A) (xs : list A) :
  contents (push a xs) = contents a ++ xs.
Proof.
  unfold contents, push. simpl. rewrite rev_append_reverse.
  rewrite reverse_app, reverse_involutive. reflexivity.
Qed.

Lemma raised_getBlock (c c' : Chunk) (x y z : Z) :
  raised c c' -> Chunk_getBlock c' x y z = Chunk_getBlock c x y z.
Proof. intros (Hb & _). unfold Chunk_getBlock. rewrite Hb. reflexivity. Qed.

Lemma applyMarks_getChunk (marks : list (bool * ChunkKey)) (w : World) (kx kz : Z) (c : Chunk) :
  World_getChunk w kx kz = Some c ->
  exists c', World_getChunk (applyMarks marks w) kx kz = Some c' /\ raised c c'.
Proof.
  revert w c. induction marks as [|[b [mx mz]] marks IH]; intros w c Hc.
  - exists c. split; [exact Hc | apply raised_refl].
  - simpl. destruct b.
    + destruct (markChunkForRebuild_getChunk mx mz kx kz w c Hc) as (c1 & H1 & R1).
      destruct (IH _ _ H1) as (c2 & H2 & R2).
      exists c2. split; [exact H2 | eapply raised_trans; eassumption].
    + apply IH, Hc.
Qed.

Lemma applyMarks_marks (marks : list (bool * ChunkKey)) (w : World) (kx kz : Z) (c : Chunk) :
  (true, (kx, kz)) ∈ marks ->
  World_getChunk w kx kz = Some c -> isGenerated c = true ->
  exists c', World_getChunk (applyMarks marks w) kx kz = Some c' /\ needsRebuild c' = true.
Proof.
  revert w c. induction marks as [|[b [mx mz]] marks IH]; intros w c Hin Hc Hg.
  - inversion Hin.
  - apply elem_of_cons in Hin as [Heq | Hin].
    + injection Heq as <- <- <-. simpl.
      destruct (markChunkForRebuild_marks kx kz w c Hc Hg) as (c1 & H1 & Hn1 & _).
      destruct (applyMarks_getChunk marks _ kx kz c1 H1) as (c2 & H2 & R2).
      exists c2. split; [exact H2 | apply R2, Hn1].
    + simpl. destruct b; [|eapply IH; eassumption].
      destruct (markChunkForRebuild_getChunk mx mz kx kz w c Hc) as (c1 & H1 & R1).
      apply (IH _ c1 Hin H1). destruct R1 as (_ & -> & _). exact Hg.
Qed.

(** [setBlock] on a resident, generated chunk: the write, then the marks. *)
Lemma setBlock_resident (w : World) (x y z : Z) (t : BlockType) (a : addr) (c : Chunk) :
  World_getChunkAddr w (x / CHUNK_SIZE) (z / CHUNK_SIZE) = Some a ->
  store w !! a = Some c -> isGenerated c = true ->
  World_setBlock x y z t w =
  applyMarks
    [ (localCoord x =? 0, (x / CHUNK_SIZE - 1, z / CHUNK_SIZE));
      (localCoord x =? CHUNK_SIZE - 1, (x / CHUNK_SIZE + 1, z / CHUNK_SIZE));
      (localCoord z =? 0, (x / CHUNK_SIZE, z / CHUNK_SIZE - 1));
      (localCoord z =? CHUNK_SIZE - 1, (x / CHUNK_SIZE, z / CHUNK_SIZE + 1)) ]
    (set_store (fun s => <[a := Chunk_setBlock c (localCoord x) y (localCoord z) t]> s) w).
Proof.
  intros Haddr Hs Hg. unfold World_setBlock.
  assert (World_getChunk w (x / CHUNK_SIZE) (z / CHUNK_SIZE) = Some c) as ->
    by (apply getChunk_Some; eauto).
  rewrite Haddr, Hg. reflexivity.
Qed.

(** Looking a chunk up after the object at one address was replaced. *)
Lemma getChunk_set_store (w : World) (a : addr) (c1 : Chunk) (kx kz : Z) (c : Chunk) :
  World_getChunk w kx kz = Some c ->
  exists c', World_getChunk (set_store (fun s => <[a := c1]> s) w) kx kz = Some c' /\
             (c' = c \/ (c' = c1 /\ World_getChunkAddr w kx kz = Some a)).
Proof.
  intros Hc. pose proof Hc as Hc'. apply getChunk_Some in Hc' as (a' & Haddr & Hs).
  unfold World_getChunk, World_getChunkAddr in *. simpl.
  destruct (Map_get (getChunkKey kx kz) (chunks w)) as [a''|]; [|discriminate].
  simpl in *. rewrite Hc in Haddr. injection Haddr as ->.
  destruct (decide (a = a')) as [->|Hne].
  - exists c1. split; [|right; split; [reflexivity|]].
    + apply list_lookup_insert_eq. eapply lookup_lt_Some, Hs.
    + rewrite Hs. reflexivity.
  - exists c. split; [|left; reflexivity].
    rewrite list_lookup_insert_ne by exact Hne. exact Hs.
Qed.

Lemma Chunk_setBlock_isGenerated (c : Chunk) (x y z : Z) (t : BlockType) :
  isGenerated (Chunk_setBlock c x y z t) = isGenerated c.
Proof. unfold Chunk_setBlock. destruct (out_of_chunk x y z); reflexivity. Qed.

(** ** C2, C3, C6: reading and writing blocks through the world *)

(** C2. A block written with [setBlock] into a resident, generated chunk, at
    a height [0 <= y < 128], is the block [getBlock] then reads there. *)
Theorem C2_setBlock_then_getBlock (w : World) (x y z : Z) (T : BlockType) (chunk : Chunk) :
  World_getChunk w (x / CHUNK_SIZE) (z / CHUNK_SIZE) = Some chunk ->
  isGenerated chunk = true ->
  Chunk_wf chunk ->
  0 <= y < CHUNK_HEIGHT ->
  World_getBlock (World_setBlock x y z T w) x y z = T.
Proof.
  intros Hc Hg Hwf Hy.
  pose proof Hc as Hc'. apply getChunk_Some in Hc' as (a & Haddr & Hs).
  rewrite (setBlock_resident w x y z T a chunk Haddr Hs Hg).
  set (c1 := Chunk_setBlock chunk (localCoord x) y (localCoord z) T).
  destruct (getChunk_set_store w a c1 _ _ chunk Hc) as (c2 & H2 & Hc2).
  assert (c2 = c1) as ->.
  { destruct Hc2 as [->|[-> _]]; [|reflexivity].
    unfold World_getChunk, World_getChunkAddr in *. simpl in *.
    destruct (Map_get _ (chunks w)) as [a'|]; [|discriminate]. simpl in *.
    rewrite Hc in Haddr. injection Haddr as ->.
    rewrite list_lookup_insert_eq in H2 by (eapply lookup_lt_Some, Hs).
    congruence. }
  match goal with |- World_getBlock (applyMarks ?m ?w1) _ _ _ = _ =>
    destruct (applyMarks_getChunk m w1 _ _ c1 H2) as (c3 & H3 & R3) end.
  unfold World_getBlock. rewrite H3.
  destruct R3 as (Hb & Hg3 & _).
  rewrite Hg3. unfold c1 at 1. rewrite Chunk_setBlock_isGenerated, Hg. simpl.
  unfold Chunk_getBlock at 1. rewrite Hb. fold (Chunk_getBlock c1 (localCoord x) y (localCoord z)).
  apply Chunk_get_set_same; [exact Hwf|].
  apply in_chunk_iff. pose proof (localCoord_range x). pose proof (localCoord_range z). lia.
Qed.

(** C3. Where the containing chunk is not resident, or is resident but not
    generated, [getBlock] returns [AIR] and [setBlock] changes nothing at
    all in the world. *)
Theorem C3_absent_chunk_reads_air_and_ignores_writes
    (w : World) (x y z : Z) (T : BlockType) :
  (World_getChunk w (x / CHUNK_SIZE) (z / CHUNK_SIZE) = None \/
   exists chunk, World_getChunk w (x / CHUNK_SIZE) (z / CHUNK_SIZE) = Some chunk /\
                 isGenerated chunk = false) ->
  World_getBlock w x y z = AIR /\ World_setBlock x y z T w = w.
Proof.
  intros [Hnone | (chunk & Hc & Hg)].
  - unfold World_getBlock, World_setBlock. rewrite Hnone.
    destruct (World_getChunkAddr _ _ _); auto.
  - unfold World_getBlock, World_setBlock. rewrite Hc, Hg. simpl.
    destruct (World_getChunkAddr _ _ _); auto.
Qed.

(** C6. [setBlock] at a boundary column of a resident, generated chunk
    leaves every resident, generated chunk across that boundary with
    [needsRebuild] set. *)
Theorem C6_setBlock_marks_edge_neighbours
    (w : World) (x y z : Z) (T : BlockType) (chunk neighbour : Chunk) (kx kz : Z) :
  World_getChunk w (x / CHUNK_SIZE) (z / CHUNK_SIZE) = Some chunk ->
  isGenerated chunk = true ->
  (kx, kz) ∈ edgeNeighbours x z ->
  World_getChunk w kx kz = Some neighbour ->
  isGenerated neighbour = true ->
  exists neighbour',
    World_getChunk (World_setBlock x y z T w) kx kz = Some neighbour' /\
    needsRebuild neighbour' = true.
Proof.
  intros Hc Hg Hin Hn Hgn.
  pose proof Hc as Hc'. apply getChunk_Some in Hc' as (a & Haddr & Hs).
  rewrite (setBlock_resident w x y z T a chunk Haddr Hs Hg).
  set (c1 := Chunk_setBlock chunk (localCoord x) y (localCoord z) T).
  destruct (getChunk_set_store w a c1 kx kz neighbour Hn) as (n1 & H1 & Hn1).
  assert (isGenerated n1 = true) as Hg1.
  { destruct Hn1 as [->|[-> _]]; [exact Hgn|].
    unfold c1. rewrite Chunk_setBlock_isGenerated. exact Hg. }
  eapply applyMarks_marks; [|exact H1|exact Hg1].
  unfold edgeNeighbours in Hin. rewrite <- !localCoord_mod in Hin.
  rewrite !elem_of_app in Hin.
  destruct Hin as [Hin|[Hin|[Hin|Hin]]];
    match type of Hin with _ ∈ (if ?b then _ else _) =>
      destruct b eqn:Hb; [apply list_elem_of_singleton in Hin; injection Hin as -> ->
                         | inversion Hin] end;
    rewrite ?Hb; repeat first [apply list_elem_of_here | apply list_elem_of_further].
Qed.

(** ** What the structure builders leave alone *)

Lemma outline_keys (w w' : World) :
  outline w' = outline w ->
  generatedStructures (structures w') = generatedStructures (structures w).
Proof. intros [= ? ? ? ? ? ? ? ? ?]. assumption. Qed.

Lemma outline_spawnVillage (w w' : World) :
  outline w' = outline w ->
  spawnVillageGenerated (structures w') = spawnVillageGenerated (structures w).
Proof. intros [= ? ? ? ? ? ? ? ? ?]. assumption. Qed.


Lemma outline_chunks (w w' : World) : outline w' = outline w -> chunks w' = chunks w.
Proof. intros [= ? ? ? ? ? ? ? ? ?]. assumption. Qed.

Lemma outline_shapes (w w' : World) :
  outline w' = outline w -> chunk_shape <$> store w' = chunk_shape <$> store w.
Proof. intros [= ? ? ? ? ? ? ? ? ?]. assumption. Qed.

(** Replacing a chunk object by one of the same shape. *)
Lemma outline_set_store (a : addr) (c c' : Chunk) (w : World) :
  store w !! a = Some c -> chunk_shape c' = chunk_shape c ->
  outline (set_store (fun s => <[a := c']> s) w) = outline w.
Proof.
  intros Ha Hs. unfold outline. cbn [set_store store structures history chunks
    chunksToGenerate chunksToRebuild currentDimension renderDistance].
  rewrite list_fmap_insert, Hs, list_insert_id; [reflexivity|].
  rewrite list_lookup_fmap. unfold addr in *. rewrite Ha. reflexivity.
Qed.

Lemma getChunk_addr (w : World) (cx cz : Z) (a : addr) (c : Chunk) :
  World_getChunkAddr w cx cz = Some a -> World_getChunk w cx cz = Some c ->
  store w !! a = Some c.
Proof.
  unfold World_getChunkAddr, World_getChunk.
  destruct (Map_get _ _) as [a0|]; simpl; [|discriminate].
  destruct (store w !! a0) eqn:Hs; simpl; [|discriminate].
  intros [= <-] [= <-]. exact Hs.
Qed.

Lemma shape_markRebuild (c : Chunk) : chunk_shape (Chunk_markRebuild c) = chunk_shape c.
Proof. reflexivity. Qed.

Lemma shape_setBlock (c : Chunk) (x y z : Z) (t : BlockType) :
  chunk_shape (Chunk_setBlock c x y z t) = chunk_shape c.
Proof.
  unfold Chunk_setBlock, chunk_shape. destruct (out_of_chunk x y z); [reflexivity|].
  simpl. rewrite length_set. reflexivity.
Qed.

Lemma shape_setBlock_num (c : Chunk) (x : float) (y z : Z) (t : BlockType) :
  chunk_shape (Chunk_setBlock_num c x y z t) = chunk_shape c.
Proof.
  unfold Chunk_setBlock_num, chunk_shape. destruct (_ || _); [reflexivity|].
  simpl. destruct (is_integer x); [rewrite length_set|]; reflexivity.
Qed.

Lemma keeps_block (stmts : list (World -> World)) :
  Forall keeps stmts -> keeps (block stmts).
Proof.
  unfold block. induction 1 as [|f stmts Hf _ IH]; intros w; simpl; [reflexivity|].
  rewrite IH. apply Hf.
Qed.

Lemma keeps_for_each {A : Type} (l : list A) (body : A -> World -> World) :
  (forall i, keeps (body i)) -> keeps (for_each l body).
Proof.
  intros Hb. unfold for_each. induction l as [|i l IH]; intros w; simpl; [reflexivity|].
  rewrite IH. apply Hb.
Qed.

Lemma keeps_for_float (fuel : nat) (x limit : float) (body : float -> World -> World) :
  (forall i, keeps (body i)) -> keeps (for_float fuel x limit body).
Proof.
  intros Hb. revert x. induction fuel as [|fuel IH]; intros x w; simpl; [reflexivity|].
  destruct (x <=? limit)%float; [|reflexivity]. rewrite IH. apply Hb.
Qed.

Lemma keeps_if (b : bool) (f g : World -> World) :
  keeps f -> keeps g -> keeps (if b then f else g).
Proof. destruct b; auto. Qed.

Lemma keeps_markChunkForRebuild (cx cz : Z) : keeps (World_markChunkForRebuild cx cz).
Proof.
  intros w. unfold World_markChunkForRebuild.
  destruct (World_getChunkAddr w cx cz) as [a|] eqn:Ha,
           (World_getChunk w cx cz) as [c|] eqn:Hc; try reflexivity.
  destruct (isGenerated c); [|reflexivity].
  apply (outline_set_store a c); [exact (getChunk_addr _ _ _ _ _ Ha Hc) | reflexivity].
Qed.

Lemma keeps_marked (b : bool) (cx cz : Z) (w0 w : World) :
  outline w = outline w0 ->
  outline (if b then World_markChunkForRebuild cx cz w else w) = outline w0.
Proof. intros H. destruct b; [rewrite keeps_markChunkForRebuild|]; exact H. Qed.

Lemma keeps_setBlock (x y z : Z) (t : BlockType) : keeps (World_setBlock x y z t).
Proof.
  intros w. unfold World_setBlock.
  destruct (World_getChunkAddr w _ _) as [a|] eqn:Ha; [|reflexivity].
  destruct (World_getChunk w _ _) as [c|] eqn:Hc; [|reflexivity].
  destruct (negb _); [reflexivity|]. cbv zeta.
  do 4 apply keeps_marked.
  apply (outline_set_store a c);
    [exact (getChunk_addr _ _ _ _ _ Ha Hc) | apply shape_setBlock].
Qed.

Lemma keeps_setBlock_num (x : float) (y z : Z) (t : BlockType) :
  keeps (World_setBlock_num x y z t).
Proof.
  intros w. unfold World_setBlock_num.
  destruct (is_finite x); simpl; [|reflexivity].
  destruct (World_getChunkAddr w _ _) as [a|] eqn:Ha; [|reflexivity].
  destruct (World_getChunk w _ _) as [c|] eqn:Hc; [|reflexivity].
  destruct (negb _); [reflexivity|]. cbv zeta.
  do 4 apply keeps_marked.
  apply (outline_set_store a c);
    [exact (getChunk_addr _ _ _ _ _ Ha Hc) | apply shape_setBlock_num].
Qed.

Lemma keeps_push_loot (c : LootChest) : keeps (push_loot c).
Proof. intros w. reflexivity. Qed.

Lemma keeps_push_village (v : VillageLocation) : keeps (push_village v).
Proof. intros w. reflexivity. Qed.

Lemma keeps_with_random (rnd : nat -> float) (k : float -> World -> World) :
  (forall r, keeps (k r)) -> keeps (with_random rnd k).
Proof. intros Hk w. unfold with_random. rewrite Hk. reflexivity. Qed.

Lemma keeps_id : keeps (fun w => w).
Proof. intros w. reflexivity. Qed.

(** Solves [keeps f], and [Forall keeps l], for builder bodies made
    of the steps above; it looks at the head of the goal only. *)
Ltac keeps :=
  lazymatch goal with
  | |- keeps (World_setBlock _ _ _ _) => apply keeps_setBlock
  | |- keeps (World_setBlock_num _ _ _ _) => apply keeps_setBlock_num
  | |- keeps (push_loot _) => apply keeps_push_loot
  | |- keeps (push_village _) => apply keeps_push_village
  | |- keeps (block _) => apply keeps_block; keeps
  | |- keeps (for_each _ _) => apply keeps_for_each; intros ?; keeps
  | |- keeps (for_float _ _ _ _) => apply keeps_for_float; intros ?; keeps
  | |- keeps (with_random _ _) => apply keeps_with_random; intros ?; keeps
  | |- keeps (if ?b then _ else _) => destruct b; keeps
  | |- keeps (let _ := _ in _) => cbv zeta; keeps
  | |- Forall keeps [] => constructor
  | |- Forall keeps (_ :: _) => constructor; [keeps | keeps]
  end.

Lemma keeps_tryGenerateDesertTemple (x z : Z) : keeps (tryGenerateDesertTemple x z).
Proof.
  intros w. unfold tryGenerateDesertTemple.
  cbv zeta. destruct (_ <? 0); [reflexivity|].
  match goal with |- context [block ?l w] => apply (keeps_block l) end. keeps.
Qed.

Lemma keeps_tryGenerateShipwreck (x z : Z) : keeps (tryGenerateShipwreck x z).
Proof.
  intros w. unfold tryGenerateShipwreck.
  destruct (shipwreckScan _ _ _ _ _) as [ws fl].
  destruct (_ || _); [reflexivity|]. destruct (_ <? 5); [reflexivity|]. cbv zeta.
  match goal with |- context [block ?l w] => apply (keeps_block l) end. keeps.
Qed.

Lemma keeps_tryGenerateRuinedPortal (rnd : nat -> float) (x z : Z) :
  keeps (tryGenerateRuinedPortal rnd x z).
Proof.
  intros w. unfold tryGenerateRuinedPortal.
  cbv zeta. destruct (_ <? 0); [reflexivity|].
  match goal with |- context [block ?l w] => apply (keeps_block l) end. keeps.
Qed.

Lemma keeps_tryGenerateDungeon (rnd : nat -> float) (x z : Z) :
  keeps (tryGenerateDungeon rnd x z).
Proof.
  intros w. unfold tryGenerateDungeon.
  destruct (_ <? 0); [reflexivity|]. cbv zeta.
  match goal with |- context [for_each ?l ?b (block ?l' w)] =>
    rewrite (keeps_for_each l b); [apply (keeps_block l')|intros ?] end; keeps.
Qed.

Lemma keeps_generateVillageWell (x y z : Z) : keeps (generateVillageWell x y z).
Proof. unfold generateVillageWell. cbv zeta. keeps. Qed.

Lemma keeps_generateVillageHouse (x y z : Z) : keeps (generateVillageHouse x y z).
Proof. unfold generateVillageHouse. cbv zeta. keeps. Qed.

Lemma keeps_generateVillageFarm (x y z : Z) : keeps (generateVillageFarm x y z).
Proof. unfold generateVillageFarm. cbv zeta. keeps. Qed.

Lemma keeps_generateVillageChurch (x y z : Z) : keeps (generateVillageChurch x y z).
Proof. unfold generateVillageChurch. cbv zeta. keeps. Qed.

Lemma keeps_generateVillageBlacksmith (x y z : Z) :
  keeps (generateVillageBlacksmith x y z).
Proof. unfold generateVillageBlacksmith. cbv zeta. keeps. Qed.

Lemma keeps_villageBuildings (fuel : nat) (cx cz gy : Z) (d : Z * Z) (len dist : Z)
    (st : VillageState) :
  outline (villageBuildings fuel cx cz gy d len dist st).1.1 = outline st.1.1.
Proof.
  revert dist st. induction fuel as [|fuel IH]; intros dist [[w seed] ps]; [reflexivity|].
  cbn [villageBuildings]. destruct (dist <? len - 4); [|reflexivity].
  destruct d as [ddx ddz].
  destruct (negb (ddz =? 0)); destruct (negb (ddx =? 0));
    repeat match goal with
           | |- context [seededRandom_next ?s] =>
               is_var s; destruct (seededRandom_next s) as [? ?]
           end;
    repeat match goal with
           | |- context [PrimFloat.ltb ?a ?b] => destruct (PrimFloat.ltb a b)
           end;
    rewrite IH; cbn [fst];
    lazymatch goal with
    | |- context [generateVillageHouse ?x ?y ?z ?w] =>
        exact (keeps_generateVillageHouse x y z w)
    | |- context [generateVillageFarm ?x ?y ?z ?w] =>
        exact (keeps_generateVillageFarm x y z w)
    | |- context [generateVillageChurch ?x ?y ?z ?w] =>
        exact (keeps_generateVillageChurch x y z w)
    | |- context [generateVillageBlacksmith ?x ?y ?z ?w] =>
        exact (keeps_generateVillageBlacksmith x y z w)
    end.
Qed.

Lemma keeps_if_fun (b : bool) (f : World -> World) :
  keeps f -> keeps (fun w => if b then f w else w).
Proof. intros Hf w. destruct b; [apply Hf | reflexivity]. Qed.

Lemma keeps_tryGenerateVillage (x z : Z) : keeps (tryGenerateVillage x z).
Proof.
  intros w. unfold tryGenerateVillage. cbv zeta.
  destruct (_ <? 0); [reflexivity|].
  destruct (30 <? _); [reflexivity|].
  match goal with |- context [for_each ?l ?b ?s] =>
    assert (outline (for_each l b s).1.1 = outline w) as Hr;
    [ apply (for_each_invariant
               (fun st : VillageState => outline st.1.1 = outline w))
    | destruct (for_each l b s) as [[w1 seed1] ps1];
      rewrite keeps_push_village; exact Hr ]
  end.
  - intros [ddx ddz] [[w0 seed] ps] _ H0.
    destruct (seededRandom_next seed) as [seed1' r].
    rewrite keeps_villageBuildings. cbn [fst].
    match goal with |- context [for_each ?l ?b w0] => rewrite (keeps_for_each l b) end;
      [exact H0|].
    intros i w2. apply keeps_setBlock.
  - cbn [fst]. apply keeps_generateVillageWell.
Qed.

Ltac keeps_village :=
  lazymatch goal with
  | |- keeps (generateVillageWell _ _ _) => apply keeps_generateVillageWell
  | |- keeps (generateVillageHouse _ _ _) => apply keeps_generateVillageHouse
  | |- keeps (generateVillageFarm _ _ _) => apply keeps_generateVillageFarm
  | |- keeps (generateVillageChurch _ _ _) => apply keeps_generateVillageChurch
  | |- keeps (generateVillageBlacksmith _ _ _) =>
      apply keeps_generateVillageBlacksmith
  | |- Forall keeps [] => constructor
  | |- Forall keeps (_ :: _) => constructor; [keeps_village | keeps_village]
  | |- _ => keeps
  end.

Lemma keeps_forceGenerateVillage (x z : Z) : keeps (forceGenerateVillage x z).
Proof.
  intros w. unfold forceGenerateVillage. cbv zeta.
  match goal with |- context [block ?l w] => apply (keeps_block l) end.
  keeps_village.
Qed.

Lemma keeps_stamped (f : World -> World) (key : ChunkKey) (w : World) :
  keeps f -> stamped key w -> stamped key (f w).
Proof. unfold stamped. intros Hf H. rewrite (outline_keys _ _ (Hf w)). exact H. Qed.

Lemma generateStructures_stamped (rnd : nat -> float) (chunk : Chunk) (w : World) :
  stamped (chunkX chunk, chunkZ chunk) w -> generateStructures rnd chunk w = w.
Proof.
  unfold stamped, generateStructures, getChunkKey. intros H.
  rewrite bool_decide_eq_true_2 by exact H. reflexivity.
Qed.

(** [generateStructures] changes the outline of the world by stamping the
    chunk's key, and in no other way. *)
Lemma generateStructures_outline (rnd : nat -> float) (chunk : Chunk) (w : World) :
  outline (generateStructures rnd chunk w) =
  outline (set_structures (fun s =>
    {| generatedStructures :=
         if bool_decide (getChunkKey (chunkX chunk) (chunkZ chunk) ∈ generatedStructures s)
         then generatedStructures s
         else {[ getChunkKey (chunkX chunk) (chunkZ chunk) ]} ∪ generatedStructures s;
       lootChests := lootChests s;
       villageLocations := villageLocations s;
       spawnVillageGenerated := spawnVillageGenerated s |}) w).
Proof.
  unfold generateStructures.
  destruct (bool_decide _) eqn:Hd.
  - unfold outline, set_structures. cbn [structures generatedStructures].
    rewrite Hd. reflexivity.
  - cbv zeta.
    match goal with |- context [block ?l ?w0] =>
      assert (keeps (block l)) as Hk; [|rewrite (Hk w0)] end.
    + apply keeps_block.
      repeat (constructor; [apply keeps_if_fun|]);
        [ apply keeps_tryGenerateDesertTemple
        | apply keeps_tryGenerateShipwreck
        | apply keeps_tryGenerateRuinedPortal
        | apply keeps_tryGenerateDungeon
        | apply keeps_tryGenerateVillage
        | constructor ].
    + unfold outline, set_structures. cbn [structures generatedStructures].
      rewrite Hd. reflexivity.
Qed.

Lemma generateStructures_keys (rnd : nat -> float) (chunk : Chunk) (key : ChunkKey)
    (w : World) :
  key = (chunkX chunk, chunkZ chunk) \/ stamped key w ->
  stamped key (generateStructures rnd chunk w).
Proof.
  unfold stamped. intros H.
  rewrite (outline_keys _ _ (generateStructures_outline rnd chunk w)).
  unfold set_structures, getChunkKey. cbn [structures generatedStructures].
  destruct (bool_decide _) eqn:Hd.
  - apply bool_decide_eq_true_1 in Hd. destruct H as [->|H]; assumption.
  - apply elem_of_union. destruct H as [->|H]; [left | right; exact H].
    apply elem_of_singleton. reflexivity.
Qed.

Lemma generateStructures_mono (rnd : nat -> float) (chunk : Chunk) (key : ChunkKey)
    (w : World) :
  stamped key w -> stamped key (generateStructures rnd chunk w).
Proof. intros H. apply generateStructures_keys. right. exact H. Qed.

Section Streaming.
Variable Math_random : nat -> float.
Variable EndGenerator_generateChunk : Chunk * nat -> Chunk * nat.

Lemma for_each_stamped {A : Type} (key : ChunkKey) (l : list A) (body : A -> World -> World)
    (w : World) :
  (forall i w, stamped key w -> stamped key (body i w)) ->
  stamped key w -> stamped key (for_each l body w).
Proof.
  intros Hb. unfold for_each. revert w. induction l as [|i l IH]; intros w Hw; simpl; auto.
Qed.

Lemma generateNext_stamped (key : ChunkKey) (w : World) :
  stamped key w ->
  stamped key (generateNext Math_random EndGenerator_generateChunk w).
Proof.
  intros Hw. unfold generateNext.
  destruct (chunksToGenerate w) as [|e rest]; [exact Hw|]. cbv zeta.
  destruct (negb _); [|exact Hw].
  destruct (currentDimension _).
  - destruct (TerrainGenerator_generateChunk _ _ _) as [chunk calls].
    unfold stamped. simpl. apply generateStructures_mono. exact Hw.
  - destruct (EndGenerator_generateChunk _) as [chunk calls]. exact Hw.
Qed.

Lemma rebuildChunkMesh_structures (a : addr) (w : World) :
  structures (World_rebuildChunkMesh a w) = structures w.
Proof. unfold World_rebuildChunkMesh. destruct (store w !! a); reflexivity. Qed.

Lemma rebuildResident_structures (st : World * Z) :
  structures (rebuildResident st).1 = structures st.1.
Proof.
  unfold rebuildResident.
  apply (for_each_invariant (fun s : World * Z => structures s.1 = structures st.1));
    [|reflexivity].
  intros [k a] [w n] _ Hs. cbn [fst] in *.
  destruct (store w !! a) as [c|]; [|exact Hs].
  destruct (_ && _); [|exact Hs]. cbn [fst].
  rewrite rebuildChunkMesh_structures. exact Hs.
Qed.

Lemma rebuildQueued_structures (queue : list addr) (st : World * Z) :
  structures (rebuildQueued queue st).1 = structures st.1.
Proof.
  revert st. induction queue as [|a queue IH]; intros [w n]; [reflexivity|].
  cbn [rebuildQueued]. destruct (n <? rebuildsPerFrame); [|reflexivity].
  destruct (store w !! a) as [c|]; [|apply IH].
  destruct (needsRebuild c); rewrite IH; [apply rebuildChunkMesh_structures | reflexivity].
Qed.

Lemma unloadPhase_structures (cx cz : Z) (w : World) :
  structures (unloadPhase cx cz w) = structures w.
Proof.
  unfold unloadPhase.
  apply (for_each_invariant (fun s => structures s = structures w)); [|reflexivity].
  intros [k a] s _ Hs. destruct (store s !! a) as [c|]; [|exact Hs].
  destruct (_ <? _)%float; exact Hs.
Qed.

Lemma queueMissingChunks_structures (cx cz : Z) (w : World) :
  structures (queueMissingChunks cx cz w) = structures w.
Proof.
  unfold queueMissingChunks.
  apply (for_each_invariant (fun s => structures s = structures w)); [|reflexivity].
  intros dx s _ Hs.
  apply (for_each_invariant (fun s => structures s = structures w)); [|exact Hs].
  intros dz s1 _ Hs1. cbv zeta. destruct (negb _); exact Hs1.
Qed.

Lemma updateChunks_stamped (key : ChunkKey) (px pz : float) (w : World) :
  stamped key w ->
  stamped key (World_updateChunks Math_random EndGenerator_generateChunk px pz w).
Proof.
  intros Hw. unfold World_updateChunks, stamped. cbv zeta.
  rewrite unloadPhase_structures. unfold rebuildPhase.
  rewrite rebuildQueued_structures, rebuildResident_structures. simpl.
  unfold generatePhase. apply for_each_stamped.
  - intros i w0 H0. destruct (chunksToGenerate w0); [exact H0|].
    apply generateNext_stamped, H0.
  - unfold stamped. simpl. rewrite queueMissingChunks_structures. exact Hw.
Qed.

Lemma perform_stamped (key : ChunkKey) (op : Operation) (w : World) :
  stamped key w -> stamped key (perform Math_random EndGenerator_generateChunk w op).
Proof.
  intros Hw. destruct op; simpl.
  - apply keeps_stamped; [apply keeps_setBlock | exact Hw].
  - apply updateChunks_stamped, Hw.
  - apply generateStructures_mono, Hw.
  - unfold generateSpawnVillage. destruct (spawnVillageGenerated _); [exact Hw|].
    apply keeps_stamped; [apply keeps_forceGenerateVillage | exact Hw].
  - unfold checkLootChest. destruct (removeLootChest _ _ _ _). exact Hw.
  - unfold World_setDimension.
    destruct (currentDimension w), dimension; exact Hw.
Qed.

Lemma run_stamped (key : ChunkKey) (ops : list Operation) (w : World) :
  stamped key w -> stamped key (run Math_random EndGenerator_generateChunk ops w).
Proof.
  unfold run. revert w. induction ops as [|op ops IH]; intros w Hw; [exact Hw|].
  simpl. apply IH, perform_stamped, Hw.
Qed.

(** C4. Once [generateStructures] has run for a chunk, then whatever the
    game does next, running it again for the same chunk coordinates (on the
    same or on another [Chunk] object) changes nothing in the world: no
    block, no loot chest, no village record. *)
Theorem C4_generateStructures_once
    (chunk again : Chunk) (ops : list Operation) (w : World) :
  chunkX again = chunkX chunk ->
  chunkZ again = chunkZ chunk ->
  let later := run Math_random EndGenerator_generateChunk ops (generateStructures Math_random chunk w) in
  generateStructures Math_random again later = later.
Proof.
  intros Hx Hz later. apply generateStructures_stamped.
  rewrite Hx, Hz. apply run_stamped.
  apply generateStructures_keys. left. reflexivity.
Qed.
End Streaming.

(** ** C8: the depth gate of the shipwreck *)




Lemma downto_cons (hi lo : Z) : lo <= hi -> downto hi lo = hi :: downto (hi - 1) lo.
Proof.
  intros H. unfold downto.
  replace (hi - lo + 1) with ((hi - 1 - lo + 1) + 1) by lia.
  rewrite seqZ_app by lia. rewrite reverse_app.
  replace (lo + (hi - 1 - lo + 1)) with hi by lia. reflexivity.
Qed.

Lemma downto_nil (hi lo : Z) : hi < lo -> downto hi lo = [].
Proof. intros H. unfold downto. rewrite seqZ_nil by lia. reflexivity. Qed.

Lemma elem_of_downto (hi lo y : Z) : y ∈ downto hi lo <-> lo <= y <= hi.
Proof. unfold downto. rewrite elem_of_reverse, elem_of_seqZ. lia. Qed.




Lemma elem_of_voxels (x y z : Z) : (x, y, z) ∈ voxels <-> out_of_chunk x y z = false.
Proof.
  unfold voxels, upto. rewrite in_chunk_iff. unfold CHUNK_SIZE, CHUNK_HEIGHT.
  rewrite list_elem_of_bind. split.
  - intros (y' & H & Hy). apply list_elem_of_bind in H as (z' & H & Hz).
    apply list_elem_of_bind in H as (x' & H & Hx).
    apply list_elem_of_singleton in H. injection H as -> -> ->.
    apply elem_of_seqZ in Hx, Hy, Hz. lia.
  - intros (Hx & Hy & Hz). exists y. split; [|apply elem_of_seqZ; lia].
    apply list_elem_of_bind. exists z. split; [|apply elem_of_seqZ; lia].
    apply list_elem_of_bind. exists x. split; [|apply elem_of_seqZ; lia].
    apply list_elem_of_singleton. reflexivity.
Qed.

Lemma NoDup_voxels : NoDup voxels.
Proof.
  unfold voxels, upto.
  apply NoDup_bind; [| |apply NoDup_seqZ].
  - intros y1 y2 [[x y] z] _ _ H1 H2.
    apply list_elem_of_bind in H1 as (z1 & H1 & _), H2 as (z2 & H2 & _).
    apply list_elem_of_bind in H1 as (x1 & H1 & _), H2 as (x2 & H2 & _).
    apply list_elem_of_singleton in H1, H2. congruence.
  - intros y _. apply NoDup_bind; [| |apply NoDup_seqZ].
    + intros z1 z2 [[x y'] z] _ _ H1 H2.
      apply list_elem_of_bind in H1 as (x1 & H1 & _), H2 as (x2 & H2 & _).
      apply list_elem_of_singleton in H1, H2. congruence.
    + intros z _. apply NoDup_bind; [| |apply NoDup_seqZ].
      * intros x1 x2 v _ _ H1 H2. apply list_elem_of_singleton in H1, H2. congruence.
      * intros x _. apply NoDup_singleton.
Qed.

Lemma for_each_ext {A S : Type} (l : list A) (body1 body2 : A -> S -> S) (s : S) :
  (forall i s, body1 i s = body2 i s) -> for_each l body1 s = for_each l body2 s.
Proof.
  intros H. unfold for_each. revert s. induction l as [|i l IH]; intros s; [reflexivity|].
  simpl. rewrite H. apply IH.
Qed.

Lemma buildMesh_arrays_voxels (c : Chunk) (f : Z -> Z -> Z -> BlockType) :
  Chunk_buildMesh_arrays c f =
  for_each voxels (fun '(x, y, z) => buildBlock c f x y z)
    {| solidArrays := Geometry_empty; aos := arr_empty;
       waterArrays := Geometry_empty; torchArray := arr_empty |}.
Proof.
  unfold Chunk_buildMesh_arrays, voxels.
  rewrite for_each_bind. apply for_each_ext. intros y s.
  rewrite for_each_bind. apply for_each_ext. intros z s1.
  rewrite for_each_bind. apply for_each_ext. intros x s2. reflexivity.
Qed.

(** ** C10: the torch list after a rebuild *)

Lemma buildFace_torchArray (c : Chunk) (f : Z -> Z -> Z -> BlockType) (b : BlockType)
    (x y z : Z) (d : FaceDirection) (st : MeshArrays) :
  torchArray (buildFace c f b x y z d st) = torchArray st.
Proof.
  unfold buildFace. destruct (faceSkipped _ _); [reflexivity|].
  destruct (BlockType_eqb b WATER);
    match goal with |- context [emitFace ?c ?f ?b ?x ?y ?z ?d ?g ?a] =>
      destruct (emitFace c f b x y z d g a) end; reflexivity.
Qed.

Lemma buildBlock_torchArray (c : Chunk) (f : Z -> Z -> Z -> BlockType) (x y z : Z)
    (st : MeshArrays) :
  contents (torchArray (buildBlock c f x y z st)) =
  contents (torchArray st) ++ torchAt c (x, y, z).
Proof.
  unfold buildBlock, torchAt.
  destruct (Chunk_getBlock c x y z);
    try (simpl; rewrite ?app_nil_r; reflexivity);
    try (rewrite app_nil_r; f_equal;
         apply (for_each_invariant (fun s => torchArray s = torchArray st));
         [intros d s _ Hs; rewrite buildFace_torchArray; exact Hs | reflexivity]).
  simpl torchArray. rewrite contents_push. reflexivity.
Qed.

Lemma buildMesh_torchPositions (c : Chunk) (f : Z -> Z -> Z -> BlockType) :
  torchPositions (Chunk_buildMesh c f) = voxels ≫= torchAt c.
Proof.
  unfold Chunk_buildMesh. cbv zeta. cbn [torchPositions].
  rewrite buildMesh_arrays_voxels.
  rewrite (for_each_collect (fun s => contents (torchArray s)) (torchAt c)).
  - reflexivity.
  - intros [[x y] z] s. apply buildBlock_torchArray.
Qed.

(** C10. After [buildMesh] the rebuild flag is down, the block array is the
    one it was, and the torch list holds, once each, the world positions of
    the cells of the block array that are [TORCH], whatever the list held
    before. *)
Theorem C10_buildMesh_resets_torch_list (c : Chunk) (f : Z -> Z -> Z -> BlockType) :
  let rebuilt := Chunk_buildMesh c f in
  needsRebuild rebuilt = false /\
  blocks rebuilt = blocks c /\
  NoDup (torchPositions rebuilt) /\
  forall p : Position,
    p ∈ torchPositions rebuilt <->
    exists x y z,
      out_of_chunk x y z = false /\ Chunk_getBlock c x y z = TORCH /\
      p = {| pos_x := chunkX c * CHUNK_SIZE + x; pos_y := y;
             pos_z := chunkZ c * CHUNK_SIZE + z |}.
Proof.
  intros rebuilt. split; [reflexivity|]. split; [reflexivity|].
  unfold rebuilt. rewrite buildMesh_torchPositions. split.
  - apply NoDup_bind; [| |apply NoDup_voxels].
    + intros [[x1 y1] z1] [[x2 y2] z2] p _ _ H1 H2. unfold torchAt in H1, H2.
      destruct (Chunk_getBlock c x1 y1 z1); try (inversion H1; fail).
      destruct (Chunk_getBlock c x2 y2 z2); try (inversion H2; fail).
      apply list_elem_of_singleton in H1, H2. subst p. injection H2 as Hx Hy Hz.
      f_equal; [f_equal|]; lia.
    + intros [[x y] z] _. unfold torchAt.
      destruct (Chunk_getBlock c x y z); first [apply NoDup_nil_2 | apply NoDup_singleton].
  - intros p. rewrite list_elem_of_bind. split.
    + intros ([[x y] z] & Hp & Hv). apply elem_of_voxels in Hv.
      unfold torchAt in Hp.
      destruct (Chunk_getBlock c x y z) eqn:Hb; try (inversion Hp; fail).
      apply list_elem_of_singleton in Hp. exists x, y, z. auto.
    + intros (x & y & z & Hin & Hb & ->). exists (x, y, z).
      split; [|apply elem_of_voxels, Hin].
      unfold torchAt. rewrite Hb. apply list_elem_of_singleton. reflexivity.
Qed.

(** ** C7: ambient occlusion values *)




Lemma DIRECTIONS_corners (d : FaceDirection) :
  d ∈ DIRECTIONS -> length (corners d) = 4%nat.
Proof.
  unfold DIRECTIONS. intros H.
  repeat (apply elem_of_cons in H as [->|H]; [reflexivity|]). inversion H.
Qed.


Lemma push_Forall {A : Type} (P : A -> Prop) (a : JSArray A) (xs : list A) :
  Forall P (arr_rev a) -> Forall P xs -> Forall P (arr_rev (push a xs)).
Proof.
  intros Ha Hxs. unfold push. simpl. rewrite rev_append_reverse.
  apply Forall_app. split; [|exact Ha]. apply Forall_reverse, Hxs.
Qed.






(** ** C5: a ray cast straight down *)

Lemma solid_not_AIR (b : BlockType) : solid (BLOCKS b) = true -> BlockType_eqb b AIR = false.
Proof. destruct b; simpl; intros H; first [discriminate | reflexivity]. Qed.

Lemma raycast_from_pass (fuel : nat) (w : World) (origin dir : Vector3)
    (maxDistance t : float) (b : BlockType) :
  (t <? maxDistance)%float = true ->
  sampleBlock w (Vector3_addScaledVector origin dir t) = Some b ->
  solid (BLOCKS b) = false ->
  raycast_from (S fuel) w origin dir maxDistance t =
  raycast_from fuel w origin dir maxDistance (t + rayStep)%float.
Proof.
  intros Ht Hb Hs. cbn [raycast_from]. rewrite Ht, Hb, Hs, andb_false_r. reflexivity.
Qed.

Lemma raycast_from_hit (fuel : nat) (w : World) (origin dir : Vector3)
    (maxDistance t : float) (b : BlockType) :
  (t <? maxDistance)%float = true ->
  sampleBlock w (Vector3_addScaledVector origin dir t) = Some b ->
  solid (BLOCKS b) = true ->
  raycast_from (S fuel) w origin dir maxDistance t =
  Returned (hitAt (Vector3_addScaledVector origin dir t)).
Proof.
  intros Ht Hb Hs. cbn [raycast_from].
  rewrite Ht, Hb, Hs, (solid_not_AIR b Hs). reflexivity.
Qed.

Lemma raycast_from_end (fuel : nat) (w : World) (origin dir : Vector3)
    (maxDistance t : float) :
  (t <? maxDistance)%float = false ->
  raycast_from (S fuel) w origin dir maxDistance t =
  Returned {| hit := false; position := None; normal := None; blockPos := None |}.
Proof. intros Ht. cbn [raycast_from]. rewrite Ht. reflexivity. Qed.

(** C5, as the code has it.  From (0, 65, 0) straight down, over a column
    whose block at y = 65 is not solid and whose block at y = 64 is, the ray
    hits at its second sample (0, 64.9, 0): [hit] is true and [blockPos] is
    (0, 64, 0), and the normal is (0, 0, -1).  The offsets of the hit point
    from the voxel centre are (-0.5, 0.4, -0.5): y is not the largest, and
    the tie of x and z falls to z. *)
Theorem C5_raycast_down_hits_with_z_normal (w : World) (fuel : nat) :
  solid (BLOCKS (World_getBlock w 0 65 0)) = false ->
  solid (BLOCKS (World_getBlock w 0 64 0)) = true ->
  (2 <= fuel)%nat ->
  World_raycast fuel w {| vx := 0; vy := 65; vz := 0 |} {| vx := 0; vy := -1; vz := 0 |} 8 =
  Returned {| hit := true;
              position := Some {| vx := 0; vy := 64.9; vz := 0 |};
              normal := Some {| vx := 0; vy := 0; vz := -1 |};
              blockPos := Some {| pos_x := 0; pos_y := 64; pos_z := 0 |} |}.
Proof.
  intros Hair Hsolid Hfuel.
  destruct fuel as [|[|fuel]]; [lia | lia |]. unfold World_raycast.
  change (Vector3_normalize {| vx := 0; vy := -1; vz := 0 |})
    with {| vx := 0; vy := -1; vz := 0 |}%float.
  rewrite (raycast_from_pass _ w _ _ _ _ (World_getBlock w 0 65 0));
    [|reflexivity|reflexivity|exact Hair].
  rewrite (raycast_from_hit _ w _ _ _ _ (World_getBlock w 0 64 0));
    [|reflexivity|reflexivity|exact Hsolid].
  reflexivity.
Qed.

(** ** C9: the phases of [updateChunks] *)


Section Phases.
Variable Math_random : nat -> float.
Variable EndGenerator_generateChunk : Chunk * nat -> Chunk * nat.











End Phases.

(** ** The representation invariant of the world *)

Lemma World_wf_layout (w : World) :
  World_wf w <-> layout_wf (chunks w) (chunk_shape <$> store w).
Proof.
  unfold World_wf, layout_wf. split; intros (H1 & H2 & H3 & H4).
  - split; [exact H1|]. split; [exact H2|]. split.
    + intros k a Hin. destruct (H3 k a Hin) as (c & Hc & Hk).
      exists (isGenerated c), (PArray.length (blocks c)).
      rewrite list_lookup_fmap. unfold addr in *. rewrite Hc. simpl.
      unfold chunk_shape. rewrite <- Hk. reflexivity.
    + apply Forall_fmap. eapply Forall_impl; [exact H4|]. intros c Hc. exact Hc.
  - split; [exact H1|]. split; [exact H2|]. split.
    + intros k a Hin. destruct (H3 k a Hin) as (g & n & Hs).
      rewrite list_lookup_fmap in Hs. unfold addr in *.
      destruct (store w !! a) as [c|]; [|discriminate]. exists c. split; [reflexivity|].
      simpl in Hs. unfold chunk_shape in Hs. injection Hs as Hx Hz _ _.
      unfold getChunkKey. rewrite Hx, Hz. destruct k; reflexivity.
    + apply Forall_fmap in H4. eapply Forall_impl; [exact H4|]. intros c Hc. exact Hc.
Qed.

Lemma World_wf_same_layout (w w' : World) :
  chunks w' = chunks w -> chunk_shape <$> store w' = chunk_shape <$> store w ->
  World_wf w -> World_wf w'.
Proof. intros Hc Hs. rewrite !World_wf_layout, Hc, Hs. auto. Qed.

Lemma World_wf_outline (w w' : World) : outline w' = outline w -> World_wf w -> World_wf w'.
Proof.
  intros H. apply World_wf_same_layout; [exact (outline_chunks _ _ H) | exact (outline_shapes _ _ H)].
Qed.

Lemma keeps_wf (f : World -> World) (w : World) : keeps f -> World_wf w -> World_wf (f w).
Proof. intros Hf. apply World_wf_outline, Hf. Qed.

(** *** The map of chunks *)

Lemma Map_get_None (k : ChunkKey) (m : list (ChunkKey * addr)) :
  Map_get k m = None <-> k ∉ m.*1.
Proof.
  induction m as [|[k' a] m IH]; simpl.
  - split; [intros _ H; inversion H | reflexivity].
  - destruct (ChunkKey_eqb k' k) eqn:He.
    + apply ChunkKey_eqb_eq in He. subst k'. split; [discriminate|].
      intros H. exfalso. apply H. left.
    + rewrite IH. rewrite not_elem_of_cons. split; [|tauto].
      intros H. split; [|exact H]. intros ->.
      assert (ChunkKey_eqb k' k' = true) as Ht by (apply ChunkKey_eqb_eq; reflexivity).
      congruence.
Qed.

Lemma Map_get_elem (k : ChunkKey) (a : addr) (m : list (ChunkKey * addr)) :
  Map_get k m = Some a -> (k, a) ∈ m.
Proof.
  induction m as [|[k' a'] m IH]; simpl; [discriminate|].
  destruct (ChunkKey_eqb k' k) eqn:He.
  - apply ChunkKey_eqb_eq in He. subst k'. intros [= ->]. left.
  - intros H. right. apply IH, H.
Qed.

Lemma Map_get_NoDup (k : ChunkKey) (a : addr) (m : list (ChunkKey * addr)) :
  NoDup m.*1 -> (k, a) ∈ m -> Map_get k m = Some a.
Proof.
  induction m as [|[k' a'] m IH]; simpl; intros Hnd Hin; [inversion Hin|].
  apply NoDup_cons in Hnd as [Hk Hnd].
  apply elem_of_cons in Hin as [[= <- <-]|Hin].
  - assert (ChunkKey_eqb k k = true) as -> by (apply ChunkKey_eqb_eq; reflexivity).
    reflexivity.
  - destruct (ChunkKey_eqb k' k) eqn:He; [|apply IH; assumption].
    apply ChunkKey_eqb_eq in He. subst k'. exfalso. apply Hk.
    apply list_elem_of_fmap. exists (k, a). split; [reflexivity | exact Hin].
Qed.

Lemma Map_set_fresh (k : ChunkKey) (a : addr) (m : list (ChunkKey * addr)) :
  Map_get k m = None -> Map_set k a m = m ++ [(k, a)].
Proof.
  induction m as [|[k' a'] m IH]; simpl; [reflexivity|].
  destruct (ChunkKey_eqb k' k); [discriminate|]. intros H. rewrite IH by exact H. reflexivity.
Qed.

Lemma Map_has_false (k : ChunkKey) (m : list (ChunkKey * addr)) :
  Map_has k m = false <-> Map_get k m = None.
Proof. unfold Map_has. destruct (Map_get k m); split; congruence. Qed.

(** *** What a well-formed world gives *)

Lemma wf_getChunk (w : World) (cx cz : Z) (c : Chunk) :
  World_wf w -> World_getChunk w cx cz = Some c ->
  chunkX c = cx /\ chunkZ c = cz /\ Chunk_wf c.
Proof.
  intros (_ & _ & H3 & H4) Hc. unfold World_getChunk in Hc.
  destruct (Map_get _ _) as [a|] eqn:Hm; simpl in Hc; [|discriminate].
  apply Map_get_elem in Hm. destruct (H3 _ _ Hm) as (c' & Hc' & Hk).
  unfold addr in *. rewrite Hc in Hc'. injection Hc' as <-.
  unfold getChunkKey in Hk. injection Hk as Hx Hz.
  split; [exact Hx|]. split; [exact Hz|].
  rewrite Forall_forall in H4. apply H4. eapply list_elem_of_lookup_2. exact Hc.
Qed.

Lemma World_new_wf (t : TerrainGenerator) (rd : Z) : World_wf (World_new t rd).
Proof.
  unfold World_wf, World_new. simpl. repeat split; try constructor.
  intros k a H. inversion H.
Qed.

(** ** terrain.ts: what [generateChunk] always does *)

(** A property that one iteration establishes and all iterations keep holds
    after the loop. *)
Lemma for_each_establish {A S : Type} (Inv R : S -> Prop) (l : list A)
    (body : A -> S -> S) (i0 : A) (s : S) :
  i0 ∈ l ->
  (forall i s, i ∈ l -> Inv s -> Inv (body i s)) ->
  (forall i s, i ∈ l -> Inv s -> R s -> R (body i s)) ->
  (forall s, Inv s -> R (body i0 s)) ->
  Inv s -> R (for_each l body s).
Proof.
  intros Hin HInv HR H0. revert s.
  induction l as [|i l IH]; intros s Hs; [inversion Hin|].
  unfold for_each. simpl. fold (for_each l body (body i s)).
  apply elem_of_cons in Hin as [<-|Hin].
  - assert (Inv (for_each l body (body i0 s)) /\ R (for_each l body (body i0 s))) as [_ H];
      [|exact H].
    apply (for_each_invariant (fun s => Inv s /\ R s)).
    + intros j s' Hj [Hi Hr]. split; [apply HInv | apply HR]; try assumption; right; exact Hj.
    + split; [apply HInv; [left | exact Hs] | apply H0, Hs].
  - apply IH.
    + exact Hin.
    + intros j s' Hj. apply HInv. right. exact Hj.
    + intros j s' Hj. apply HR. right. exact Hj.
    + apply HInv; [left | exact Hs].
Qed.

Lemma elem_of_upto (lo hi i : Z) : i ∈ upto lo hi <-> lo <= i <= hi.
Proof. unfold upto. rewrite elem_of_seqZ. lia. Qed.

Lemma Chunk_wf_shape (c c' : Chunk) : chunk_shape c' = chunk_shape c -> Chunk_wf c -> Chunk_wf c'.
Proof. unfold chunk_shape, Chunk_wf. intros [= _ _ _ ->]. auto. Qed.

Lemma terrainBlock_bedrock (t : TerrainGenerator) (rnd : nat -> float)
    (wx wz h : Z) (b : Biome) (calls : nat) :
  terrainBlock t rnd wx wz h b 0 calls = (BEDROCK, calls).
Proof. reflexivity. Qed.

Lemma floored_setBlock (x0 z0 : Z) (c : Chunk) (x y z : Z) (b : BlockType) :
  floored x0 z0 c -> (y = 0 -> b = BEDROCK) ->
  floored x0 z0 (Chunk_setBlock c x y z b).
Proof.
  intros [Hwf Hb] Hy. split; [apply Chunk_setBlock_wf, Hwf|].
  destruct (decide ((x, y, z) = (x0, 0, z0))) as [[= -> -> ->]|Hne].
  - rewrite Hy by reflexivity.
    destruct (out_of_chunk x0 0 z0) eqn:Hin.
    + unfold Chunk_setBlock. rewrite Hin. exact Hb.
    + apply Chunk_get_set_same; assumption.
  - rewrite Chunk_get_set_other by exact Hne. exact Hb.
Qed.

(** Placing a block only where there is air keeps the bedrock. *)
Lemma floored_setBlock_air (x0 z0 : Z) (c : Chunk) (x y z : Z) (b : BlockType) :
  floored x0 z0 c ->
  floored x0 z0 (if BlockType_eqb (Chunk_getBlock c x y z) AIR
                 then Chunk_setBlock c x y z b else c).
Proof.
  intros [Hwf Hb].
  destruct (BlockType_eqb _ AIR) eqn:He; [|split; assumption].
  split; [apply Chunk_setBlock_wf, Hwf|].
  destruct (decide ((x, y, z) = (x0, 0, z0))) as [[= -> -> ->]|Hne].
  - rewrite Hb in He. discriminate He.
  - rewrite Chunk_get_set_other by exact Hne. exact Hb.
Qed.

Section TerrainFacts.
Variable this : TerrainGenerator.
Variable Math_random : nat -> float.

(** One cell of the first pass. *)
Lemma terrain_cell_wf (x y z wx wz h : Z) (b : Biome) (st : Chunk * nat) :
  Chunk_wf st.1 ->
  Chunk_wf (let '(chunk, calls) := st in
            let '(blockType, calls) := terrainBlock this Math_random wx wz h b y calls in
            (Chunk_setBlock chunk x y z blockType, calls)).1.
Proof.
  destruct st as [c n]. destruct (terrainBlock _ _ _ _ _ _ _ _) as [bt n'].
  apply Chunk_setBlock_wf.
Qed.

Lemma terrain_cell_floored (x0 z0 x y z wx wz h : Z) (b : Biome) (st : Chunk * nat) :
  floored x0 z0 st.1 ->
  floored x0 z0 (let '(chunk, calls) := st in
                 let '(blockType, calls) := terrainBlock this Math_random wx wz h b y calls in
                 (Chunk_setBlock chunk x y z blockType, calls)).1.
Proof.
  destruct st as [c n]. intros Hf.
  destruct (terrainBlock _ _ _ _ _ _ _ _) as [bt n'] eqn:Ht.
  apply floored_setBlock; [exact Hf|]. intros ->.
  rewrite terrainBlock_bedrock in Ht. congruence.
Qed.

Lemma terrain_cell_bedrock (x z wx wz h : Z) (b : Biome) (st : Chunk * nat) :
  Chunk_wf st.1 -> out_of_chunk x 0 z = false ->
  Chunk_getBlock
    (let '(chunk, calls) := st in
     let '(blockType, calls) := terrainBlock this Math_random wx wz h b 0 calls in
     (Chunk_setBlock chunk x 0 z blockType, calls)).1 x 0 z = BEDROCK.
Proof.
  destruct st as [c n]. intros Hwf Hin. rewrite terrainBlock_bedrock.
  apply Chunk_get_set_same; assumption.
Qed.

Lemma generateTree_floored (x0 z0 x y z : Z) (st : Chunk * nat) :
  1 <= y -> floored x0 z0 st.1 ->
  floored x0 z0 (generateTree Math_random x y z st).1.
Proof.
  intros Hy Hf. destruct st as [c n]. unfold generateTree. cbv zeta. cbn [fst].
  apply (for_each_invariant (floored x0 z0)).
  - intros lx s _ Hs. apply (for_each_invariant (floored x0 z0)); [|exact Hs].
    intros lz s1 _ Hs1. apply (for_each_invariant (floored x0 z0)); [|exact Hs1].
    intros ly s2 _ Hs2. destruct (_ <=? _)%float; [|exact Hs2].
    destruct (_ && _); [|exact Hs2]. apply floored_setBlock_air, Hs2.
  - apply (for_each_invariant (floored x0 z0)); [|exact Hf].
    intros ty s Hty Hs. apply elem_of_upto in Hty.
    destruct (_ <? CHUNK_HEIGHT); [|exact Hs].
    apply floored_setBlock; [exact Hs | lia].
Qed.

Lemma generateTree_shape (x y z : Z) (st : Chunk * nat) :
  chunk_shape (generateTree Math_random x y z st).1 = chunk_shape st.1.
Proof.
  destruct st as [c n]. unfold generateTree. cbv zeta. cbn [fst].
  apply (for_each_invariant (fun s => chunk_shape s = chunk_shape c)).
  - intros lx s _ Hs.
    apply (for_each_invariant (fun s => chunk_shape s = chunk_shape c)); [|exact Hs].
    intros lz s1 _ Hs1.
    apply (for_each_invariant (fun s => chunk_shape s = chunk_shape c)); [|exact Hs1].
    intros ly s2 _ Hs2. destruct (_ <=? _)%float; [|exact Hs2].
    destruct (_ && _); [|exact Hs2]. destruct (BlockType_eqb _ _); [|exact Hs2].
    rewrite shape_setBlock. exact Hs2.
  - apply (for_each_invariant (fun s => chunk_shape s = chunk_shape c)); [|reflexivity].
    intros ty s _ Hs. destruct (_ <? CHUNK_HEIGHT); [|exact Hs].
    rewrite shape_setBlock. exact Hs.
Qed.

(** The second pass keeps any property of the chunk that planting a tree
    at height 1 or above keeps. *)
Lemma trees_keep (P : Chunk -> Prop) (ox oz : Z) (st : Chunk * nat) :
  (forall x y z st, 1 <= y -> P st.1 -> P (generateTree Math_random x y z st).1) ->
  P st.1 ->
  P (for_each (upto 2 (CHUNK_SIZE - 2 - 1)) (fun x =>
       for_each (upto 2 (CHUNK_SIZE - 2 - 1)) (fun z st =>
         let worldX := ox + x in
         let worldZ := oz + z in
         let biome := getBiome this worldX worldZ in
         match biome with
         | desert => st
         | _ =>
             let treeChance :=
               match biome with forest => 0.03 | _ => 0.01 end%float in
             let treeValue :=
               ((treeNoise this (Z2float worldX * 0.5) (Z2float worldZ * 0.5) + 1) / 2)%float in
             if (treeValue <? treeChance)%float then
               let groundY :=
                 match
                   find (fun y =>
                           let block := Chunk_getBlock (fst st) x y z in
                           BlockType_eqb block GRASS || BlockType_eqb block DIRT)
                        (downto (CHUNK_HEIGHT - 1) (SEA_LEVEL + 1))
                 with
                 | Some y => y
                 | None => -1
                 end in
               if 0 <? groundY then generateTree Math_random x (groundY + 1) z st else st
             else st
         end)) st).1.
Proof.
  intros Htree Hs.
  apply (for_each_invariant (fun s : Chunk * nat => P s.1)); [|exact Hs].
  intros x s _ Hx. apply (for_each_invariant (fun s : Chunk * nat => P s.1)); [|exact Hx].
  intros z s1 _ Hz. cbv zeta.
  assert (forall g, P (if 0 <? g then generateTree Math_random x (g + 1) z s1 else s1).1) as Hg.
  { intros g. destruct (0 <? g) eqn:H0; [|exact Hz]. apply Htree; [lia | exact Hz]. }
  destruct (getBiome _ _ _); try exact Hz;
    (destruct (_ <? _)%float; [apply Hg | exact Hz]).
Qed.

(** The first pass keeps any property of the chunk that writing one cell
    keeps. *)
Lemma terrain_keeps (P : Chunk -> Prop) (ox oz : Z) (st : Chunk * nat) :
  (forall x y z wx wz h b (st : Chunk * nat), P st.1 ->
     P (let '(chunk, calls) := st in
        let '(blockType, calls) := terrainBlock this Math_random wx wz h b y calls in
        (Chunk_setBlock chunk x y z blockType, calls)).1) ->
  P st.1 ->
  P (for_each (upto 0 (CHUNK_SIZE - 1)) (fun x =>
       for_each (upto 0 (CHUNK_SIZE - 1)) (fun z st =>
         let worldX := ox + x in
         let worldZ := oz + z in
         let height := getTerrainHeight this worldX worldZ in
         let biome := getBiome this worldX worldZ in
         for_each (upto 0 (CHUNK_HEIGHT - 1)) (fun y '(chunk, calls) =>
           let '(blockType, calls) :=
             terrainBlock this Math_random worldX worldZ height biome y calls in
           (Chunk_setBlock chunk x y z blockType, calls))
           st)) st).1.
Proof.
  intros Hcell Hs.
  apply (for_each_invariant (fun s : Chunk * nat => P s.1)); [|exact Hs].
  intros x s _ Hx. apply (for_each_invariant (fun s : Chunk * nat => P s.1)); [|exact Hx].
  intros z s1 _ Hz. cbv zeta.
  apply (for_each_invariant (fun s : Chunk * nat => P s.1)); [|exact Hz].
  intros y s2 _ Hy. apply (Hcell x y z _ _ _ _ s2 Hy).
Qed.

Lemma generateChunk_shape (st : Chunk * nat) :
  chunk_shape (TerrainGenerator_generateChunk this Math_random st).1 =
  (chunkX st.1, chunkZ st.1, true, PArray.length (blocks st.1)).
Proof.
  unfold TerrainGenerator_generateChunk. cbv zeta.
  match goal with |- context [let '(chunk, calls) := ?s in _] =>
    assert (chunk_shape s.1 = chunk_shape st.1) as H; [|destruct s as [c n]] end.
  - apply (trees_keep (fun c => chunk_shape c = chunk_shape st.1)).
    + intros x y z s _ Hs. rewrite generateTree_shape. exact Hs.
    + apply (terrain_keeps (fun c => chunk_shape c = chunk_shape st.1)); [|reflexivity].
      intros x y z wx wz h b [c n] Hs. destruct (terrainBlock _ _ _ _ _ _ _ _).
      cbn [fst] in *. rewrite shape_setBlock. exact Hs.
  - cbn [fst] in *. unfold chunk_shape in *. cbn. injection H as -> -> _ ->. reflexivity.
Qed.

Lemma generateChunk_floored (st : Chunk * nat) (x z : Z) :
  Chunk_wf st.1 -> out_of_chunk x 0 z = false ->
  floored x z (TerrainGenerator_generateChunk this Math_random st).1.
Proof.
  intros Hwf Hin. unfold TerrainGenerator_generateChunk. cbv zeta.
  match goal with |- context [let '(chunk, calls) := ?s in _] =>
    assert (floored x z s.1) as H; [|destruct s as [c n]; exact H] end.
  apply (trees_keep (floored x z)).
  { intros x1 y1 z1 s Hy Hs. apply generateTree_floored; assumption. }
  apply in_chunk_iff in Hin as (Hx & _ & Hz). unfold CHUNK_SIZE in Hx, Hz.
  assert (Chunk_wf
    (for_each (upto 0 (CHUNK_SIZE - 1)) (fun x =>
       for_each (upto 0 (CHUNK_SIZE - 1)) (fun z st0 =>
         let worldX := chunkX st.1 * CHUNK_SIZE + x in
         let worldZ := chunkZ st.1 * CHUNK_SIZE + z in
         let height := getTerrainHeight this worldX worldZ in
         let biome := getBiome this worldX worldZ in
         for_each (upto 0 (CHUNK_HEIGHT - 1)) (fun y '(chunk, calls) =>
           let '(blockType, calls) :=
             terrainBlock this Math_random worldX worldZ height biome y calls in
           (Chunk_setBlock chunk x y z blockType, calls))
           st0)) st).1) as Hwf'.
  { apply (terrain_keeps Chunk_wf); [|exact Hwf].
    intros. apply terrain_cell_wf. assumption. }
  split; [exact Hwf'|]. clear Hwf'.
  apply (for_each_establish (fun s : Chunk * nat => Chunk_wf s.1)
           (fun s : Chunk * nat => Chunk_getBlock s.1 x 0 z = BEDROCK) _ _ x).
  - apply elem_of_upto. unfold CHUNK_SIZE. lia.
  - intros x1 s _ Hs.
    apply (for_each_invariant (fun s : Chunk * nat => Chunk_wf s.1)); [|exact Hs].
    intros z1 s1 _ Hs1. cbv zeta.
    apply (for_each_invariant (fun s : Chunk * nat => Chunk_wf s.1)); [|exact Hs1].
    intros y1 s2 _ Hs2. apply terrain_cell_wf, Hs2.
  - intros x1 s _ Hs Hr.
    assert (floored x z s.1) as Hf by (split; assumption).
    apply (for_each_invariant (fun s : Chunk * nat => floored x z s.1)); [|exact Hf].
    intros z1 s1 _ Hs1. cbv zeta.
    apply (for_each_invariant (fun s : Chunk * nat => floored x z s.1)); [|exact Hs1].
    intros y1 s2 _ Hs2. apply terrain_cell_floored, Hs2.
  - intros s Hs.
    apply (for_each_establish (fun s : Chunk * nat => Chunk_wf s.1)
             (fun s : Chunk * nat => Chunk_getBlock s.1 x 0 z = BEDROCK) _ _ z).
    + apply elem_of_upto. unfold CHUNK_SIZE. lia.
    + intros z1 s1 _ Hs1. cbv zeta.
      apply (for_each_invariant (fun s : Chunk * nat => Chunk_wf s.1)); [|exact Hs1].
      intros y1 s2 _ Hs2. apply terrain_cell_wf, Hs2.
    + intros z1 s1 _ Hs1 Hr. cbv zeta.
      assert (floored x z s1.1) as Hf by (split; assumption).
      apply (for_each_invariant (fun s : Chunk * nat => floored x z s.1)); [|exact Hf].
      intros y1 s2 _ Hs2. apply terrain_cell_floored, Hs2.
    + intros s1 Hs1. cbv zeta.
      apply (for_each_establish (fun s : Chunk * nat => Chunk_wf s.1)
               (fun s : Chunk * nat => Chunk_getBlock s.1 x 0 z = BEDROCK) _ _ 0).
      * apply elem_of_upto. unfold CHUNK_HEIGHT. lia.
      * intros y1 s2 _ Hs2. apply terrain_cell_wf, Hs2.
      * intros y1 s2 _ Hs2 Hr.
        assert (floored x z s2.1) as Hf by (split; assumption).
        apply (terrain_cell_floored x z x y1 z _ _ _ _ s2 Hf).
      * intros s2 Hs2. apply terrain_cell_bedrock; [exact Hs2|].
        apply in_chunk_iff. unfold CHUNK_SIZE, CHUNK_HEIGHT. lia.
      * exact Hs1.
    + exact Hs.
  - exact Hwf.
Qed.
End TerrainFacts.

(** ** The invariant along the operations of the game *)

Lemma layout_wf_snoc (cs : list (ChunkKey * addr)) (shapes : list (Z * Z * bool * int))
    (k : ChunkKey) (g : bool) :
  layout_wf cs shapes -> k ∉ cs.*1 ->
  layout_wf (cs ++ [(k, length shapes)])
            (shapes ++ [(k.1, k.2, g, Uint63.of_Z CHUNK_VOLUME)]).
Proof.
  intros (H1 & H2 & H3 & H4) Hk. unfold layout_wf. rewrite !fmap_app. simpl.
  split; [|split; [|split]].
  - apply NoDup_app. split; [exact H1|]. split; [|apply NoDup_singleton].
    intros x Hx Hx'. apply list_elem_of_singleton in Hx'. subst x. exact (Hk Hx).
  - apply NoDup_app. split; [exact H2|]. split; [|apply NoDup_singleton].
    intros a Ha Ha'. apply list_elem_of_singleton in Ha'. subst a.
    apply list_elem_of_fmap in Ha as ([k' a'] & Heq & Hin). simpl in Heq. subst a'.
    destruct (H3 _ _ Hin) as (g' & n' & Hs). apply lookup_lt_Some in Hs. lia.
  - intros k' a' Hin. apply elem_of_app in Hin as [Hin|Hin].
    + destruct (H3 _ _ Hin) as (g' & n' & Hs). exists g', n'.
      rewrite lookup_app_l; [exact Hs | eapply lookup_lt_Some, Hs].
    + apply list_elem_of_singleton in Hin. injection Hin as -> ->.
      exists g, (Uint63.of_Z CHUNK_VOLUME).
      rewrite lookup_app_r by lia. rewrite Nat.sub_diag. reflexivity.
  - apply Forall_app. split; [exact H4|]. constructor; [reflexivity | constructor].
Qed.

Lemma layout_wf_sublist (cs cs' : list (ChunkKey * addr))
    (shapes : list (Z * Z * bool * int)) :
  cs' `sublist_of` cs -> layout_wf cs shapes -> layout_wf cs' shapes.
Proof.
  intros Hsub (H1 & H2 & H3 & H4). split; [|split; [|split]].
  - eapply sublist_NoDup; [exact H1|]. apply fmap_sublist, Hsub.
  - eapply sublist_NoDup; [exact H2|]. apply fmap_sublist, Hsub.
  - intros k a Hin. apply H3. eapply elem_of_sublist; eassumption.
  - exact H4.
Qed.

Lemma shapes_snoc_insert (l : list Chunk) (c0 c : Chunk) :
  chunk_shape <$> <[length l := c]> (l ++ [c0]) = (chunk_shape <$> l) ++ [chunk_shape c].
Proof.
  replace (length l) with (length l + 0)%nat by lia.
  rewrite insert_app_r, fmap_app. reflexivity.
Qed.

Lemma shape_buildMesh (c : Chunk) (f : Z -> Z -> Z -> BlockType) :
  chunk_shape (Chunk_buildMesh c f) = chunk_shape c.
Proof. reflexivity. Qed.

Lemma rebuildChunkMesh_layout (a : addr) (w : World) :
  layout (World_rebuildChunkMesh a w) = layout w.
Proof.
  unfold World_rebuildChunkMesh, layout. destruct (store w !! a) as [c|] eqn:Ha; [|reflexivity].
  cbn [log_event set_store chunks store]. f_equal.
  rewrite list_fmap_insert, shape_buildMesh, list_insert_id; [reflexivity|].
  rewrite list_lookup_fmap. unfold addr in *. rewrite Ha. reflexivity.
Qed.

Lemma rebuildResident_layout (st : World * Z) : layout (rebuildResident st).1 = layout st.1.
Proof.
  unfold rebuildResident.
  apply (for_each_invariant (fun s : World * Z => layout s.1 = layout st.1));
    [|reflexivity].
  intros [k a] [w n] _ Hs. cbn [fst] in *.
  destruct (store w !! a) as [c|]; [|exact Hs].
  destruct (_ && _); [|exact Hs]. cbn [fst].
  rewrite rebuildChunkMesh_layout. exact Hs.
Qed.

Lemma rebuildQueued_layout (queue : list addr) (st : World * Z) :
  layout (rebuildQueued queue st).1 = layout st.1.
Proof.
  revert st. induction queue as [|a queue IH]; intros [w n]; [reflexivity|].
  cbn [rebuildQueued]. destruct (n <? rebuildsPerFrame); [|reflexivity].
  destruct (store w !! a) as [c|]; [|apply IH].
  destruct (needsRebuild c); rewrite IH; [apply rebuildChunkMesh_layout | reflexivity].
Qed.

Lemma rebuildPhase_layout (w : World) : layout (rebuildPhase w) = layout w.
Proof.
  unfold rebuildPhase. cbv zeta.
  rewrite rebuildQueued_layout, rebuildResident_layout. reflexivity.
Qed.

Lemma queueMissingChunks_layout (cx cz : Z) (w : World) :
  layout (queueMissingChunks cx cz w) = layout w.
Proof.
  unfold queueMissingChunks.
  apply (for_each_invariant (fun s => layout s = layout w)); [|reflexivity].
  intros dx s _ Hs.
  apply (for_each_invariant (fun s => layout s = layout w)); [|exact Hs].
  intros dz s1 _ Hs1. cbv zeta. destruct (negb _); exact Hs1.
Qed.

(** Unloading removes bindings and nothing else. *)
Lemma unloadPhase_sublist (cx cz : Z) (w : World) :
  store (unloadPhase cx cz w) = store w /\
  chunks (unloadPhase cx cz w) `sublist_of` chunks w.
Proof.
  unfold unloadPhase. cbv zeta.
  apply (for_each_invariant
           (fun s => store s = store w /\ chunks s `sublist_of` chunks w));
    [|split; reflexivity].
  intros [k a] s _ [Hs Hc].
  destruct (store s !! a) as [c|]; [|split; assumption].
  destruct (_ <? _)%float; [|split; assumption].
  split; [exact Hs|]. cbn [log_event set_chunks chunks].
  etrans; [apply sublist_filter | exact Hc].
Qed.

Lemma World_wf_layout_eq (w w' : World) : layout w' = layout w -> World_wf w -> World_wf w'.
Proof. intros [= Hc Hs]. apply World_wf_same_layout; assumption. Qed.

Section Invariant.
Variable Math_random : nat -> float.
Variable EndGenerator_generateChunk : Chunk * nat -> Chunk * nat.
(** What is assumed of end.ts: the End generator fills the chunk it is given
    and does not replace its block array or move it. *)
Hypothesis EndGenerator_shape : forall c n,
  let c' := (EndGenerator_generateChunk (c, n)).1 in
  chunkX c' = chunkX c /\ chunkZ c' = chunkZ c /\
  PArray.length (blocks c') = PArray.length (blocks c).

(** One step of generation leaves the map and the chunk objects alone, or
    binds a key that was free to a new chunk object of those coordinates. *)
Lemma generateNext_layout (w : World) :
  layout (generateNext Math_random EndGenerator_generateChunk w) = layout w \/
  exists e rest g,
    chunksToGenerate w = e :: rest /\
    Map_get (getChunkKey (gen_x e) (gen_z e)) (chunks w) = None /\
    layout (generateNext Math_random EndGenerator_generateChunk w) =
      (chunks w ++ [(getChunkKey (gen_x e) (gen_z e), length (store w))],
       (chunk_shape <$> store w) ++ [(gen_x e, gen_z e, g, Uint63.of_Z CHUNK_VOLUME)]).
Proof.
  unfold generateNext.
  destruct (chunksToGenerate w) as [|e rest] eqn:Hq; [left; reflexivity|].
  cbv zeta. cbn [chunks set_chunksToGenerate store currentDimension randomCalls terrain].
  destruct (Map_has _ (chunks w)) eqn:Hm; cbn [negb]; [left; reflexivity|].
  apply Map_has_false in Hm. right. exists e, rest.
  destruct (currentDimension _).
  - destruct (TerrainGenerator_generateChunk _ _ _) as [chunk calls] eqn:Hgen.
    exists true. split; [reflexivity|]. split; [exact Hm|].
    unfold layout. cbn [log_event set_chunksToRebuild set_chunks chunks store].
    match type of Hgen with TerrainGenerator_generateChunk ?t ?r ?s = _ =>
      pose proof (generateChunk_shape t r s) as Hshape end.
    rewrite Hgen in Hshape. cbn [fst] in Hshape.
    match goal with |- context [generateStructures Math_random chunk ?w2] =>
      pose proof (generateStructures_outline Math_random chunk w2) as Ho end.
    rewrite (outline_chunks _ _ Ho), (outline_shapes _ _ Ho).
    cbn [set_structures set_randomCalls set_store set_chunksToGenerate chunks store].
    rewrite (Map_set_fresh _ _ _ Hm), shapes_snoc_insert, Hshape. reflexivity.
  - destruct (EndGenerator_generateChunk _) as [chunk calls] eqn:Hgen.
    match type of Hgen with EndGenerator_generateChunk (?c, ?n) = _ =>
      pose proof (EndGenerator_shape c n) as (Hx & Hz & Hl) end.
    rewrite Hgen in Hx, Hz, Hl. cbn [fst] in Hx, Hz, Hl.
    exists (isGenerated chunk). split; [reflexivity|]. split; [exact Hm|].
    unfold layout.
    cbn [log_event set_chunksToRebuild set_chunks set_randomCalls set_store
         set_chunksToGenerate chunks store].
    rewrite (Map_set_fresh _ _ _ Hm), shapes_snoc_insert.
    unfold chunk_shape at 2. rewrite Hx, Hz, Hl. reflexivity.
Qed.

Lemma generateNext_wf (w : World) :
  World_wf w -> World_wf (generateNext Math_random EndGenerator_generateChunk w).
Proof.
  intros Hwf. destruct (generateNext_layout w) as [H|(e & rest & g & _ & Hm & H)].
  - apply (World_wf_layout_eq _ _ H), Hwf.
  - apply World_wf_layout. injection H as -> ->.
    apply World_wf_layout in Hwf. rewrite <- (length_fmap chunk_shape).
    apply (layout_wf_snoc _ _ (getChunkKey (gen_x e) (gen_z e)) g Hwf).
    apply Map_get_None, Hm.
Qed.

Lemma generatePhase_wf (w : World) :
  World_wf w -> World_wf (generatePhase Math_random EndGenerator_generateChunk w).
Proof.
  intros Hwf. unfold generatePhase. cbv zeta.
  apply (for_each_invariant World_wf); [|exact Hwf].
  intros i s _ Hs. destruct (chunksToGenerate s); [exact Hs|]. apply generateNext_wf, Hs.
Qed.

Lemma updateChunks_wf (playerX playerZ : float) (w : World) :
  World_wf w ->
  World_wf (World_updateChunks Math_random EndGenerator_generateChunk playerX playerZ w).
Proof.
  intros Hwf. unfold World_updateChunks. cbv zeta.
  set (cx := Math_floor _). set (cz := Math_floor _).
  set (w1 := set_chunksToGenerate sortByPriority (queueMissingChunks cx cz w)).
  assert (World_wf w1) as H1.
  { apply (World_wf_layout_eq w); [|exact Hwf]. apply (queueMissingChunks_layout cx cz w). }
  apply generatePhase_wf in H1.
  set (w2 := generatePhase Math_random EndGenerator_generateChunk w1) in *.
  assert (World_wf (rebuildPhase w2)) as H3
    by (apply (World_wf_layout_eq w2); [apply rebuildPhase_layout | exact H1]).
  destruct (unloadPhase_sublist cx cz (rebuildPhase w2)) as [Hs Hc].
  apply World_wf_layout. rewrite Hs. eapply layout_wf_sublist; [exact Hc|].
  apply World_wf_layout, H3.
Qed.

Lemma generateStructures_wf (chunk : Chunk) (w : World) :
  World_wf w -> World_wf (generateStructures Math_random chunk w).
Proof.
  apply World_wf_same_layout.
  - rewrite (outline_chunks _ _ (generateStructures_outline _ _ _)). reflexivity.
  - rewrite (outline_shapes _ _ (generateStructures_outline _ _ _)). reflexivity.
Qed.

Lemma perform_wf (op : Operation) (w : World) :
  World_wf w -> World_wf (perform Math_random EndGenerator_generateChunk w op).
Proof.
  intros Hwf. destruct op; simpl.
  - apply keeps_wf; [apply keeps_setBlock | exact Hwf].
  - apply updateChunks_wf, Hwf.
  - apply generateStructures_wf, Hwf.
  - unfold generateSpawnVillage. destruct (spawnVillageGenerated _); [exact Hwf|].
    apply keeps_wf; [apply keeps_forceGenerateVillage | exact Hwf].
  - unfold checkLootChest. destruct (removeLootChest _ _ _ _). exact Hwf.
  - unfold World_setDimension.
    destruct (currentDimension w), dimension; try exact Hwf;
      (destruct Hwf as (_ & _ & _ & H4); split; [constructor|];
       split; [constructor|]; split; [intros k a H; inversion H | exact H4]).
Qed.

Lemma run_wf (ops : list Operation) (w : World) :
  World_wf w -> World_wf (run Math_random EndGenerator_generateChunk ops w).
Proof.
  unfold run. revert w. induction ops as [|op ops IH]; intros w Hw; [exact Hw|].
  simpl. apply IH, perform_wf, Hw.
Qed.
End Invariant.

(** ** world.ts: writes and reads of other blocks *)

Lemma getBlock_set_store_same (w : World) (a : addr) (c c1 : Chunk) (x y z : Z) :
  store w !! a = Some c -> blocks c1 = blocks c -> isGenerated c1 = isGenerated c ->
  World_getBlock (set_store (fun s => <[a := c1]> s) w) x y z = World_getBlock w x y z.
Proof.
  intros Ha Hb Hg. unfold World_getBlock, World_getChunk. cbn [set_store chunks store].
  destruct (Map_get _ (chunks w)) as [a'|]; [|reflexivity]. simpl.
  destruct (decide (a = a')) as [<-|Hne].
  - rewrite list_lookup_insert_eq by (eapply lookup_lt_Some, Ha). unfold addr in *.
    rewrite Ha, Hg. unfold Chunk_getBlock. rewrite Hb. reflexivity.
  - rewrite list_lookup_insert_ne by exact Hne. reflexivity.
Qed.

Lemma markChunkForRebuild_getBlock (cx cz : Z) (w : World) (x y z : Z) :
  World_getBlock (World_markChunkForRebuild cx cz w) x y z = World_getBlock w x y z.
Proof.
  unfold World_markChunkForRebuild.
  destruct (World_getChunkAddr w cx cz) as [a|] eqn:Ha; [|reflexivity].
  destruct (World_getChunk w cx cz) as [c|] eqn:Hc; [|reflexivity].
  destruct (isGenerated c); [|reflexivity].
  apply (getBlock_set_store_same w a c); [|reflexivity|reflexivity].
  exact (getChunk_addr _ _ _ _ _ Ha Hc).
Qed.

Lemma marked_getBlock (b : bool) (cx cz : Z) (w w0 : World) (x y z : Z) :
  World_getBlock w x y z = World_getBlock w0 x y z ->
  World_getBlock (if b then World_markChunkForRebuild cx cz w else w) x y z =
  World_getBlock w0 x y z.
Proof. intros H. destruct b; [rewrite markChunkForRebuild_getBlock|]; exact H. Qed.

(** Two keys bound to one chunk object are the same key. *)
Lemma Map_get_inj (k k' : ChunkKey) (a : addr) (m : list (ChunkKey * addr)) :
  NoDup m.*2 -> Map_get k m = Some a -> Map_get k' m = Some a -> k = k'.
Proof.
  intros Hnd H1 H2. apply Map_get_elem in H1, H2.
  induction m as [|[k0 a0] m IH]; [inversion H1|].
  simpl in Hnd. apply NoDup_cons in Hnd as [Ha0 Hnd].
  apply elem_of_cons in H1 as [H1|H1], H2 as [H2|H2].
  - congruence.
  - exfalso. apply Ha0. apply list_elem_of_fmap. exists (k', a).
    split; [simpl; congruence | exact H2].
  - exfalso. apply Ha0. apply list_elem_of_fmap. exists (k, a).
    split; [simpl; congruence | exact H1].
  - apply IH; assumption.
Qed.

Lemma world_coordinate (n : Z) : n = CHUNK_SIZE * (n / CHUNK_SIZE) + localCoord n.
Proof. rewrite localCoord_mod. apply Z.div_mod. unfold CHUNK_SIZE. lia. Qed.

Lemma setBlock_getBlock_other (w : World) (x y z x' y' z' : Z) (T : BlockType) :
  NoDup (chunks w).*2 ->
  (x, y, z) <> (x', y', z') ->
  World_getBlock (World_setBlock x y z T w) x' y' z' = World_getBlock w x' y' z'.
Proof.
  intros Hnd Hne. unfold World_setBlock.
  destruct (World_getChunkAddr w _ _) as [a|] eqn:Ha; [|reflexivity].
  destruct (World_getChunk w (x / CHUNK_SIZE) _) as [c|] eqn:Hc; [|reflexivity].
  destruct (negb _); [reflexivity|]. cbv zeta.
  do 4 apply marked_getBlock.
  pose proof (getChunk_addr _ _ _ _ _ Ha Hc) as Hs.
  unfold World_getBlock at 1 2, World_getChunk. cbn [set_store chunks store].
  destruct (Map_get (getChunkKey (x' / CHUNK_SIZE) (z' / CHUNK_SIZE)) (chunks w))
    as [a'|] eqn:Hm'; [|reflexivity]. simpl.
  destruct (decide (a = a')) as [<-|Hna];
    [|rewrite list_lookup_insert_ne by exact Hna; reflexivity].
  rewrite list_lookup_insert_eq by (eapply lookup_lt_Some, Hs). unfold addr in *.
  rewrite Hs, Chunk_setBlock_isGenerated.
  destruct (negb (isGenerated c)); [reflexivity|].
  apply Chunk_get_set_other. intros [= Hx Hy Hz]. apply Hne.
  assert (getChunkKey (x / CHUNK_SIZE) (z / CHUNK_SIZE) =
          getChunkKey (x' / CHUNK_SIZE) (z' / CHUNK_SIZE)) as [= Hcx Hcz].
  { apply (Map_get_inj _ _ a (chunks w) Hnd); [|exact Hm'].
    unfold World_getChunkAddr in Ha. destruct (Map_get _ (chunks w)) as [a0|]; [|discriminate].
    simpl in Ha. destruct (store w !! a0); [|discriminate]. simpl in Ha. congruence. }
  rewrite (world_coordinate x), (world_coordinate x'), (world_coordinate z),
    (world_coordinate z'), Hcx, Hcz, Hx, Hy, Hz. reflexivity.
Qed.

(** ** world.ts: unloading *)

Lemma unload_loop_near (cx cz : Z) (w : World) (l : list (ChunkKey * addr)) (s : World) :
  store s = store w -> renderDistance s = renderDistance w ->
  (forall k a, (k, a) ∈ chunks s -> (k, a) ∈ l \/ near w cx cz a) ->
  let s' :=
    for_each l (fun '(key, a) w0 =>
      match store w0 !! a with
      | Some chunk =>
          let dx := chunkX chunk - cx in
          let dz := chunkZ chunk - cz in
          let distance := Math_sqrt (Z2float (dx * dx + dz * dz)) in
          if (Z2float (renderDistance w + 2) <? distance)%float then
            log_event (Evicted key a)
              (set_chunks (filter (fun p => negb (ChunkKey_eqb (fst p) key))) w0)
          else w0
      | None => w0
      end) s in
  store s' = store w /\ renderDistance s' = renderDistance w /\
  forall k a, (k, a) ∈ chunks s' -> near w cx cz a.
Proof.
  revert s. induction l as [|[k0 a0] l IH]; intros s Hs Hr Hinv; cbv zeta.
  - split; [exact Hs|]. split; [exact Hr|]. intros k a Hin.
    destruct (Hinv k a Hin) as [H|H]; [inversion H | exact H].
  - unfold for_each. cbn [foldl]. apply IH.
    + destruct (store s !! a0); [|exact Hs]. cbv zeta. destruct (_ <? _)%float; exact Hs.
    + destruct (store s !! a0); [|exact Hr]. cbv zeta. destruct (_ <? _)%float; exact Hr.
    + intros k a Hin. rewrite Hs in *.
      destruct (store w !! a0) as [c0|] eqn:Ha0.
      * cbv zeta in Hin.
        destruct (_ <? _)%float eqn:Hfar.
        -- cbn [log_event set_chunks chunks] in Hin.
           apply list_elem_of_filter in Hin as [Hk Hin]. simpl in Hk.
           destruct (Hinv k a Hin) as [H|H]; [|right; exact H].
           apply elem_of_cons in H as [[= -> ->]|H]; [|left; exact H].
           exfalso. apply negb_prop_elim in Hk. apply Hk. apply Is_true_true.
           apply ChunkKey_eqb_eq. reflexivity.
        -- destruct (Hinv k a Hin) as [H|H]; [|right; exact H].
           apply elem_of_cons in H as [[= -> ->]|H]; [|left; exact H].
           right. intros c Hc. unfold addr in *. rewrite Ha0 in Hc. injection Hc as <-.
           exact Hfar.
      * destruct (Hinv k a Hin) as [H|H]; [|right; exact H].
        apply elem_of_cons in H as [[= -> ->]|H]; [|left; exact H].
        right. intros c Hc. unfold addr in *. congruence.
Qed.

Lemma unloadPhase_near (cx cz : Z) (w : World) :
  let w' := unloadPhase cx cz w in
  forall k a, (k, a) ∈ chunks w' -> near w' cx cz a.
Proof.
  intros w' k a Hin.
  destruct (unload_loop_near cx cz w (chunks w) w eq_refl eq_refl) as (Hs & Hr & H).
  { intros k1 a1 H1. left. exact H1. }
  intros c Hc. unfold w', unloadPhase in *. cbv zeta in *.
  rewrite Hs in Hc. rewrite Hr. exact (H k a Hin c Hc).
Qed.

(** ** world.ts: a bound key is never bound to another chunk object *)

Lemma Map_get_app (k : ChunkKey) (m1 m2 : list (ChunkKey * addr)) :
  Map_get k (m1 ++ m2) =
  match Map_get k m1 with Some a => Some a | None => Map_get k m2 end.
Proof.
  induction m1 as [|[k' a'] m1 IH]; simpl; [reflexivity|].
  destruct (ChunkKey_eqb k' k); [reflexivity | exact IH].
Qed.

Lemma Map_get_filter (k k0 : ChunkKey) (m : list (ChunkKey * addr)) :
  Map_get k (filter (fun p => negb (ChunkKey_eqb (fst p) k0)) m) =
  if ChunkKey_eqb k0 k then None else Map_get k m.
Proof.
  induction m as [|[k' a'] m IH]; simpl.
  - destruct (ChunkKey_eqb k0 k); reflexivity.
  - rewrite filter_cons. simpl. destruct (ChunkKey_eqb k' k0) eqn:H0; simpl.
    + apply ChunkKey_eqb_eq in H0. subst k'.
      destruct (decide (Is_true (negb true))) as [H|_]; [destruct H|].
      rewrite IH. destruct (ChunkKey_eqb k0 k); reflexivity.
    + destruct (decide (Is_true (negb false))) as [_|H]; [|exfalso; apply H; exact I].
      simpl. destruct (ChunkKey_eqb k' k) eqn:H1.
      * apply ChunkKey_eqb_eq in H1. subst k'.
        assert (ChunkKey_eqb k0 k = false) as ->; [|reflexivity].
        destruct (ChunkKey_eqb k0 k) eqn:H2; [|reflexivity].
        apply ChunkKey_eqb_eq in H2. subst k0.
        assert (ChunkKey_eqb k k = true) by (apply ChunkKey_eqb_eq; reflexivity). congruence.
      * exact IH.
Qed.

Lemma unloadPhase_bindings (cx cz : Z) (w : World) (k : ChunkKey) :
  Map_get k (chunks (unloadPhase cx cz w)) = Map_get k (chunks w) \/
  Map_get k (chunks (unloadPhase cx cz w)) = None.
Proof.
  unfold unloadPhase. cbv zeta.
  apply (for_each_invariant
           (fun s => Map_get k (chunks s) = Map_get k (chunks w) \/
                     Map_get k (chunks s) = None)); [|left; reflexivity].
  intros [k0 a0] s _ Hs. destruct (store s !! a0); [|exact Hs].
  destruct (_ <? _)%float; [|exact Hs]. cbn [log_event set_chunks chunks].
  rewrite Map_get_filter. destruct (ChunkKey_eqb k0 k); [right; reflexivity | exact Hs].
Qed.

(** ** world.ts: generation binds only free keys *)

Section Bindings.
Variable Math_random : nat -> float.
Variable EndGenerator_generateChunk : Chunk * nat -> Chunk * nat.

Lemma generateNext_chunks (w : World) :
  chunks (generateNext Math_random EndGenerator_generateChunk w) = chunks w \/
  exists k a, Map_get k (chunks w) = None /\
    chunks (generateNext Math_random EndGenerator_generateChunk w) = chunks w ++ [(k, a)].
Proof.
  unfold generateNext.
  destruct (chunksToGenerate w) as [|e rest]; [left; reflexivity|].
  cbv zeta. cbn [chunks set_chunksToGenerate store].
  destruct (Map_has _ (chunks w)) eqn:Hm; cbn [negb]; [left; reflexivity|].
  apply Map_has_false in Hm. right.
  exists (getChunkKey (gen_x e) (gen_z e)), (length (store w)). split; [exact Hm|].
  cbn [log_event set_chunksToRebuild set_chunks chunks].
  destruct (currentDimension _).
  - destruct (TerrainGenerator_generateChunk _ _ _) as [chunk calls].
    rewrite (outline_chunks _ _ (generateStructures_outline _ _ _)).
    cbn [set_structures set_randomCalls set_store set_chunksToGenerate chunks].
    apply Map_set_fresh, Hm.
  - destruct (EndGenerator_generateChunk _) as [chunk calls].
    cbn [set_randomCalls set_store set_chunksToGenerate chunks].
    apply Map_set_fresh, Hm.
Qed.

Lemma generateNext_bindings (w : World) (k : ChunkKey) (a : addr) :
  Map_get k (chunks w) = Some a ->
  Map_get k (chunks (generateNext Math_random EndGenerator_generateChunk w)) = Some a.
Proof.
  intros Hk. destruct (generateNext_chunks w) as [->|(k' & a' & _ & ->)]; [exact Hk|].
  rewrite Map_get_app, Hk. reflexivity.
Qed.

Lemma updateChunks_bindings (playerX playerZ : float) (w : World) (k : ChunkKey) (a : addr) :
  Map_get k (chunks w) = Some a ->
  let w' := World_updateChunks Math_random EndGenerator_generateChunk playerX playerZ w in
  Map_get k (chunks w') = Some a \/ Map_get k (chunks w') = None.
Proof.
  intros Hk w'. unfold w', World_updateChunks. cbv zeta.
  set (cx := Math_floor _). set (cz := Math_floor _).
  set (w1 := set_chunksToGenerate sortByPriority (queueMissingChunks cx cz w)).
  assert (Map_get k (chunks w1) = Some a) as H1.
  { unfold w1. cbn [set_chunksToGenerate chunks].
    pose proof (queueMissingChunks_layout cx cz w) as [= -> _]. exact Hk. }
  assert (Map_get k (chunks (generatePhase Math_random EndGenerator_generateChunk w1)) = Some a)
    as H2.
  { unfold generatePhase. cbv zeta.
    apply (for_each_invariant (fun s => Map_get k (chunks s) = Some a)); [|exact H1].
    intros i s _ Hs. destruct (chunksToGenerate s); [exact Hs|].
    apply generateNext_bindings, Hs. }
  set (w2 := generatePhase Math_random EndGenerator_generateChunk w1) in *.
  destruct (unloadPhase_bindings cx cz (rebuildPhase w2) k) as [H|H]; [left|right; exact H].
  rewrite H. pose proof (rebuildPhase_layout w2) as [= -> _]. exact H2.
Qed.
End Bindings.

(** ** world.ts: the voxel raycast *)

Lemma sampleBlock_solid (w : World) (pos : Vector3) (b : BlockType) :
  sampleBlock w pos = Some b -> solid (BLOCKS b) = true ->
  b = World_getBlock w (Math_floor (vx pos)) (Math_floor (vy pos)) (Math_floor (vz pos)).
Proof.
  unfold sampleBlock. intros H Hs.
  destruct (_ && _); [|injection H as <-; discriminate Hs].
  destruct (PrimFloat.is_nan _).
  - destruct (World_getChunk _ _ _) as [c|]; [destruct (isGenerated c)|];
      try discriminate H; injection H as <-; discriminate Hs.
  - destruct (is_finite _); injection H as <-; [reflexivity | discriminate Hs].
Qed.

Lemma raycast_from_Returned (fuel : nat) (w : World) (origin dir : Vector3)
    (maxDistance t : float) (r : RaycastResult) :
  raycast_from fuel w origin dir maxDistance t = Returned r ->
  r = {| hit := false; position := None; normal := None; blockPos := None |} \/
  exists pos b, sampleBlock w pos = Some b /\ solid (BLOCKS b) = true /\ r = hitAt pos.
Proof.
  revert t. induction fuel as [|fuel IH]; intros t; cbn [raycast_from]; [discriminate|].
  destruct (t <? maxDistance)%float; [|intros [= <-]; left; reflexivity].
  destruct (sampleBlock _ _) as [b|] eqn:Hb; [|discriminate].
  destruct (negb _ && solid (BLOCKS b)) eqn:Hs; [|apply IH].
  intros [= <-]. right. apply andb_true_iff in Hs as [_ Hs].
  eexists _, b. split; [exact Hb|]. split; [exact Hs | reflexivity].
Qed.

(** ** world.ts: the spawn height *)

Lemma find_downto (p : Z -> bool) (hi lo : Z) :
  match find p (downto hi lo) with
  | Some y => lo <= y <= hi /\ p y = true /\ forall y', y < y' <= hi -> p y' = false
  | None => forall y', lo <= y' <= hi -> p y' = false
  end.
Proof.
  destruct (Z_lt_le_dec hi lo) as [Hlt|Hle].
  { rewrite downto_nil by exact Hlt. simpl. intros; lia. }
  remember (Z.to_nat (hi - lo)) as n eqn:Hn. revert hi Hle Hn.
  induction n as [|n IH]; intros hi Hle Hn.
  - assert (hi = lo) as -> by lia. rewrite downto_cons by lia.
    rewrite downto_nil by lia. simpl. destruct (p lo) eqn:Hp.
    + split; [lia|]. split; [exact Hp|]. intros; lia.
    + intros y' Hy'. assert (y' = lo) as -> by lia. exact Hp.
  - rewrite downto_cons by lia. simpl. destruct (p hi) eqn:Hp.
    + split; [lia|]. split; [exact Hp|]. intros; lia.
    + specialize (IH (hi - 1) ltac:(lia) ltac:(lia)).
      destruct (find p (downto (hi - 1) lo)) as [y|].
      * destruct IH as (Hr & Hy & Ha). split; [lia|]. split; [exact Hy|].
        intros y' Hy'. destruct (decide (y' = hi)) as [->|]; [exact Hp | apply Ha; lia].
      * intros y' Hy'. destruct (decide (y' = hi)) as [->|]; [exact Hp | apply IH; lia].
Qed.

(** ** structures.ts: loot chests and the spawn village *)

Lemma chestAt_test (x y z : Z) (chest : LootChest) :
  (chest_x chest =? x) && (chest_y chest =? y) && (chest_z chest =? z) = true <->
  chestAt x y z chest.
Proof. unfold chestAt. rewrite !andb_true_iff, !Z.eqb_eq. tauto. Qed.

Lemma removeLootChest_spec (x y z : Z) (l : list LootChest) :
  match removeLootChest x y z l with
  | (Some chest, rest) =>
      chestAt x y z chest /\
      exists before after,
        l = before ++ chest :: after /\ rest = before ++ after /\
        Forall (fun c => ~ chestAt x y z c) before
  | (None, rest) => rest = l /\ Forall (fun c => ~ chestAt x y z c) l
  end.
Proof.
  induction l as [|c l IH]; simpl; [split; [reflexivity | constructor]|].
  destruct (_ && _) eqn:Ht.
  - apply chestAt_test in Ht. split; [exact Ht|].
    exists [], l. split; [reflexivity|]. split; [reflexivity | constructor].
  - assert (~ chestAt x y z c) as Hc by (rewrite <- chestAt_test; congruence).
    destruct (removeLootChest x y z l) as [[chest|] rest].
    + destruct IH as (Hat & before & after & -> & -> & Hf). split; [exact Hat|].
      exists (c :: before), after. split; [reflexivity|]. split; [reflexivity|].
      constructor; assumption.
    + destruct IH as [-> Hf]. split; [reflexivity|]. constructor; assumption.
Qed.

(** ** inventory.ts *)

Lemma countOf_cons (type : string) (slot : InventorySlot) (l : list InventorySlot) :
  countOf type (slot :: l) = held type slot + countOf type l.
Proof. reflexivity. Qed.

Lemma countOf_nil (type : string) : countOf type [] = 0.
Proof. reflexivity. Qed.

Lemma held_None (type : string) : held type None = 0.
Proof. reflexivity. Qed.

Lemma held_same (item : ItemStack) : held (stack_type item) (Some item) = stack_count item.
Proof. unfold held. rewrite String.eqb_refl. reflexivity. Qed.

Lemma held_type (type : string) (item : ItemStack) :
  stack_type item = type -> held type (Some item) = stack_count item.
Proof. intros <-. apply held_same. Qed.

Lemma held_other (type : string) (item : ItemStack) :
  stack_type item <> type -> held type (Some item) = 0.
Proof. intros H. unfold held. apply String.eqb_neq in H. rewrite H. reflexivity. Qed.

Lemma held_set_count (type : string) (item : ItemStack) (n : Z) :
  stack_type item = type -> held type (Some (set_count item n)) = n.
Proof. intros <-. apply (held_same (set_count item n)). Qed.

Lemma held_set_count_other (type : string) (item : ItemStack) (n : Z) :
  stack_type item <> type -> held type (Some (set_count item n)) = 0.
Proof. intros H. apply (held_other type (set_count item n)). exact H. Qed.

Lemma getMaxStack_pos (type : string) : 1 <= Inventory_getMaxStack type.
Proof.
  unfold Inventory_getMaxStack. destruct (String.prefix _ _); [lia|].
  unfold ITEMS_get.
  destruct (List.find _ ITEMS) as [[k info]|] eqn:Hf; simpl; [|lia].
  apply find_some in Hf as [Hin _].
  destruct (info_maxStack info =? 0) eqn:H0; [lia|].
  assert (Forall (fun p : string * ItemInfo => 0 <= info_maxStack (snd p)) ITEMS) as Hall
    by (repeat constructor; simpl; lia).
  rewrite Forall_forall in Hall. apply list_elem_of_In in Hin.
  specialize (Hall _ Hin). simpl in Hall. lia.
Qed.

(** *** The first loop *)

Lemma stackExisting_spec (type : string) (m : Z) (l : list InventorySlot) (rem : Z) :
  let '(l', r, returned) := stackExisting type m l rem in
  length l' = length l /\
  countOf type l' + r = countOf type l + rem /\
  (forall other, other <> type -> countOf other l' = countOf other l) /\
  (returned = true -> r = 0) /\
  (returned = false -> Forall (taken_full type m) l') /\
  (forall i, l !! i = Some None <-> l' !! i = Some None).
Proof.
  revert rem. induction l as [|slot l IH]; intros rem; cbn [stackExisting].
  - repeat split; try constructor; try discriminate; auto.
  - destruct slot as [item|].
    + destruct (String.eqb (stack_type item) type && (stack_count item <? m)) eqn:Ht.
      * apply andb_true_iff in Ht as [Hty Hlt]. apply Z.ltb_lt in Hlt.
        apply String.eqb_eq in Hty.
        cbv zeta. destruct (rem - Z.min rem (m - stack_count item) <=? 0) eqn:Hr.
        -- apply Z.leb_le in Hr.
           rewrite !countOf_cons, (held_set_count type), (held_type type) by exact Hty.
           split; [reflexivity|]. split; [lia|]. split.
           { intros other Ho. rewrite !countOf_cons.
             rewrite held_set_count_other, held_other by congruence. reflexivity. }
           split; [intros _; lia|]. split; [discriminate|].
           intros [|i]; simpl; [split; discriminate | reflexivity].
        -- apply Z.leb_gt in Hr. specialize (IH (rem - Z.min rem (m - stack_count item))).
           destruct (stackExisting type m l _) as [[l' r] ret].
           destruct IH as (Hl & Hc & Ho & Hret & Hfull & Hnone).
           rewrite !countOf_cons, (held_set_count type), (held_type type) by exact Hty. cbn [length].
           split; [lia|]. split; [lia|]. split.
           { intros other Hne. rewrite !countOf_cons, (Ho other Hne).
             rewrite held_set_count_other, held_other by congruence. reflexivity. }
           split; [exact Hret|]. split.
           { intros Hf. constructor; [|apply Hfull, Hf]. simpl. intros _. lia. }
           intros [|i]; simpl; [split; discriminate | apply Hnone].
      * specialize (IH rem). destruct (stackExisting type m l rem) as [[l' r] ret].
        destruct IH as (Hl & Hc & Ho & Hret & Hfull & Hnone).
        rewrite !countOf_cons. cbn [length].
        split; [lia|]. split; [lia|]. split.
        { intros other Hne. rewrite !countOf_cons, (Ho other Hne). reflexivity. }
        split; [exact Hret|]. split.
        { intros Hf. constructor; [|apply Hfull, Hf]. simpl. intros Hty.
          apply String.eqb_eq in Hty. rewrite Hty in Ht. simpl in Ht.
          apply Z.ltb_ge in Ht. exact Ht. }
        intros [|i]; simpl; [reflexivity | apply Hnone].
    + specialize (IH rem). destruct (stackExisting type m l rem) as [[l' r] ret].
      destruct IH as (Hl & Hc & Ho & Hret & Hfull & Hnone).
      rewrite !countOf_cons. cbn [length].
      split; [lia|]. split; [lia|]. split.
      { intros other Hne. rewrite !countOf_cons, (Ho other Hne). reflexivity. }
      split; [exact Hret|]. split.
      { intros Hf. constructor; [exact I | apply Hfull, Hf]. }
      intros [|i]; simpl; [reflexivity | apply Hnone].
Qed.

(** *** The second loop *)

Lemma fillEmpty_spec (type : string) (m : Z) (l : list InventorySlot) (rem : Z) :
  let '(l', r, returned) := fillEmpty type m l rem in
  length l' = length l /\
  countOf type l' + r = countOf type l + rem /\
  (forall other, other <> type -> countOf other l' = countOf other l) /\
  (returned = true -> r = 0) /\
  (returned = false -> Forall (taken_full type m) l -> Forall (full type m) l').
Proof.
  revert rem. induction l as [|slot l IH]; intros rem; cbn [fillEmpty].
  - repeat split; try constructor; try discriminate; auto.
  - destruct slot as [item|].
    + specialize (IH rem). destruct (fillEmpty type m l rem) as [[l' r] ret].
      destruct IH as (Hl & Hc & Ho & Hret & Hfull).
      rewrite !countOf_cons. cbn [length].
      split; [lia|]. split; [lia|]. split.
      { intros other Hne. rewrite !countOf_cons, (Ho other Hne). reflexivity. }
      split; [exact Hret|].
      intros Hf Hall. apply Forall_cons in Hall as [H1 H2].
      constructor; [exact H1 | apply Hfull; assumption].
    + cbv zeta. destruct (rem - Z.min rem m <=? 0) eqn:Hr.
      * apply Z.leb_le in Hr. rewrite !countOf_cons, held_None.
        rewrite (held_type type) by reflexivity. cbn [stack_count].
        split; [reflexivity|]. split; [lia|]. split.
        { intros other Hne. rewrite !countOf_cons, held_None, held_other; [reflexivity|].
          simpl. congruence. }
        split; [intros _; lia | discriminate].
      * apply Z.leb_gt in Hr. specialize (IH (rem - Z.min rem m)).
        destruct (fillEmpty type m l _) as [[l' r] ret].
        destruct IH as (Hl & Hc & Ho & Hret & Hfull).
        rewrite !countOf_cons, held_None.
        rewrite (held_type type) by reflexivity. cbn [stack_count length].
        split; [lia|]. split; [lia|]. split.
        { intros other Hne. rewrite !countOf_cons, (Ho other Hne), held_None, held_other;
            [reflexivity|]. simpl. congruence. }
        split; [exact Hret|].
        intros Hf Hall. apply Forall_cons in Hall as [_ H2].
        constructor; [|apply Hfull; assumption]. simpl. intros _. lia.
Qed.

(** *** How a slot may change *)

Lemma touched_refl (type : string) (m : Z) (s : InventorySlot) : touched type m s s.
Proof. destruct s; left; reflexivity. Qed.

Lemma touched_trans (type : string) (m : Z) (s1 s2 s3 : InventorySlot) :
  touched type m s1 s2 -> touched type m s2 s3 -> touched type m s1 s3.
Proof.
  destruct s1 as [i1|]; simpl.
  - intros [->|(Hty & n & ->)]; [auto|]. simpl.
    intros [->|(_ & n' & ->)]; right; (split; [exact Hty|]); eauto.
  - intros [->|(n & ->)]; [auto|]. simpl.
    intros [->|(_ & n' & ->)]; right; eauto.
Qed.

Lemma Forall2_touched_refl (type : string) (m : Z) (l : list InventorySlot) :
  Forall2 (touched type m) l l.
Proof. induction l; constructor; [apply touched_refl | assumption]. Qed.

Lemma Forall2_touched_trans (type : string) (m : Z) (l1 l2 l3 : list InventorySlot) :
  Forall2 (touched type m) l1 l2 -> Forall2 (touched type m) l2 l3 ->
  Forall2 (touched type m) l1 l3.
Proof.
  intros H12. revert l3. induction H12 as [|s1 s2 l1 l2 Hs _ IH]; intros l3 H23.
  - inversion H23. constructor.
  - inversion H23 as [|s2' s3 l2' l3' Hs' Hl']; subst.
    constructor; [eapply touched_trans; eassumption | apply IH, Hl'].
Qed.

Lemma stackExisting_touched (type : string) (m : Z) (l : list InventorySlot) (rem : Z) :
  Forall2 (touched type m) l (stackExisting type m l rem).1.1.
Proof.
  revert rem. induction l as [|slot l IH]; intros rem; cbn [stackExisting]; [constructor|].
  destruct slot as [item|].
  - destruct (String.eqb (stack_type item) type && _) eqn:Ht.
    + apply andb_true_iff in Ht as [Hty _]. apply String.eqb_eq in Hty. cbv zeta.
      destruct (_ <=? 0).
      * constructor; [right; split; [exact Hty|]; eauto | apply Forall2_touched_refl].
      * specialize (IH (rem - Z.min rem (m - stack_count item))).
        destruct (stackExisting type m l _) as [[l' r] ret].
        constructor; [right; split; [exact Hty|]; eauto | exact IH].
    + specialize (IH rem). destruct (stackExisting type m l rem) as [[l' r] ret].
      constructor; [left; reflexivity | exact IH].
  - specialize (IH rem). destruct (stackExisting type m l rem) as [[l' r] ret].
    constructor; [left; reflexivity | exact IH].
Qed.

Lemma fillEmpty_touched (type : string) (m : Z) (l : list InventorySlot) (rem : Z) :
  Forall2 (touched type m) l (fillEmpty type m l rem).1.1.
Proof.
  revert rem. induction l as [|slot l IH]; intros rem; cbn [fillEmpty]; [constructor|].
  destruct slot as [item|].
  - specialize (IH rem). destruct (fillEmpty type m l rem) as [[l' r] ret].
    constructor; [left; reflexivity | exact IH].
  - cbv zeta. destruct (_ <=? 0).
    + constructor; [right; eauto | apply Forall2_touched_refl].
    + specialize (IH (rem - Z.min rem m)). destruct (fillEmpty type m l _) as [[l' r] ret].
      constructor; [right; eauto | exact IH].
Qed.

(** *** Stack sizes *)

Lemma stackExisting_bounded (type : string) (m : Z) (l : list InventorySlot) (rem : Z) :
  1 <= rem -> Forall (bounded type m) l ->
  let '(l', r, returned) := stackExisting type m l rem in
  Forall (bounded type m) l' /\ (returned = false -> 1 <= r).
Proof.
  revert rem. induction l as [|slot l IH]; intros rem Hrem Hall; cbn [stackExisting].
  - split; [constructor | intros _; exact Hrem].
  - apply Forall_cons in Hall as [Hs Hall]. destruct slot as [item|].
    + destruct (String.eqb (stack_type item) type && _) eqn:Ht.
      * apply andb_true_iff in Ht as [Hty Hlt]. apply Z.ltb_lt in Hlt.
        apply String.eqb_eq in Hty. simpl in Hs. specialize (Hs Hty). cbv zeta.
        destruct (_ <=? 0) eqn:Hr.
        -- split; [|discriminate]. constructor; [|exact Hall]. simpl. intros _. lia.
        -- apply Z.leb_gt in Hr.
           specialize (IH (rem - Z.min rem (m - stack_count item)) ltac:(lia) Hall).
           destruct (stackExisting type m l _) as [[l' r] ret]. destruct IH as [IH1 IH2].
           split; [|exact IH2]. constructor; [|exact IH1]. simpl. intros _. lia.
      * specialize (IH rem Hrem Hall).
        destruct (stackExisting type m l rem) as [[l' r] ret]. destruct IH as [IH1 IH2].
        split; [|exact IH2]. constructor; [exact Hs | exact IH1].
    + specialize (IH rem Hrem Hall).
      destruct (stackExisting type m l rem) as [[l' r] ret]. destruct IH as [IH1 IH2].
      split; [|exact IH2]. constructor; [exact I | exact IH1].
Qed.

Lemma fillEmpty_bounded (type : string) (m : Z) (l : list InventorySlot) (rem : Z) :
  1 <= rem -> 1 <= m -> Forall (bounded type m) l ->
  Forall (bounded type m) (fillEmpty type m l rem).1.1.
Proof.
  revert rem. induction l as [|slot l IH]; intros rem Hrem Hm Hall; cbn [fillEmpty];
    [constructor|].
  apply Forall_cons in Hall as [Hs Hall]. destruct slot as [item|].
  - specialize (IH rem Hrem Hm Hall). destruct (fillEmpty type m l rem) as [[l' r] ret].
    constructor; [exact Hs | exact IH].
  - cbv zeta. destruct (_ <=? 0) eqn:Hr.
    + constructor; [|exact Hall]. simpl. intros _. lia.
    + apply Z.leb_gt in Hr. specialize (IH (rem - Z.min rem m) ltac:(lia) Hm Hall).
      destruct (fillEmpty type m l _) as [[l' r] ret].
      constructor; [|exact IH]. simpl. intros _. lia.
Qed.

(** *** Replacing one slot *)

Lemma countOf_insert (type : string) (l : list InventorySlot) (i : nat)
    (old new : InventorySlot) :
  l !! i = Some old ->
  countOf type (<[i := new]> l) = countOf type l - held type old + held type new.
Proof.
  revert i. induction l as [|s l IH]; intros [|i]; simpl; try discriminate.
  - intros [= ->]. rewrite !countOf_cons. lia.
  - intros H. rewrite !countOf_cons, (IH i H). lia.
Qed.

(** ** chunk.ts: what the mesh depends on *)

Lemma buildFace_reads (c c' : Chunk) (f : Z -> Z -> Z -> BlockType) (bt : BlockType)
    (x y z : Z) (d : FaceDirection) (st : MeshArrays) :
  same_blocks c c' -> buildFace c' f bt x y z d st = buildFace c f bt x y z d st.
Proof.
  destruct c as [b m wm tp nr ig cx cz], c' as [b' m' wm' tp' nr' ig' cx' cz'].
  unfold same_blocks. simpl. intros (-> & -> & ->). reflexivity.
Qed.

Lemma getBlock_reads (c c' : Chunk) (x y z : Z) :
  same_blocks c c' -> Chunk_getBlock c' x y z = Chunk_getBlock c x y z.
Proof. intros (Hb & _). unfold Chunk_getBlock. rewrite Hb. reflexivity. Qed.

Lemma buildBlock_reads (c c' : Chunk) (f : Z -> Z -> Z -> BlockType) (x y z : Z)
    (st : MeshArrays) :
  same_blocks c c' -> buildBlock c' f x y z st = buildBlock c f x y z st.
Proof.
  intros H. unfold buildBlock. rewrite (getBlock_reads c c' x y z H).
  pose proof H as (_ & Hx & Hz).
  destruct (Chunk_getBlock c x y z);
    first [ apply for_each_ext; intros d st'; apply buildFace_reads; exact H
          | rewrite Hx, Hz; reflexivity
          | reflexivity ].
Qed.

Lemma buildMesh_arrays_reads (c c' : Chunk) (f : Z -> Z -> Z -> BlockType) :
  same_blocks c c' -> Chunk_buildMesh_arrays c' f = Chunk_buildMesh_arrays c f.
Proof.
  intros H. unfold Chunk_buildMesh_arrays.
  apply for_each_ext. intros y st. apply for_each_ext. intros z st1.
  apply for_each_ext. intros x st2. apply buildBlock_reads, H.
Qed.

Lemma buildMesh_reads (c c' : Chunk) (f : Z -> Z -> Z -> BlockType) :
  blocks c' = blocks c -> chunkX c' = chunkX c -> chunkZ c' = chunkZ c ->
  isGenerated c' = isGenerated c ->
  Chunk_buildMesh c' f = Chunk_buildMesh c f.
Proof.
  intros Hb Hx Hz Hg. unfold Chunk_buildMesh. cbv zeta.
  rewrite (buildMesh_arrays_reads c c' f), Hb, Hx, Hz, Hg; [reflexivity|].
  split; [exact Hb | split; assumption].
Qed.

(** ** chunk.ts: the buffers of a mesh *)

Lemma push_ok {A : Type} (a : JSArray A) (xs : list A) : arr_ok a -> arr_ok (push a xs).
Proof.
  unfold arr_ok, push. simpl. intros ->. rewrite rev_append_reverse, length_app, length_reverse.
  lia.
Qed.

Lemma push_length {A : Type} (a : JSArray A) (xs : list A) :
  arr_length (push a xs) = arr_length a + Z.of_nat (length xs).
Proof. reflexivity. Qed.

Lemma emitFace_ok (c : Chunk) (f : Z -> Z -> Z -> BlockType) (b : BlockType)
    (x y z : Z) (d : FaceDirection) (g : Geometry) (a : JSArray float) (n k : Z) :
  d ∈ DIRECTIONS ->
  geometry_ok n g -> arr_ok a -> arr_length a = k ->
  let '(g', a') := emitFace c f b x y z d g a in
  geometry_ok (n + 1) g' /\ arr_ok a' /\
  arr_length a' = if BlockType_eqb b WATER then k else k + 4.
Proof.
  intros Hd (Hn & Hp & Hpl & Hno & Hnl & Hc & Hcl & Hu & Hul & Hi & Hil & Hbound) Ha Hk.
  unfold emitFace. destruct (faceColor _ _) as [[cr cg] cb]. cbv zeta.
  rewrite (DIRECTIONS_corners d Hd).
  change (upto 0 (Z.of_nat 4 - 1)) with [0; 1; 2; 3].
  unfold for_each. cbn [foldl].
  repeat match goal with
         | |- context [nth ?i (corners d) ?v] =>
             destruct (nth i (corners d) v) as [[? ?] ?]
         end.
  destruct (dir d) as [[dx dy] dz].
  unfold geometry_ok. cbn [positions normals colors uvs indices].
  rewrite !push_length. cbn [length].
  assert (arr_length (positions g) / 3 = 4 * n) as Hndx
    by (rewrite Hpl; symmetry; apply Z.div_unique_exact; lia).
  rewrite Hndx.
  split; [|destruct (BlockType_eqb b WATER); cbn [negb];
           [split; [exact Ha | exact Hk]
           |split; [repeat apply push_ok; exact Ha | rewrite !push_length; cbn [length]; lia]]].
  split; [lia|].
  split; [repeat apply push_ok; exact Hp|]. split; [lia|].
  split; [repeat apply push_ok; exact Hno|]. split; [lia|].
  split; [repeat apply push_ok; exact Hc|]. split; [lia|].
  split; [repeat apply push_ok; exact Hu|]. split; [lia|].
  split; [apply push_ok; exact Hi|]. split; [lia|].
  apply push_Forall.
  - eapply Forall_impl; [exact Hbound|]. intros i Hi'. simpl in Hi'. lia.
  - repeat constructor; lia.
Qed.

Lemma buildFace_ok (c : Chunk) (f : Z -> Z -> Z -> BlockType) (b : BlockType)
    (x y z : Z) (d : FaceDirection) (st : MeshArrays) :
  d ∈ DIRECTIONS -> arrays_ok st -> arrays_ok (buildFace c f b x y z d st).
Proof.
  intros Hd (ns & nw & Hs & Hw & Ha & Hal). unfold buildFace.
  destruct (faceSkipped _ _); [exists ns, nw; auto|].
  destruct (BlockType_eqb b WATER) eqn:Hb.
  - pose proof (emitFace_ok c f b x y z d (waterArrays st) (aos st) nw (4 * ns)
                  Hd Hw Ha Hal) as He.
    destruct (emitFace c f b x y z d (waterArrays st) (aos st)) as [g' a'].
    rewrite Hb in He. destruct He as (Hg & Ha' & Hl).
    exists ns, (nw + 1). split; [exact Hs|]. split; [exact Hg|]. split; [exact Ha'|].
    cbn [aos]. lia.
  - pose proof (emitFace_ok c f b x y z d (solidArrays st) (aos st) ns (4 * ns)
                  Hd Hs Ha Hal) as He.
    destruct (emitFace c f b x y z d (solidArrays st) (aos st)) as [g' a'].
    rewrite Hb in He. destruct He as (Hg & Ha' & Hl).
    exists (ns + 1), nw. split; [exact Hg|]. split; [exact Hw|]. split; [exact Ha'|].
    cbn [aos]. lia.
Qed.

Lemma buildBlock_ok (c : Chunk) (f : Z -> Z -> Z -> BlockType) (x y z : Z)
    (st : MeshArrays) :
  arrays_ok st -> arrays_ok (buildBlock c f x y z st).
Proof.
  intros Hst. unfold buildBlock.
  destruct (Chunk_getBlock c x y z); try exact Hst;
    apply (for_each_invariant arrays_ok); try exact Hst;
    intros d s Hd Hs; apply buildFace_ok; assumption.
Qed.

Lemma geometry_ok_empty : geometry_ok 0 Geometry_empty.
Proof. unfold geometry_ok, arr_ok. simpl. repeat split; try lia. constructor. Qed.

Lemma buildMesh_arrays_ok (c : Chunk) (f : Z -> Z -> Z -> BlockType) :
  arrays_ok (Chunk_buildMesh_arrays c f).
Proof.
  rewrite buildMesh_arrays_voxels. apply (for_each_invariant arrays_ok).
  - intros [[x y] z] s _ Hs. apply buildBlock_ok, Hs.
  - exists 0, 0. split; [apply geometry_ok_empty|]. split; [apply geometry_ok_empty|].
    split; reflexivity.
Qed.

Lemma contents_length {A : Type} (a : JSArray A) :
  arr_ok a -> Z.of_nat (length (contents a)) = arr_length a.
Proof. unfold arr_ok, contents. intros ->. rewrite length_reverse. reflexivity. Qed.

(** ** structures.ts: the spawn village is generated once *)

Lemma keeps_spawned (f : World -> World) (w : World) : keeps f -> spawned w -> spawned (f w).
Proof. unfold spawned. intros Hf H. rewrite (outline_spawnVillage _ _ (Hf w)). exact H. Qed.

Lemma generateSpawnVillage_spawned (w : World) : spawned (generateSpawnVillage w).
Proof.
  unfold generateSpawnVillage. destruct (spawnVillageGenerated (structures w)) eqn:H;
    [exact H|].
  apply keeps_spawned; [apply keeps_forceGenerateVillage | reflexivity].
Qed.

Section SpawnVillage.
Variable Math_random : nat -> float.
Variable EndGenerator_generateChunk : Chunk * nat -> Chunk * nat.

Lemma generateStructures_spawned (chunk : Chunk) (w : World) :
  spawned w -> spawned (generateStructures Math_random chunk w).
Proof.
  unfold spawned. rewrite (outline_spawnVillage _ _ (generateStructures_outline _ _ _)).
  intros H. exact H.
Qed.

Lemma generateNext_spawned (w : World) :
  spawned w -> spawned (generateNext Math_random EndGenerator_generateChunk w).
Proof.
  intros Hw. unfold generateNext.
  destruct (chunksToGenerate w) as [|e rest]; [exact Hw|]. cbv zeta.
  destruct (negb _); [|exact Hw].
  destruct (currentDimension _).
  - destruct (TerrainGenerator_generateChunk _ _ _) as [chunk calls].
    unfold spawned. simpl. apply generateStructures_spawned. exact Hw.
  - destruct (EndGenerator_generateChunk _) as [chunk calls]. exact Hw.
Qed.

Lemma updateChunks_spawned (px pz : float) (w : World) :
  spawned w ->
  spawned (World_updateChunks Math_random EndGenerator_generateChunk px pz w).
Proof.
  intros Hw. unfold World_updateChunks, spawned. cbv zeta.
  rewrite unloadPhase_structures. unfold rebuildPhase.
  rewrite rebuildQueued_structures, rebuildResident_structures. simpl.
  unfold generatePhase. apply (for_each_invariant spawned).
  - intros i w0 _ H0. destruct (chunksToGenerate w0); [exact H0|].
    apply generateNext_spawned, H0.
  - unfold spawned. simpl. rewrite queueMissingChunks_structures. exact Hw.
Qed.

Lemma perform_spawned (op : Operation) (w : World) :
  spawned w -> spawned (perform Math_random EndGenerator_generateChunk w op).
Proof.
  intros Hw. destruct op; simpl.
  - apply keeps_spawned; [apply keeps_setBlock | exact Hw].
  - apply updateChunks_spawned, Hw.
  - apply generateStructures_spawned, Hw.
  - apply generateSpawnVillage_spawned.
  - unfold checkLootChest. destruct (removeLootChest _ _ _ _). exact Hw.
  - unfold World_setDimension.
    destruct (currentDimension w), dimension; exact Hw.
Qed.

Lemma run_spawned (ops : list Operation) (w : World) :
  spawned w -> spawned (run Math_random EndGenerator_generateChunk ops w).
Proof.
  unfold run. revert w. induction ops as [|op ops IH]; intros w Hw; [exact Hw|].
  simpl. apply IH, perform_spawned, Hw.
Qed.
End SpawnVillage.

(** ** world.ts: sorting the generation queue *)

Lemma insertByPriority_Permutation (e : GenEntry) (l : list GenEntry) :
  insertByPriority e l ≡ₚ e :: l.
Proof.
  induction l as [|e' l IH]; simpl; [reflexivity|].
  destruct (_ || _); [|reflexivity]. rewrite IH. apply Permutation_swap.
Qed.

Lemma sortByPriority_Permutation (l : list GenEntry) : sortByPriority l ≡ₚ l.
Proof.
  unfold sortByPriority.
  assert (forall acc, foldl (fun sorted e => insertByPriority e sorted) acc l ≡ₚ acc ++ l) as H.
  { induction l as [|e l IH]; intros acc; simpl; [rewrite app_nil_r; reflexivity|].
    rewrite IH, insertByPriority_Permutation. rewrite <- Permutation_middle. reflexivity. }
  apply (H []).
Qed.

(** ** structures.ts: the seeded random numbers *)

Lemma seededRandom_next_seed (seed : Z) :
  0 <= (seededRandom_next seed).1 <= 2147483647.
Proof.
  unfold seededRandom_next. cbn [fst].
  set (n := ToInt32 _). split.
  - apply Z.land_nonneg. right. lia.
  - change 2147483647 with (Z.ones 31) at 1. rewrite Z.land_ones by lia.
    pose proof (Z.mod_pos_bound n (2 ^ 31) ltac:(lia)). lia.
Qed.



(** ** C1: [generateChunk] reads [Math.random()] *)

Lemma blocks_getBlock (c c' : Chunk) (x y z : Z) :
  blocks c = blocks c' -> Chunk_getBlock c x y z = Chunk_getBlock c' x y z.
Proof. intros H. unfold Chunk_getBlock. rewrite H. reflexivity. Qed.

(** C1.  Two calls of [generateChunk] in one run of the program, with the
    same generator (same seed, same noise fields) and two fresh chunks of
    the same coordinates, give different block arrays: the first call
    consumes 1024 values of [Math.random()], one for each column of the
    ocean floor, and the surface block at (0, 20, 0) is clay after the first
    call and gravel after the second. *)
Theorem C1_generateChunk_depends_on_Math_random :
  (oceanChunk 0).2 = 1024%nat /\
  Chunk_getBlock (oceanChunk 0).1 0 20 0 = CLAY /\
  Chunk_getBlock (oceanChunk 1024).1 0 20 0 = GRAVEL /\
  blocks (oceanChunk 0).1 <> blocks (oceanChunk 1024).1.
Proof.
  assert (((oceanChunk 0).2, Chunk_getBlock (oceanChunk 0).1 0 20 0,
           Chunk_getBlock (oceanChunk 1024).1 0 20 0) = (1024%nat, CLAY, GRAVEL)) as H
    by (vm_compute; reflexivity).
  apply pair_equal_spec in H as [H H3]. apply pair_equal_spec in H as [H1 H2].
  split; [exact H1|]. split; [exact H2|]. split; [exact H3|].
  intros Hb. apply (blocks_getBlock _ _ 0 20 0) in Hb.
  rewrite H2, H3 in Hb. discriminate Hb.
Qed.

(** ** Instances *)

Lemma C2_setBlock_then_getBlock_witness :
  World_getBlock (World_setBlock 96 10 100 STONE twoChunks) 96 10 100 = STONE.
Proof.
  apply (C2_setBlock_then_getBlock twoChunks 96 10 100 STONE (emptyChunk 3 3));
    [reflexivity | reflexivity | reflexivity | unfold CHUNK_HEIGHT; lia].
Defined.

Lemma C3_absent_chunk_witness :
  World_getBlock twoChunks 0 10 0 = AIR /\ World_setBlock 0 10 0 STONE twoChunks = twoChunks.
Proof.
  apply (C3_absent_chunk_reads_air_and_ignores_writes twoChunks 0 10 0 STONE).
  left. reflexivity.
Defined.

Lemma C6_setBlock_marks_edge_neighbours_witness :
  exists neighbour',
    World_getChunk (World_setBlock 96 10 100 STONE twoChunks) 2 3 = Some neighbour' /\
    needsRebuild neighbour' = true.
Proof.
  apply (C6_setBlock_marks_edge_neighbours twoChunks 96 10 100 STONE
           (emptyChunk 3 3) (emptyChunk 2 3) 2 3);
    [reflexivity | reflexivity | apply list_elem_of_here | reflexivity | reflexivity].
Defined.

Lemma C5_raycast_down_witness :
  World_raycast 2 stoneAt64 {| vx := 0; vy := 65; vz := 0 |} {| vx := 0; vy := -1; vz := 0 |} 8 =
  Returned {| hit := true;
              position := Some {| vx := 0; vy := 64.9; vz := 0 |};
              normal := Some {| vx := 0; vy := 0; vz := -1 |};
              blockPos := Some {| pos_x := 0; pos_y := 64; pos_z := 0 |} |}.
Proof.
  apply (C5_raycast_down_hits_with_z_normal stoneAt64 2);
    [vm_compute; reflexivity | vm_compute; reflexivity | lia].
Defined.


(** ** C5: the normal of the hit *)

Lemma stoneAt64_column (y : Z) : 64 < y -> World_getBlock stoneAt64 0 y 0 = AIR.
Proof.
  intros Hy. unfold World_getBlock.
  change (World_getChunk stoneAt64 (0 / CHUNK_SIZE) (0 / CHUNK_SIZE))
    with (Some (Chunk_setBlock (emptyChunk 0 0) 0 64 0 STONE)).
  cbv zeta. change (localCoord 0) with 0.
  change (negb (isGenerated (Chunk_setBlock (emptyChunk 0 0) 0 64 0 STONE))) with false.
  cbv iota. rewrite Chunk_get_set_other by (intros [=]; lia).
  unfold Chunk_getBlock. destruct (out_of_chunk 0 y 0) eqn:Hin; [reflexivity|].
  apply get_make.
Qed.

(** C5 as stated fails.  Over a chunk whose only block is a stone at
    (0, 64, 0), the topmost solid block of the column, the ray from
    (0, 65, 0) straight down hits that block and the normal returned is not
    (0, 1, 0). *)
Lemma C5_normal_is_not_up :
  solid (BLOCKS (World_getBlock stoneAt64 0 64 0)) = true /\
  (forall y, 64 < y -> World_getBlock stoneAt64 0 y 0 = AIR) /\
  exists r,
    World_raycast 100 stoneAt64 {| vx := 0; vy := 65; vz := 0 |}
      {| vx := 0; vy := -1; vz := 0 |} 8 = Returned r /\
    hit r = true /\
    blockPos r = Some {| pos_x := 0; pos_y := 64; pos_z := 0 |} /\
    normal r <> Some {| vx := 0; vy := 1; vz := 0 |}.
Proof.
  split; [vm_compute; reflexivity|]. split; [exact stoneAt64_column|].
  eexists. split; [vm_compute; reflexivity|].
  split; [reflexivity|]. split; [reflexivity|].
  intros H. apply (f_equal (fun n => match n with
                                     | Some v => PrimFloat.ltb (vz v) 0
                                     | None => false
                                     end)) in H.
  vm_compute in H. discriminate H.
Qed.

Lemma C4_generateStructures_once_witness :
  let later :=
    run (fun _ => 0%float) (fun st => st)
      [DoSetBlock 96 10 100 STONE; DoGenerateSpawnVillage]
      (generateStructures (fun _ => 0%float) (emptyChunk 3 3) twoChunks) in
  generateStructures (fun _ => 0%float) (Chunk_new 3 3) later = later.
Proof.
  apply (C4_generateStructures_once (fun _ => 0%float) (fun st => st)
           (emptyChunk 3 3) (Chunk_new 3 3)
           [DoSetBlock 96 10 100 STONE; DoGenerateSpawnVillage] twoChunks);
    reflexivity.
Defined.

(** * Further properties of the code *)

(** ** chunk.ts *)

(** X1.  [Chunk.setBlock] changes the cell it is given, when that cell is
    inside the chunk, and no other cell: a read after the write returns the
    block written at that cell and the block that was there at every other
    cell, and a write outside the chunk changes nothing. *)
Theorem Chunk_setBlock_changes_one_cell
    (c : Chunk) (x y z x' y' z' : Z) (t : BlockType) :
  Chunk_wf c ->
  Chunk_getBlock (Chunk_setBlock c x y z t) x' y' z' =
  if negb (out_of_chunk x y z) && bool_decide ((x', y', z') = (x, y, z)) then t
  else Chunk_getBlock c x' y' z'.
Proof.
  intros Hwf. destruct (out_of_chunk x y z) eqn:Hin; cbn [negb andb].
  - unfold Chunk_setBlock. rewrite Hin. reflexivity.
  - destruct (bool_decide _) eqn:Hd.
    + apply bool_decide_eq_true_1 in Hd. injection Hd as -> -> ->.
      apply Chunk_get_set_same; assumption.
    + apply bool_decide_eq_false_1 in Hd. apply Chunk_get_set_other. congruence.
Qed.

Lemma Chunk_setBlock_changes_one_cell_witness :
  Chunk_getBlock (Chunk_setBlock (Chunk_new 0 0) 1 2 3 STONE) 1 2 3 = STONE.
Proof.
  rewrite (Chunk_setBlock_changes_one_cell (Chunk_new 0 0) 1 2 3 1 2 3 STONE);
    reflexivity.
Defined.

(** X2.  [getBlockIndex] gives every cell of the chunk an index of the block
    array, below 32 * 128 * 32, and two cells with the same index are the
    same cell. *)
Theorem Chunk_getBlockIndex_one_slot_per_cell (x y z x' y' z' : Z) :
  out_of_chunk x y z = false -> out_of_chunk x' y' z' = false ->
  0 <= Chunk_getBlockIndex x y z < CHUNK_VOLUME /\
  (Chunk_getBlockIndex x y z = Chunk_getBlockIndex x' y' z' -> (x, y, z) = (x', y', z')).
Proof.
  intros Hin Hin'. split; [apply index_range, Hin|]. intros Heq.
  destruct (index_inj _ _ _ _ _ _ Hin Hin' Heq) as (-> & -> & ->). reflexivity.
Qed.

Lemma Chunk_getBlockIndex_one_slot_per_cell_witness :
  0 <= Chunk_getBlockIndex 31 127 31 < CHUNK_VOLUME /\
  (Chunk_getBlockIndex 31 127 31 = Chunk_getBlockIndex 0 0 0 -> (31, 127, 31) = (0, 0, 0)).
Proof.
  apply (Chunk_getBlockIndex_one_slot_per_cell 31 127 31 0 0 0); reflexivity.
Defined.

(** X3.  The meshes [buildMesh] makes depend on the chunk through its block
    array, its coordinates and its generated flag only: two chunk objects
    that agree on these give the same chunk after [buildMesh], whatever
    their old meshes, torch lists and rebuild flags were.  So building the
    mesh of a chunk twice gives what building it once gives. *)
Theorem Chunk_buildMesh_reads_blocks_and_coordinates
    (c c' : Chunk) (getNeighborBlock : Z -> Z -> Z -> BlockType) :
  blocks c' = blocks c -> chunkX c' = chunkX c -> chunkZ c' = chunkZ c ->
  isGenerated c' = isGenerated c ->
  Chunk_buildMesh c' getNeighborBlock = Chunk_buildMesh c getNeighborBlock.
Proof. apply buildMesh_reads. Qed.

Lemma Chunk_buildMesh_reads_witness :
  Chunk_buildMesh (Chunk_markRebuild (emptyChunk 0 0)) noNeighbours =
  Chunk_buildMesh (emptyChunk 0 0) noNeighbours.
Proof.
  apply (Chunk_buildMesh_reads_blocks_and_coordinates (emptyChunk 0 0)
           (Chunk_markRebuild (emptyChunk 0 0)) noNeighbours); reflexivity.
Defined.

(** X4.  The attributes of the meshes [buildMesh] makes fit together.  A
    mesh it makes has a number n >= 1 of faces, 12 n position, normal and
    colour components, 8 n texture coordinates, 6 n indices, each the number
    of one of the 4 n vertices, and, for the solid mesh, 4 n ambient
    occlusion values; the water mesh has no such attribute. *)
Theorem Chunk_buildMesh_buffers (c : Chunk) (getNeighborBlock : Z -> Z -> Z -> BlockType) :
  let rebuilt := Chunk_buildMesh c getNeighborBlock in
  (forall m, mesh rebuilt = Some m ->
     exists n, MeshData_ok n m /\ attr_ao m <> None) /\
  (forall m, waterMesh rebuilt = Some m ->
     exists n, MeshData_ok n m /\ attr_ao m = None).
Proof.
  intros rebuilt. unfold rebuilt, Chunk_buildMesh. cbv zeta. cbn [mesh waterMesh].
  destruct (buildMesh_arrays_ok c getNeighborBlock) as (ns & nw & Hs & Hw & Ha & Hal).
  set (a := Chunk_buildMesh_arrays c getNeighborBlock) in *.
  destruct Hs as (Hn & Hp & Hpl & Hno & Hnl & Hc & Hcl & Hu & Hul & Hi & Hil & Hb).
  destruct Hw as (Hn' & Hp' & Hpl' & Hno' & Hnl' & Hc' & Hcl' & Hu' & Hul' & Hi' & Hil' & Hb').
  split; intros m Hm.
  - destruct (0 <? arr_length (positions (solidArrays a))) eqn:Hpos; [|discriminate].
    apply Z.ltb_lt in Hpos. injection Hm as <-. exists ns. split; [|discriminate].
    unfold MeshData_ok. cbn [attr_position attr_normal attr_color attr_uv attr_ao geometry_index].
    rewrite !contents_length by assumption.
    repeat split; try lia. unfold contents. apply Forall_reverse, Hb.
  - destruct (0 <? arr_length (positions (waterArrays a))) eqn:Hpos; [|discriminate].
    apply Z.ltb_lt in Hpos. injection Hm as <-. exists nw. split; [|reflexivity].
    unfold MeshData_ok. cbn [attr_position attr_normal attr_color attr_uv attr_ao geometry_index].
    rewrite !contents_length by assumption.
    repeat split; try lia. unfold contents. apply Forall_reverse, Hb'.
Qed.

(** ** terrain.ts *)

(** X5.  [generateChunk] marks the chunk generated and in need of a
    rebuild, and leaves it where it is and as large as it is: the same
    coordinates and a block array of the same length. *)
Theorem generateChunk_marks_the_chunk
    (this : TerrainGenerator) (Math_random : nat -> float) (chunk : Chunk) (calls : nat) :
  let generated := (TerrainGenerator_generateChunk this Math_random (chunk, calls)).1 in
  isGenerated generated = true /\ needsRebuild generated = true /\
  chunkX generated = chunkX chunk /\ chunkZ generated = chunkZ chunk /\
  PArray.length (blocks generated) = PArray.length (blocks chunk).
Proof.
  intros generated. subst generated.
  pose proof (generateChunk_shape this Math_random (chunk, calls)) as H.
  unfold chunk_shape in H. cbn [fst] in H.
  apply pair_equal_spec in H as [H Hl]. apply pair_equal_spec in H as [H Hg].
  apply pair_equal_spec in H as [Hx Hz].
  split; [exact Hg|]. split; [|auto].
  unfold TerrainGenerator_generateChunk. cbv zeta.
  match goal with |- context [let '(c, n) := ?s in _] => destruct s end. reflexivity.
Qed.

(** X6.  After [generateChunk] the bottom layer of the chunk is bedrock: the
    first pass writes bedrock at y = 0 of every column, and the trees of
    the second pass stand above it and put leaves only where there is
    air.  This holds for any noise and any values of [Math.random()]. *)
Theorem generateChunk_bedrock_floor
    (this : TerrainGenerator) (Math_random : nat -> float) (chunk : Chunk) (calls : nat)
    (x z : Z) :
  Chunk_wf chunk -> 0 <= x < CHUNK_SIZE -> 0 <= z < CHUNK_SIZE ->
  Chunk_getBlock (TerrainGenerator_generateChunk this Math_random (chunk, calls)).1 x 0 z
    = BEDROCK.
Proof.
  intros Hwf Hx Hz.
  apply (generateChunk_floored this Math_random (chunk, calls) x z Hwf).
  apply in_chunk_iff. unfold CHUNK_HEIGHT. lia.
Qed.

Lemma generateChunk_bedrock_floor_witness :
  Chunk_getBlock
    (TerrainGenerator_generateChunk (flatNoise 0) (fun _ => 0%float) (Chunk_new 0 0, O)).1
    3 0 4 = BEDROCK.
Proof.
  apply (generateChunk_bedrock_floor (flatNoise 0) (fun _ => 0%float) (Chunk_new 0 0) O 3 4);
    [reflexivity | unfold CHUNK_SIZE; lia | unfold CHUNK_SIZE; lia].
Defined.

(** ** world.ts *)

(** X7.  The local coordinate [((n % 32) + 32) % 32] that [getBlock] and
    [setBlock] compute with JavaScript's truncating remainder is the
    remainder of the floor division by which they find the chunk: it lies
    in 0..31, also for negative [n], and the chunk coordinate and the local
    coordinate give [n] back. *)
Theorem localCoord_is_the_floor_remainder (n : Z) :
  0 <= localCoord n < CHUNK_SIZE /\
  n = CHUNK_SIZE * (n / CHUNK_SIZE) + localCoord n.
Proof. split; [apply localCoord_range | apply world_coordinate]. Qed.

(** X8.  [World.setBlock] changes no block but the one it is given: when no
    chunk object is bound under two keys, [getBlock] at any other position
    returns what it returned before, in the chunk written to, in the
    neighbours marked for rebuild, and everywhere else. *)
Theorem World_setBlock_leaves_other_blocks
    (w : World) (x y z x' y' z' : Z) (T : BlockType) :
  NoDup (chunks w).*2 ->
  (x, y, z) <> (x', y', z') ->
  World_getBlock (World_setBlock x y z T w) x' y' z' = World_getBlock w x' y' z'.
Proof. apply setBlock_getBlock_other. Qed.

Lemma World_setBlock_leaves_other_blocks_witness :
  World_getBlock (World_setBlock 96 10 100 STONE twoChunks) 95 10 100 =
  World_getBlock twoChunks 95 10 100.
Proof.
  apply (World_setBlock_leaves_other_blocks twoChunks 96 10 100 95 10 100 STONE).
  - repeat constructor; intros H; inversion H; subst;
      match goal with H' : _ ∈ _ |- _ => inversion H' end.
  - discriminate.
Defined.


(** X10.  After [updateChunks] no resident chunk is farther from the
    player's chunk than the render distance plus 2: every chunk object
    still bound in the map fails the test [distance > unloadDistance] of
    the unload loop. *)
Theorem World_updateChunks_evicts_far_chunks
    (Math_random : nat -> float) (EndGenerator_generateChunk : Chunk * nat -> Chunk * nat)
    (playerX playerZ : float) (w : World) :
  let w' := World_updateChunks Math_random EndGenerator_generateChunk playerX playerZ w in
  let currentChunkX := Math_floor (playerX / Z2float CHUNK_SIZE)%float in
  let currentChunkZ := Math_floor (playerZ / Z2float CHUNK_SIZE)%float in
  Forall (fun '(key, a) => near w' currentChunkX currentChunkZ a) (chunks w').
Proof.
  intros w' cx cz. apply Forall_forall. intros [k a] Hin.
  exact (unloadPhase_near cx cz _ k a Hin).
Qed.

(** X11.  [updateChunks] never binds a key that is bound to another chunk
    object: a key bound before the call is bound to the same object after
    it, or to none when the chunk was evicted. *)
Theorem World_updateChunks_keeps_bindings
    (Math_random : nat -> float) (EndGenerator_generateChunk : Chunk * nat -> Chunk * nat)
    (playerX playerZ : float) (w : World) (key : ChunkKey) (a : addr) :
  Map_get key (chunks w) = Some a ->
  let w' := World_updateChunks Math_random EndGenerator_generateChunk playerX playerZ w in
  Map_get key (chunks w') = Some a \/ Map_get key (chunks w') = None.
Proof. apply updateChunks_bindings. Qed.

Lemma World_updateChunks_keeps_bindings_witness :
  let w' := World_updateChunks (fun _ => 0%float) (fun st => st) 0 0 twoChunks in
  Map_get (3, 3) (chunks w') = Some 0%nat \/ Map_get (3, 3) (chunks w') = None.
Proof.
  apply (World_updateChunks_keeps_bindings (fun _ => 0%float) (fun st => st) 0 0
           twoChunks (3, 3) 0%nat).
  reflexivity.
Defined.

(** X12.  The worlds the game can reach are well formed.  From [new World],
    after any sequence of [setBlock], [updateChunks], [generateStructures],
    [generateSpawnVillage], [checkLootChest] and [setDimension]: no key of
    the map is bound twice, no chunk object is bound under two keys, the
    chunk bound to a key has the coordinates of the key, and every chunk
    object has a block array of 32 * 128 * 32 cells.  Of the End generator,
    which is not in the sources, it is assumed that it keeps the
    coordinates and the array length of the chunk it fills. *)
Theorem World_wf_reachable
    (Math_random : nat -> float) (EndGenerator_generateChunk : Chunk * nat -> Chunk * nat)
    (t : TerrainGenerator) (renderDistance : Z) (ops : list Operation) :
  (forall c n,
     let c' := (EndGenerator_generateChunk (c, n)).1 in
     chunkX c' = chunkX c /\ chunkZ c' = chunkZ c /\
     PArray.length (blocks c') = PArray.length (blocks c)) ->
  World_wf (run Math_random EndGenerator_generateChunk ops (World_new t renderDistance)).
Proof. intros Hend. apply run_wf; [exact Hend | apply World_new_wf]. Qed.

Lemma World_wf_reachable_witness :
  World_wf (run (fun _ => 0%float) (fun st => st)
              [DoUpdateChunks 0 0; DoSetBlock 1 50 1 STONE; DoSetDimension the_end;
               DoUpdateChunks 0 0]
              (World_new (flatNoise 0) 1)).
Proof.
  apply (World_wf_reachable (fun _ => 0%float) (fun st => st)).
  intros c n. simpl. repeat split; reflexivity.
Defined.

(** X13.  A hit of [raycast] is a solid block: when the result has
    [hit = true], it has a position, its [blockPos] is the floor of that
    position, and the block of the world at [blockPos] is solid. *)
Theorem World_raycast_hit_is_a_solid_block
    (fuel : nat) (w : World) (origin direction : Vector3) (maxDistance : float)
    (r : RaycastResult) :
  World_raycast fuel w origin direction maxDistance = Returned r ->
  hit r = true ->
  exists pos,
    position r = Some pos /\
    blockPos r = Some {| pos_x := Math_floor (vx pos); pos_y := Math_floor (vy pos);
                         pos_z := Math_floor (vz pos) |} /\
    solid (BLOCKS (World_getBlock w (Math_floor (vx pos)) (Math_floor (vy pos))
                     (Math_floor (vz pos)))) = true.
Proof.
  unfold World_raycast. intros Hr Hhit.
  apply raycast_from_Returned in Hr as [->|(pos & b & Hb & Hs & ->)]; [discriminate|].
  exists pos. split; [reflexivity|]. split; [reflexivity|].
  rewrite <- (sampleBlock_solid w pos b Hb Hs). exact Hs.
Qed.

Lemma World_raycast_hit_is_a_solid_block_witness :
  exists pos,
    position (hitAt {| vx := 0; vy := 64.9; vz := 0 |}) = Some pos /\
    blockPos (hitAt {| vx := 0; vy := 64.9; vz := 0 |}) =
      Some {| pos_x := Math_floor (vx pos); pos_y := Math_floor (vy pos);
              pos_z := Math_floor (vz pos) |} /\
    solid (BLOCKS (World_getBlock stoneAt64 (Math_floor (vx pos)) (Math_floor (vy pos))
                     (Math_floor (vz pos)))) = true.
Proof.
  apply (World_raycast_hit_is_a_solid_block 2 stoneAt64 {| vx := 0; vy := 65; vz := 0 |}
           {| vx := 0; vy := -1; vz := 0 |} 8);
    vm_compute; reflexivity.
Defined.

(** X14.  [getSpawnHeight] returns the height just above the highest solid
    block of the column, or 50 when the column has no solid block: no block
    of the column at or above the height returned is solid, and the block
    below it is solid unless the column has none. *)
Theorem World_getSpawnHeight_is_above_the_column (w : World) (x z : float) :
  is_finite x = true -> is_finite z = true ->
  let h := World_getSpawnHeight w x z in
  let column y := solid (BLOCKS (World_getBlock w (Math_floor x) y (Math_floor z))) in
  1 <= h <= CHUNK_HEIGHT /\
  (forall y, h <= y < CHUNK_HEIGHT -> column y = false) /\
  (column (h - 1) = true \/
   (h = 50 /\ forall y, 0 <= y < CHUNK_HEIGHT -> column y = false)).
Proof.
  intros Hx Hz h column. unfold h, World_getSpawnHeight. rewrite Hx, Hz. cbn [andb].
  pose proof (find_downto column (CHUNK_HEIGHT - 1) 0) as Hf. fold column.
  destruct (find column (downto (CHUNK_HEIGHT - 1) 0)) as [y|].
  - destruct Hf as (Hr & Hy & Ha). unfold CHUNK_HEIGHT in *.
    split; [lia|]. split; [intros y' Hy'; apply Ha; lia|].
    left. replace (y + 1 - 1) with y by lia. exact Hy.
  - unfold CHUNK_HEIGHT in *. split; [lia|].
    split; [intros y' Hy'; apply Hf; lia|].
    right. split; [reflexivity|]. intros y' Hy'. apply Hf. lia.
Qed.

Lemma World_getSpawnHeight_witness :
  let h := World_getSpawnHeight stoneAt64 0 0 in
  let column y := solid (BLOCKS (World_getBlock stoneAt64 (Math_floor 0) y (Math_floor 0))) in
  1 <= h <= CHUNK_HEIGHT /\
  (forall y, h <= y < CHUNK_HEIGHT -> column y = false) /\
  (column (h - 1) = true \/
   (h = 50 /\ forall y, 0 <= y < CHUNK_HEIGHT -> column y = false)).
Proof.
  apply (World_getSpawnHeight_is_above_the_column stoneAt64 0 0); reflexivity.
Defined.

(** X15.  Sorting the generation queue by priority keeps its entries: the
    sorted queue is a permutation of the queue. *)
Theorem sortByPriority_keeps_the_entries (queue : list GenEntry) :
  sortByPriority queue ≡ₚ queue.
Proof. apply sortByPriority_Permutation. Qed.

(** ** structures.ts *)

(** X16.  [generateStructures] places blocks and records loot and villages,
    and does nothing else to the world: it binds and unbinds no chunk,
    creates no chunk object, and leaves the coordinates, the generated flag
    and the array length of every chunk object, both queues, the event log,
    the dimension, the render distance and the flag of the spawn village as
    they are. *)
Theorem generateStructures_only_places_blocks
    (Math_random : nat -> float) (chunk : Chunk) (w : World) :
  let w' := generateStructures Math_random chunk w in
  chunks w' = chunks w /\
  chunk_shape <$> store w' = chunk_shape <$> store w /\
  chunksToGenerate w' = chunksToGenerate w /\
  chunksToRebuild w' = chunksToRebuild w /\
  history w' = history w /\
  currentDimension w' = currentDimension w /\
  renderDistance w' = renderDistance w /\
  spawnVillageGenerated (structures w') = spawnVillageGenerated (structures w).
Proof.
  intros w'. pose proof (generateStructures_outline Math_random chunk w) as H.
  fold w' in H. unfold outline in H.
  cbn [set_structures structures history chunks chunksToGenerate chunksToRebuild
       currentDimension renderDistance store spawnVillageGenerated] in H.
  injection H as _ H1 H2 H3 H4 H5 H6 H7 H8. auto 10.
Qed.

(** X17.  [checkLootChest] takes the first chest recorded at the position
    out of the list and returns it, leaving the chests before and after it
    in their order; when no chest is recorded there it returns null and
    leaves the list as it is. *)
Theorem checkLootChest_takes_the_first_match (x y z : Z) (w : World) :
  let found := (checkLootChest x y z w).1 in
  let remaining := lootChests (structures (checkLootChest x y z w).2) in
  match found with
  | Some chest =>
      chestAt x y z chest /\
      exists before after,
        lootChests (structures w) = before ++ chest :: after /\
        remaining = before ++ after /\
        Forall (fun c => ~ chestAt x y z c) before
  | None =>
      remaining = lootChests (structures w) /\
      Forall (fun c => ~ chestAt x y z c) (lootChests (structures w))
  end.
Proof.
  unfold checkLootChest.
  pose proof (removeLootChest_spec x y z (lootChests (structures w))) as H.
  destruct (removeLootChest x y z (lootChests (structures w))) as [[chest|] rest];
    cbn [fst snd set_structures structures lootChests]; exact H.
Qed.

(** X18.  The spawn village is generated once: after a call of
    [generateSpawnVillage], and whatever the game does next, another call
    changes nothing. *)
Theorem generateSpawnVillage_once
    (Math_random : nat -> float) (EndGenerator_generateChunk : Chunk * nat -> Chunk * nat)
    (ops : list Operation) (w : World) :
  let later := run Math_random EndGenerator_generateChunk ops (generateSpawnVillage w) in
  generateSpawnVillage later = later.
Proof.
  intros later.
  assert (spawned later) as H by apply run_spawned, generateSpawnVillage_spawned.
  unfold generateSpawnVillage. rewrite H. reflexivity.
Qed.

(** X19.  The seed of the seeded random numbers stays a non-negative 31-bit
    integer, whatever seed the generator starts from. *)
Theorem seededRandom_seed_range (seed : Z) :
  0 <= (seededRandom_next seed).1 <= 2147483647.
Proof. apply seededRandom_next_seed. Qed.

(** ** inventory.ts *)

(** X20.  [addItem] loses no item and makes none: the items of the type in
    the inventory afterwards and the number returned add up to the items of
    the type before and the number given.  The number of slots and the
    items of every other type stay as they are. *)
Theorem Inventory_addItem_conserves_items (type : string) (count : Z) (inv : Inventory) :
  let returned := (Inventory_addItem type count inv).1 in
  let after := (Inventory_addItem type count inv).2 in
  countOf type (slots after) + returned = countOf type (slots inv) + count /\
  length (slots after) = length (slots inv) /\
  forall other, other <> type -> countOf other (slots after) = countOf other (slots inv).
Proof.
  unfold Inventory_addItem. cbv zeta.
  pose proof (stackExisting_spec type (Inventory_getMaxStack type) (slots inv) count) as H1.
  destruct (stackExisting _ _ (slots inv) count) as [[l1 r1] ret1].
  destruct H1 as (Hl1 & Hc1 & Ho1 & Hr1 & _).
  destruct ret1; cbn [fst snd set_slots slots].
  - rewrite (Hr1 eq_refl) in Hc1. split; [lia|]. split; [exact Hl1 | exact Ho1].
  - pose proof (fillEmpty_spec type (Inventory_getMaxStack type) l1 r1) as H2.
    destruct (fillEmpty _ _ l1 r1) as [[l2 r2] ret2].
    destruct H2 as (Hl2 & Hc2 & Ho2 & Hr2 & _).
    destruct ret2; cbn [fst snd set_slots slots].
    + rewrite (Hr2 eq_refl) in Hc2. split; [lia|]. split; [lia|].
      intros other Hne. rewrite (Ho2 other Hne). apply Ho1, Hne.
    + split; [lia|]. split; [lia|].
      intros other Hne. rewrite (Ho2 other Hne). apply Ho1, Hne.
Qed.

(** X21.  [addItem] touches only what it may: each slot afterwards is the
    slot before, or the same stack of the type with another count, or a new
    stack of the type in a slot that was empty; the selected slot stays. *)
Theorem Inventory_addItem_touches_only_the_type
    (type : string) (count : Z) (inv : Inventory) :
  let after := (Inventory_addItem type count inv).2 in
  Forall2 (touched type (Inventory_getMaxStack type)) (slots inv) (slots after) /\
  selectedSlot after = selectedSlot inv.
Proof.
  unfold Inventory_addItem. cbv zeta.
  pose proof (stackExisting_touched type (Inventory_getMaxStack type) (slots inv) count) as H1.
  destruct (stackExisting _ _ (slots inv) count) as [[l1 r1] ret1]. cbn [fst] in H1.
  destruct ret1; cbn [fst snd set_slots slots selectedSlot]; [split; [exact H1|reflexivity]|].
  pose proof (fillEmpty_touched type (Inventory_getMaxStack type) l1 r1) as H2.
  destruct (fillEmpty _ _ l1 r1) as [[l2 r2] ret2]. cbn [fst] in H2.
  destruct ret2; cbn [fst snd set_slots slots selectedSlot];
    (split; [eapply Forall2_touched_trans; eassumption | reflexivity]).
Qed.

(** X22.  [addItem] keeps the stacks within their size: when at least one
    item is added and every stack of the type holds between 1 and
    [maxStack] items, then so it is afterwards; no stack overflows and no
    empty stack is made. *)
Theorem Inventory_addItem_keeps_stacks_bounded
    (type : string) (count : Z) (inv : Inventory) :
  1 <= count ->
  Forall (bounded type (Inventory_getMaxStack type)) (slots inv) ->
  Forall (bounded type (Inventory_getMaxStack type))
         (slots (Inventory_addItem type count inv).2).
Proof.
  intros Hcount Hall. unfold Inventory_addItem. cbv zeta.
  pose proof (stackExisting_bounded type (Inventory_getMaxStack type) (slots inv) count
                Hcount Hall) as H1.
  destruct (stackExisting _ _ (slots inv) count) as [[l1 r1] ret1].
  destruct H1 as [Hb1 Hr1].
  destruct ret1; cbn [fst snd set_slots slots]; [exact Hb1|].
  pose proof (fillEmpty_bounded type (Inventory_getMaxStack type) l1 r1
                (Hr1 eq_refl) (getMaxStack_pos type) Hb1) as H2.
  destruct (fillEmpty _ _ l1 r1) as [[l2 r2] ret2]. cbn [fst] in H2.
  destruct ret2; exact H2.
Qed.

Lemma Inventory_addItem_keeps_stacks_bounded_witness :
  Forall (bounded "stick" (Inventory_getMaxStack "stick"))
         (slots (Inventory_addItem "stick" 70 twoEmptySlots).2).
Proof.
  apply (Inventory_addItem_keeps_stacks_bounded "stick" 70 twoEmptySlots);
    [lia | repeat constructor].
Defined.

(** X23.  [addItem] returns a number other than 0 only when the inventory
    is full for the type: afterwards no slot is empty and every stack of
    the type holds at least [maxStack] items. *)
Theorem Inventory_addItem_leftover_means_full
    (type : string) (count : Z) (inv : Inventory) :
  (Inventory_addItem type count inv).1 <> 0 ->
  Forall (full type (Inventory_getMaxStack type))
         (slots (Inventory_addItem type count inv).2).
Proof.
  unfold Inventory_addItem. cbv zeta.
  pose proof (stackExisting_spec type (Inventory_getMaxStack type) (slots inv) count) as H1.
  destruct (stackExisting _ _ (slots inv) count) as [[l1 r1] ret1].
  destruct H1 as (_ & _ & _ & _ & Hf1 & _).
  destruct ret1; cbn [fst snd set_slots slots]; [intros H; destruct (H eq_refl)|].
  pose proof (fillEmpty_spec type (Inventory_getMaxStack type) l1 r1) as H2.
  destruct (fillEmpty _ _ l1 r1) as [[l2 r2] ret2].
  destruct H2 as (_ & _ & _ & _ & Hf2).
  destruct ret2; cbn [fst snd set_slots slots]; [intros H; destruct (H eq_refl)|].
  intros _. apply Hf2; [reflexivity | apply Hf1; reflexivity].
Qed.

Lemma Inventory_addItem_leftover_means_full_witness :
  Forall (full "stick" (Inventory_getMaxStack "stick"))
         (slots (Inventory_addItem "stick" 200 twoEmptySlots).2).
Proof.
  apply (Inventory_addItem_leftover_means_full "stick" 200 twoEmptySlots).
  vm_compute. discriminate.
Defined.

(** X24.  [removeItem] splits the stack of the slot: the stack returned
    holds the smaller of the count asked for and the count in the slot, the
    items returned and the items left add up to the items before, and the
    items of every other type and the number of slots stay as they are. *)
Theorem Inventory_removeItem_splits_the_stack
    (slotIndex count : Z) (inv after : Inventory) (removed item : ItemStack) :
  Inventory_slot inv slotIndex = Some (Some item) ->
  Inventory_removeItem slotIndex count inv = Some (Some removed, after) ->
  stack_type removed = stack_type item /\
  stack_count removed = Z.min (stack_count item) count /\
  countOf (stack_type item) (slots after) + stack_count removed =
    countOf (stack_type item) (slots inv) /\
  length (slots after) = length (slots inv) /\
  forall other, other <> stack_type item ->
    countOf other (slots after) = countOf other (slots inv).
Proof.
  unfold Inventory_removeItem. intros Hslot. rewrite Hslot.
  unfold Inventory_slot in Hslot. destruct (slotIndex <? 0); [discriminate|].
  destruct (stack_count item <=? count) eqn:Hle; intros [= <- <-];
    [apply Z.leb_le in Hle | apply Z.leb_gt in Hle];
    cbn [set_slots slots set_count stack_type stack_count];
    rewrite (countOf_insert _ _ _ _ _ Hslot), length_insert, held_same.
  - rewrite held_None. split; [reflexivity|]. split; [lia|]. split; [lia|].
    split; [reflexivity|]. intros other Hne.
    rewrite (countOf_insert _ _ _ _ _ Hslot), held_None, held_other by congruence. lia.
  - rewrite (held_set_count (stack_type item)) by reflexivity.
    split; [reflexivity|]. split; [lia|]. split; [lia|].
    split; [reflexivity|]. intros other Hne.
    rewrite (countOf_insert _ _ _ _ _ Hslot), held_set_count_other, held_other by congruence.
    lia.
Qed.

Lemma Inventory_removeItem_splits_the_stack_witness :
  let item := {| stack_type := "stick"; stack_count := 10; stack_maxStack := 64 |} in
  let removed := {| stack_type := "stick"; stack_count := 3; stack_maxStack := 64 |} in
  let after :=
    {| slots := [Some {| stack_type := "stick"; stack_count := 7; stack_maxStack := 64 |}];
       selectedSlot := 0 |} in
  stack_type removed = stack_type item /\
  stack_count removed = Z.min (stack_count item) 3 /\
  countOf (stack_type item) (slots after) + stack_count removed =
    countOf (stack_type item) (slots tenSticks) /\
  length (slots after) = length (slots tenSticks) /\
  forall other, other <> stack_type item ->
    countOf other (slots after) = countOf other (slots tenSticks).
Proof.
  intros item removed after.
  apply (Inventory_removeItem_splits_the_stack 0 3 tenSticks after removed item);
    reflexivity.
Defined.

(** X25.  [useSelectedItem] uses one item: for a selected stack of at least
    one item it returns true, the inventory holds one item of the type
    less, and the slot is emptied exactly when the stack held one item. *)
Theorem Inventory_useSelectedItem_uses_one (inv : Inventory) (item : ItemStack) :
  Inventory_getSelectedItem inv = Some (Some item) ->
  1 <= stack_count item ->
  exists after,
    Inventory_useSelectedItem inv = Some (true, after) /\
    countOf (stack_type item) (slots after) = countOf (stack_type item) (slots inv) - 1 /\
    Inventory_getSelectedItem after =
      Some (if stack_count item =? 1 then None
            else Some (set_count item (stack_count item - 1))).
Proof.
  unfold Inventory_getSelectedItem, Inventory_useSelectedItem. intros Hslot Hc.
  rewrite Hslot. cbv zeta. eexists. split; [reflexivity|].
  unfold Inventory_slot in *. cbn [set_slots slots selectedSlot].
  destruct (selectedSlot inv <? 0); [discriminate|].
  rewrite (countOf_insert _ _ _ _ _ Hslot), held_same.
  rewrite list_lookup_insert_eq by (eapply lookup_lt_Some, Hslot).
  destruct (stack_count item - 1 <=? 0) eqn:H0;
    [apply Z.leb_le in H0 | apply Z.leb_gt in H0].
  - rewrite held_None. assert (stack_count item = 1) as -> by lia. split; [lia | reflexivity].
  - rewrite (held_set_count (stack_type item)) by reflexivity. split; [lia|].
    destruct (stack_count item =? 1) eqn:H1; [apply Z.eqb_eq in H1; lia | reflexivity].
Qed.

Lemma Inventory_useSelectedItem_uses_one_witness :
  let item := {| stack_type := "stick"; stack_count := 10; stack_maxStack := 64 |} in
  exists after,
    Inventory_useSelectedItem tenSticks = Some (true, after) /\
    countOf (stack_type item) (slots after) =
      countOf (stack_type item) (slots tenSticks) - 1 /\
    Inventory_getSelectedItem after =
      Some (if stack_count item =? 1 then None
            else Some (set_count item (stack_count item - 1))).
Proof.
  intros item. apply (Inventory_useSelectedItem_uses_one tenSticks item);
    [reflexivity | simpl; lia].
Defined.
